(** * bonsai-sdk: the simulator protocol engine

    A shallow embedding of [bonsai_ai/simulator_ws.py] (class
    [Simulator_WS]) and of the parts of [bonsai_ai/simulator.py] it drives
    ([_RateCounter] and the [_on_*] hooks of [Simulator]), followed by the
    properties of the protocol state machine.

    Python objects are records, attribute assignment is a record update,
    and a method is a computation in a state-and-exception monad over the
    whole object graph ([World]).  Unlike a rollback monad, the state
    reached when an exception is raised is kept: a Python exception does
    not undo the assignments made before it. *)

From Stdlib Require Import ZArith List String Bool Lia.
From Stdlib Require Import PrimFloat SpecFloat FloatOps.
From stdpp Require Import gmap strings list.

Set Warnings "-inexact-float".

Definition bytes := list Byte.byte.

(** ** The protocol messages ([generator_simulator_api_pb2]) *)

(** Incoming messages.  [message_type] is an open enumeration on the wire:
    [Unrecognized n] is a number that none of the declared names has. *)
Module ServerToSimulator.

Inductive MessageType :=
| UNKNOWN
| ACKNOWLEDGE_REGISTER
| SET_PROPERTIES
| START
| PREDICTION
| RESET
| STOP
| FINISHED
| Unrecognized (number : Z).

#[global] Instance MessageType_eq_dec : EqDecision MessageType.
Proof. solve_decision. Defined.

(** An injection into a countable type, so that message types can key a
    finite map; the numbers are not those of the wire. *)
Definition MessageType_code (t : MessageType) : nat + Z :=
  match t with
  | UNKNOWN => inl 0
  | ACKNOWLEDGE_REGISTER => inl 1
  | SET_PROPERTIES => inl 2
  | START => inl 3
  | PREDICTION => inl 4
  | RESET => inl 5
  | STOP => inl 6
  | FINISHED => inl 7
  | Unrecognized n => inr n
  end.

Definition MessageType_decode (c : nat + Z) : MessageType :=
  match c with
  | inl 0 => UNKNOWN
  | inl 1 => ACKNOWLEDGE_REGISTER
  | inl 2 => SET_PROPERTIES
  | inl 3 => START
  | inl 4 => PREDICTION
  | inl 5 => RESET
  | inl 6 => STOP
  | inl _ => FINISHED
  | inr n => Unrecognized n
  end.

#[global] Instance MessageType_countable : Countable MessageType.
Proof.
  apply (inj_countable' MessageType_code MessageType_decode).
  intros []; reflexivity.
Defined.

Section Data.
Context {DescriptorProto : Type}.

Record AcknowledgeRegisterData := {
  properties_schema : DescriptorProto;
  output_schema : DescriptorProto;
  ack_prediction_schema : DescriptorProto;
  ack_sim_id : Z
}.

Record SetPropertiesData := {
  prediction_schema : DescriptorProto;
  reward_name : string;
  dynamic_properties : bytes
}.

Record PredictionData := { dynamic_prediction : bytes }.

Record t := {
  message_type : MessageType;
  acknowledge_register_data : AcknowledgeRegisterData;
  set_properties_data : SetPropertiesData;
  prediction_data : list PredictionData
}.
End Data.
Arguments AcknowledgeRegisterData : clear implicits.
Arguments SetPropertiesData : clear implicits.
Arguments t : clear implicits.

End ServerToSimulator.

(** ** Python: exceptions, numbers, calls *)

Module Py.

(** The argument of [str.format]: the template is kept with its
    arguments, so an error text names exactly what the source puts in. *)
Inductive fmt_arg :=
| ArgEnum (v : ServerToSimulator.MessageType)
| ArgInt (v : option Z)
| ArgStr (v : option string).

Record formatted := format { template : string; args : list fmt_arg }.

(** Exceptions that cross the code under study. *)
Inductive exn :=
| ZeroDivisionError
| OverflowError
| TypeError (msg : string)
| AttributeError (msg : string)
| KeyboardInterrupt
| SimStateError
| DecodeError
| StreamClosedError
| WebSocketClosedError
| UserException (name : string)
| BonsaiServerError (msg : formatted)
| SimulateError (original : exn)
| EpisodeStartError (original : exn).

(** [except Exception] catches everything but the [BaseException]-only
    classes; [KeyboardInterrupt] is the one of those modelled here. *)
Definition is_Exception (e : exn) : bool :=
  match e with
  | KeyboardInterrupt => false
  | _ => true
  end.

(** A Python number: [int] (unbounded) or [float] (binary64). *)
Inductive num :=
| Int (z : Z)
| Float (f : float).

(** [float(z)]: round to nearest even; too large an [int] raises. *)
Definition float_of_int (z : Z) : exn + float :=
  let f := SF2Prim (binary_normalize prec emax z 0 false) in
  if is_infinity f then inl OverflowError else inr f.

Definition to_float (x : num) : exn + float :=
  match x with
  | Int z => float_of_int z
  | Float f => inr f
  end.

(** [x / d] with a float divisor: the dividend is converted, and a zero
    divisor (of either sign) raises [ZeroDivisionError]. *)
Definition truediv_float (x : num) (d : float) : exn + float :=
  match to_float x with
  | inl e => inl e
  | inr fx => if PrimFloat.eqb d 0 then inl ZeroDivisionError else inr (fx / d)%float
  end.

(** [x * f] with a float right operand. *)
Definition mul_float (x : num) (f : float) : exn + float :=
  match to_float x with
  | inl e => inl e
  | inr fx => inr (fx * f)%float
  end.

(** [x + y]. *)
Definition add (x y : num) : exn + num :=
  match x, y with
  | Int a, Int b => inr (Int (a + b))
  | Float a, Float b => inr (Float (a + b)%float)
  | Int a, Float b =>
      match float_of_int a with inl e => inl e | inr fa => inr (Float (fa + b)%float) end
  | Float a, Int b =>
      match float_of_int b with inl e => inl e | inr fb => inr (Float (a + fb)%float) end
  end.

(** [x is not y] where [x] is a float object and [y] an int object:
    objects of different classes are never the same object, so the test
    holds whatever the two values are. *)
Definition float_is_not_int (x : float) (y : Z) : bool := true.

End Py.

Abbreviation exn := Py.exn.

(** ** [simulator.py]: [_RateCounter] *)

Module RateCounter.

Record t := mk { count : Z; rate : Py.num; start : float }.

(** [reset] at clock reading [now]. *)
Definition reset (now : float) : t :=
  {| count := 0; rate := Py.Int 0; start := now |}.

Definition DECAY_RATE : float := 0.9%float.

(** [update] at clock reading [now].  The counter object is returned in
    both outcomes: [count] is assigned before anything can raise. *)
Definition update (now : float) (self : t) : (exn + unit) * t :=
  let self := {| count := count self + 1; rate := rate self; start := start self |} in
  let delta := (now - start self)%float in
  if Py.float_is_not_int delta 0 then
    match Py.truediv_float (Py.Int (count self)) delta with
    | inl e => (inl e, self)
    | inr average =>
        match Py.mul_float (rate self) (1.0 - DECAY_RATE)%float with
        | inl e => (inl e, self)
        | inr old =>
            (inr tt, {| count := count self;
                        rate := Py.Float (average * DECAY_RATE + old)%float;
                        start := start self |})
        end
    end
  else (inr tt, self).

End RateCounter.

(** Outgoing messages.  [UNSET] is the zero value a fresh message has; the
    three declared types are non-zero, hence truthy. *)
Module SimulatorToServer.

Inductive MessageType := UNSET | REGISTER | READY | STATE.

Definition truthy (t : MessageType) : bool :=
  match t with UNSET => false | _ => true end.

Record RegisterData := { simulator_name : string }.

Record SimulationState := {
  state : bytes;
  reward : Py.num;
  terminal : bool;
  action_taken : bytes
}.

Record t := {
  message_type : MessageType;
  sim_id : Z;
  register_data : RegisterData;
  state_data : list SimulationState
}.

(** [SimulatorToServer()] *)
Definition new : t :=
  {| message_type := UNSET; sim_id := 0;
     register_data := {| simulator_name := "" |}; state_data := [] |}.

End SimulatorToServer.

(** ** The collaborators the engine is given *)

(** Schema-shaped messages: the descriptors the server delivers, the message
    objects [InklingMessageFactory] builds from them, the state encoder and
    the wire encoding of the two protocol messages.  None of these modules
    is part of the engine; it uses exactly the operations listed here.
    [fields m] stands for the names of [m.DESCRIPTOR.fields], in order, and
    [getattr m name] for the attribute of that name, which a message object
    has for each of its declared fields. *)
Class Protobuf := {
  Value : Type;
  DescriptorProto : Type;
  Message : Type;
  fields : Message -> list string;
  getattr : Message -> string -> Value;
  SerializeToString : Message -> bytes;
  MessageToJson : Message -> string;
  new_message_from_proto : option DescriptorProto -> Message;
  message_for_dynamic_message : bytes -> option DescriptorProto -> option Message;
  convert_state_to_proto : Message -> gmap string Value -> exn + Message;
  to_server_SerializeToString : SimulatorToServer.t -> bytes;
  from_server_ParseFromString : bytes -> exn + ServerToSimulator.t DescriptorProto
}.

Record HTTPRequest := {
  url : string;
  connect_timeout : Z;
  request_timeout : Z;
  headers : gmap string string
}.

(** The websocket and the wall clock.  [websocket_connect] answers with the
    [repr] of the exception when it fails; [read_message] answers [None]
    when the connection has closed; [time_time n] is what the [n]-th call of
    [time.time()] returns. *)
Class Runtime := {
  WebSocket : Type;
  websocket_connect : HTTPRequest -> string + WebSocket;
  write_message : bytes -> WebSocket -> (exn + unit) * WebSocket;
  read_message : WebSocket -> option bytes * WebSocket;
  close : WebSocket -> WebSocket;
  close_code : WebSocket -> option Z;
  close_reason : WebSocket -> option string;
  time_time : nat -> float
}.

(** The methods a subclass of [Simulator] supplies, as transitions of the
    subclass's own state. *)
Class UserSimulator `{Protobuf} := {
  user_state : Type;
  episode_start :
    gmap string Value -> user_state -> (exn + gmap string Value) * user_state;
  simulate :
    gmap string Value -> user_state ->
    (exn + (gmap string Value * Py.num * bool)) * user_state;
  episode_finish : user_state -> (exn + unit) * user_state
}.

(** ** The objects *)

Module Brain.
Record t := {
  config_predict : bool;
  config_accesskey : string;
  _prediction_url : string;
  _simulation_url : string;
  _user_info : string
}.
End Brain.

Module Simulator.
Section Object.
Context `{UserSimulator}.

Record t := {
  brain : Brain.t;
  name : string;
  episode_reward : Py.num;
  episode_count : Z;
  _episode_rate : RateCounter.t;
  iteration_count : Z;
  _iteration_rate : RateCounter.t;
  user : user_state
}.

(** [self.<attribute> = v], one function per attribute that is assigned. *)
Definition set_episode_reward v (o : t) : t :=
  {| brain := brain o; name := name o; episode_reward := v;
     episode_count := episode_count o; _episode_rate := _episode_rate o;
     iteration_count := iteration_count o; _iteration_rate := _iteration_rate o;
     user := user o |}.

Definition set_episode_count v (o : t) : t :=
  {| brain := brain o; name := name o; episode_reward := episode_reward o;
     episode_count := v; _episode_rate := _episode_rate o;
     iteration_count := iteration_count o; _iteration_rate := _iteration_rate o;
     user := user o |}.

Definition set_episode_rate v (o : t) : t :=
  {| brain := brain o; name := name o; episode_reward := episode_reward o;
     episode_count := episode_count o; _episode_rate := v;
     iteration_count := iteration_count o; _iteration_rate := _iteration_rate o;
     user := user o |}.

Definition set_iteration_count v (o : t) : t :=
  {| brain := brain o; name := name o; episode_reward := episode_reward o;
     episode_count := episode_count o; _episode_rate := _episode_rate o;
     iteration_count := v; _iteration_rate := _iteration_rate o;
     user := user o |}.

Definition set_iteration_rate v (o : t) : t :=
  {| brain := brain o; name := name o; episode_reward := episode_reward o;
     episode_count := episode_count o; _episode_rate := _episode_rate o;
     iteration_count := iteration_count o; _iteration_rate := v;
     user := user o |}.

Definition set_user v (o : t) : t :=
  {| brain := brain o; name := name o; episode_reward := episode_reward o;
     episode_count := episode_count o; _episode_rate := _episode_rate o;
     iteration_count := iteration_count o; _iteration_rate := _iteration_rate o;
     user := v |}.

(** The [predict] property. *)
Definition predict (o : t) : bool := Brain.config_predict (brain o).
End Object.
Arguments t {_ _}.
End Simulator.

Module SimStep.
Section Object.
Context `{Protobuf}.

Record t := {
  prediction : bytes;
  state : option Message;
  reward : Py.num;
  terminal : bool
}.

(** [SimStep()] followed by the assignment of [prediction], the only
    way the engine makes a step. *)
Definition new (p : bytes) : t :=
  {| prediction := p; state := None; reward := Py.Int 0; terminal := false |}.
End Object.
Arguments t {_}.
End SimStep.

Module Simulator_WS.
Section Object.
Context `{UserSimulator} `{Runtime}.

Record t := {
  brain : Brain.t;
  name : string;
  objective_name : option string;
  _sim : Simulator.t;
  _ws : option WebSocket;
  _prev_message_type : ServerToSimulator.MessageType;
  _properties_schema : option DescriptorProto;
  _output_schema : option DescriptorProto;
  _prediction_schema : option DescriptorProto;
  _sim_id : Z;
  _init_properties : gmap string Value;
  _sim_steps : list SimStep.t;
  _predictor_action : option (gmap string Value);
  _dispatch_send : gmap ServerToSimulator.MessageType string;
  _dispatch_recv : gmap ServerToSimulator.MessageType string
}.

(** [self.<attribute> = v], one function per attribute that is assigned. *)
Definition set_objective_name v (o : t) : t :=
  {| brain := brain o; name := name o; objective_name := v; _sim := _sim o;
     _ws := _ws o; _prev_message_type := _prev_message_type o;
     _properties_schema := _properties_schema o;
     _output_schema := _output_schema o;
     _prediction_schema := _prediction_schema o; _sim_id := _sim_id o;
     _init_properties := _init_properties o; _sim_steps := _sim_steps o;
     _predictor_action := _predictor_action o; _dispatch_send := _dispatch_send o;
     _dispatch_recv := _dispatch_recv o |}.

Definition set_sim v (o : t) : t :=
  {| brain := brain o; name := name o; objective_name := objective_name o;
     _sim := v; _ws := _ws o; _prev_message_type := _prev_message_type o;
     _properties_schema := _properties_schema o;
     _output_schema := _output_schema o;
     _prediction_schema := _prediction_schema o; _sim_id := _sim_id o;
     _init_properties := _init_properties o; _sim_steps := _sim_steps o;
     _predictor_action := _predictor_action o; _dispatch_send := _dispatch_send o;
     _dispatch_recv := _dispatch_recv o |}.

Definition set_ws v (o : t) : t :=
  {| brain := brain o; name := name o; objective_name := objective_name o;
     _sim := _sim o; _ws := v; _prev_message_type := _prev_message_type o;
     _properties_schema := _properties_schema o;
     _output_schema := _output_schema o;
     _prediction_schema := _prediction_schema o; _sim_id := _sim_id o;
     _init_properties := _init_properties o; _sim_steps := _sim_steps o;
     _predictor_action := _predictor_action o; _dispatch_send := _dispatch_send o;
     _dispatch_recv := _dispatch_recv o |}.

Definition set_prev_message_type v (o : t) : t :=
  {| brain := brain o; name := name o; objective_name := objective_name o;
     _sim := _sim o; _ws := _ws o; _prev_message_type := v;
     _properties_schema := _properties_schema o;
     _output_schema := _output_schema o;
     _prediction_schema := _prediction_schema o; _sim_id := _sim_id o;
     _init_properties := _init_properties o; _sim_steps := _sim_steps o;
     _predictor_action := _predictor_action o; _dispatch_send := _dispatch_send o;
     _dispatch_recv := _dispatch_recv o |}.

Definition set_properties_schema v (o : t) : t :=
  {| brain := brain o; name := name o; objective_name := objective_name o;
     _sim := _sim o; _ws := _ws o; _prev_message_type := _prev_message_type o;
     _properties_schema := v; _output_schema := _output_schema o;
     _prediction_schema := _prediction_schema o; _sim_id := _sim_id o;
     _init_properties := _init_properties o; _sim_steps := _sim_steps o;
     _predictor_action := _predictor_action o; _dispatch_send := _dispatch_send o;
     _dispatch_recv := _dispatch_recv o |}.

Definition set_output_schema v (o : t) : t :=
  {| brain := brain o; name := name o; objective_name := objective_name o;
     _sim := _sim o; _ws := _ws o; _prev_message_type := _prev_message_type o;
     _properties_schema := _properties_schema o; _output_schema := v;
     _prediction_schema := _prediction_schema o; _sim_id := _sim_id o;
     _init_properties := _init_properties o; _sim_steps := _sim_steps o;
     _predictor_action := _predictor_action o; _dispatch_send := _dispatch_send o;
     _dispatch_recv := _dispatch_recv o |}.

Definition set_prediction_schema v (o : t) : t :=
  {| brain := brain o; name := name o; objective_name := objective_name o;
     _sim := _sim o; _ws := _ws o; _prev_message_type := _prev_message_type o;
     _properties_schema := _properties_schema o;
     _output_schema := _output_schema o; _prediction_schema := v;
     _sim_id := _sim_id o; _init_properties := _init_properties o;
     _sim_steps := _sim_steps o; _predictor_action := _predictor_action o;
     _dispatch_send := _dispatch_send o; _dispatch_recv := _dispatch_recv o |}.

Definition set_sim_id v (o : t) : t :=
  {| brain := brain o; name := name o; objective_name := objective_name o;
     _sim := _sim o; _ws := _ws o; _prev_message_type := _prev_message_type o;
     _properties_schema := _properties_schema o;
     _output_schema := _output_schema o;
     _prediction_schema := _prediction_schema o; _sim_id := v;
     _init_properties := _init_properties o; _sim_steps := _sim_steps o;
     _predictor_action := _predictor_action o; _dispatch_send := _dispatch_send o;
     _dispatch_recv := _dispatch_recv o |}.

Definition set_init_properties v (o : t) : t :=
  {| brain := brain o; name := name o; objective_name := objective_name o;
     _sim := _sim o; _ws := _ws o; _prev_message_type := _prev_message_type o;
     _properties_schema := _properties_schema o;
     _output_schema := _output_schema o;
     _prediction_schema := _prediction_schema o; _sim_id := _sim_id o;
     _init_properties := v; _sim_steps := _sim_steps o;
     _predictor_action := _predictor_action o; _dispatch_send := _dispatch_send o;
     _dispatch_recv := _dispatch_recv o |}.

Definition set_sim_steps v (o : t) : t :=
  {| brain := brain o; name := name o; objective_name := objective_name o;
     _sim := _sim o; _ws := _ws o; _prev_message_type := _prev_message_type o;
     _properties_schema := _properties_schema o;
     _output_schema := _output_schema o;
     _prediction_schema := _prediction_schema o; _sim_id := _sim_id o;
     _init_properties := _init_properties o; _sim_steps := v;
     _predictor_action := _predictor_action o; _dispatch_send := _dispatch_send o;
     _dispatch_recv := _dispatch_recv o |}.

Definition set_predictor_action v (o : t) : t :=
  {| brain := brain o; name := name o; objective_name := objective_name o;
     _sim := _sim o; _ws := _ws o; _prev_message_type := _prev_message_type o;
     _properties_schema := _properties_schema o;
     _output_schema := _output_schema o;
     _prediction_schema := _prediction_schema o; _sim_id := _sim_id o;
     _init_properties := _init_properties o; _sim_steps := _sim_steps o;
     _predictor_action := v; _dispatch_send := _dispatch_send o;
     _dispatch_recv := _dispatch_recv o |}.
End Object.
Arguments t {_ _ _}.
End Simulator_WS.

(** ** The world: the object graph, the clock and what has been observed *)

Section World.
Context `{UserSimulator} `{Runtime}.

(** What the outside sees of a run: log lines, the calls of the user's
    methods with what they returned or raised, and the frames handed to
    the websocket. *)
Inductive Event :=
| Log (domain msg : string)
| EpisodeStart (config : gmap string Value) (result : exn + gmap string Value)
| Simulate (action : gmap string Value)
    (result : exn + (gmap string Value * Py.num * bool))
| EpisodeFinish (result : exn + unit)
| WriteMessage (frame : bytes)
| ReadMessage (frame : option bytes)
| Close.

Record World := {
  impl : Simulator_WS.t;
  clock_reads : nat;
  events : list Event
}.

(** Computations: the world is threaded through, and survives a raise. *)
Definition M (A : Type) : Type := World -> (exn + A) * World.

Definition ret {A} (a : A) : M A := fun w => (inr a, w).

Definition bind {A B} (c : M A) (k : A -> M B) : M B :=
  fun w =>
    match c w with
    | (inr a, w') => k a w'
    | (inl e, w') => (inl e, w')
    end.

Definition raise {A} (e : exn) : M A := fun w => (inl e, w).

(** [try: body / except <classes> as e: handler e] *)
Definition try_except {A} (body : M A) (classes : exn -> bool) (handler : exn -> M A)
  : M A :=
  fun w =>
    match body w with
    | (inl e, w') => if classes e then handler e w' else (inl e, w')
    | r => r
    end.

Definition lift {A} (r : exn + A) : M A := fun w => (r, w).

Definition get_impl : M Simulator_WS.t := fun w => (inr (impl w), w).

Definition modify_impl (f : Simulator_WS.t -> Simulator_WS.t) : M unit :=
  fun w => (inr tt, {| impl := f (impl w); clock_reads := clock_reads w;
                       events := events w |}).

Definition modify_sim (f : Simulator.t -> Simulator.t) : M unit :=
  modify_impl (fun o => Simulator_WS.set_sim (f (Simulator_WS._sim o)) o).

Definition emit (e : Event) : M unit :=
  fun w => (inr tt, {| impl := impl w; clock_reads := clock_reads w;
                       events := events w ++ [e] |}).

(** [time.time()] *)
Definition time : M float :=
  fun w => (inr (time_time (clock_reads w)),
            {| impl := impl w; clock_reads := S (clock_reads w);
               events := events w |}).

(** A callable as [getattr(self, name, fallback)] returns it: a bound
    method or local function of one parameter, or a [lambda] of none. *)
Inductive callable (A B : Type) :=
| lambda0 (body : M unit)
| def1 (body : A -> M B).
Arguments lambda0 {A B} body.
Arguments def1 {A B} body.

(** [f(a)]: a call with one positional argument. *)
Definition call1 {A B} (f : callable A B) (a : A) : M B :=
  match f with
  | def1 body => body a
  | lambda0 _ =>
      raise (Py.TypeError "<lambda>() takes 0 positional arguments but 1 was given")
  end.

(** [for x in xs: body x], with an accumulator for what the body builds. *)
Fixpoint for_each {A S} (xs : list A) (body : S -> A -> M S) (acc : S) : M S :=
  match xs with
  | [] => ret acc
  | x :: xs' => bind (body acc x) (for_each xs' body)
  end.

End World.

Arguments lambda0 {_ _ _ A B} body.
Arguments def1 {_ _ _ A B} body.

Notation "x <- c1 ;; c2" := (bind c1 (fun x => c2))
  (at level 100, c1 at next level, right associativity).
Notation "c1 ;; c2" := (bind c1 (fun _ => c2))
  (at level 100, right associativity).

(** ** [simulator.py]: the hooks of [Simulator] *)

Section Hooks.
Context `{UserSimulator} `{Runtime}.

Definition get_sim : M Simulator.t :=
  self <- get_impl ;; ret (Simulator_WS._sim self).

Definition log (domain msg : string) : M unit := emit (Log domain msg).

(** [self.<counter>.update()] for one of the two rate counters. *)
Definition rate_update (counter : Simulator.t -> RateCounter.t)
    (set_counter : RateCounter.t -> Simulator.t -> Simulator.t) : M unit :=
  now <- time ;;
  sim <- get_sim ;;
  let '(r, c) := RateCounter.update now (counter sim) in
  modify_sim (set_counter c) ;;
  lift r.

(** A call of one of the user's methods: the user's state moves, and the
    call is observed with its outcome, raised or returned. *)
Definition call_user {A} (method : user_state -> (exn + A) * user_state)
    (observed : exn + A -> Event) : M A :=
  sim <- get_sim ;;
  let '(r, u) := method (Simulator.user sim) in
  modify_sim (Simulator.set_user u) ;;
  emit (observed r) ;;
  lift r.

Definition _on_episode_start (episode_config : gmap string Value)
  : M (gmap string Value) :=
  modify_sim (Simulator.set_iteration_count 0%Z) ;;
  modify_sim (Simulator.set_episode_reward (Py.Int 0)) ;;
  call_user (episode_start episode_config) (EpisodeStart episode_config).

Definition _on_simulate (action : gmap string Value)
  : M (gmap string Value * Py.num * bool) :=
  rate_update Simulator._iteration_rate Simulator.set_iteration_rate ;;
  modify_sim (fun o => Simulator.set_iteration_count (Simulator.iteration_count o + 1)%Z o) ;;
  r <- call_user (simulate action) (Simulate action) ;;
  let '(state, reward, terminal) := r in
  sim <- get_sim ;;
  total <- lift (Py.add (Simulator.episode_reward sim) reward) ;;
  modify_sim (Simulator.set_episode_reward total) ;;
  ret (state, reward, terminal).

Definition _on_episode_finish : M unit :=
  rate_update Simulator._episode_rate Simulator.set_episode_rate ;;
  modify_sim (fun o => Simulator.set_episode_count (Simulator.episode_count o + 1)%Z o) ;;
  call_user episode_finish EpisodeFinish.

End Hooks.

(** ** [simulator_ws.py]: the methods of [Simulator_WS] *)

Section Methods.
Context `{UserSimulator} `{Runtime}.

Import ServerToSimulator.

Definition _CONNECT_TIMEOUT_SECS : Z := 60.

(** [Simulator_WS.__init__].  The two tables are dict literals; the
    entries of [_dispatch_send] that depend on the mode are decided here,
    once, from [sim.predict]. *)
Definition __init__ (brain : Brain.t) (sim : Simulator.t) (simulator_name : string)
  : Simulator_WS.t :=
  {| Simulator_WS.brain := brain;
     Simulator_WS.name := simulator_name;
     Simulator_WS.objective_name := None;
     Simulator_WS._sim := sim;
     Simulator_WS._ws := None;
     Simulator_WS._prev_message_type := UNKNOWN;
     Simulator_WS._properties_schema := None;
     Simulator_WS._output_schema := None;
     Simulator_WS._prediction_schema := None;
     Simulator_WS._sim_id := (-1)%Z;
     Simulator_WS._init_properties := ∅;
     Simulator_WS._sim_steps := [];
     Simulator_WS._predictor_action := None;
     Simulator_WS._dispatch_send := list_to_map [
       (UNKNOWN, "_send_registration");
       (ACKNOWLEDGE_REGISTER,
         if Simulator.predict sim then "_send_initial_state" else "_send_ready");
       (SET_PROPERTIES,
         if Simulator.predict sim then "_send_initial_state" else "_send_ready");
       (START, "_send_initial_state");
       (PREDICTION, "_send_state");
       (RESET,
         if Simulator.predict sim then "_send_initial_state" else "_send_ready");
       (STOP,
         if Simulator.predict sim then "_send_initial_state" else "_send_ready")
     ];
     Simulator_WS._dispatch_recv := list_to_map [
       (ACKNOWLEDGE_REGISTER, "_on_acknowledge_register");
       (SET_PROPERTIES, "_on_set_properties");
       (START, "_on_start");
       (PREDICTION, "_on_prediction");
       (RESET, "_on_reset");
       (STOP, "_on_stop");
       (FINISHED, "_on_finished")
     ] |}.

(** [Simulator.__init__]: the engine is made first, then the statistics;
    each rate counter reads the clock when it is reset. *)
Definition Simulator__init__ (brain : Brain.t) (name : string) (u : user_state)
  : World :=
  let sim :=
    {| Simulator.brain := brain;
       Simulator.name := name;
       Simulator.episode_reward := Py.Int 0;
       Simulator.episode_count := 0%Z;
       Simulator._episode_rate := RateCounter.reset (time_time 0);
       Simulator.iteration_count := 0%Z;
       Simulator._iteration_rate := RateCounter.reset (time_time 1);
       Simulator.user := u |} in
  {| impl := __init__ brain sim name; clock_reads := 2; events := [] |}.

Definition _new_state_message (self : Simulator_WS.t) : Message :=
  new_message_from_proto (Simulator_WS._output_schema self).

Definition _dict_for_message (message : option Message) : gmap string Value :=
  let result := ∅ in
  match message with
  | Some message =>
      fold_left (fun result field => <[field := getattr message field]> result)
        (fields message) result
  | None => result
  end.

Definition _send_registration (to_server : SimulatorToServer.t)
  : M SimulatorToServer.t :=
  log "simulator_ws" "Sending Registration" ;;
  self <- get_impl ;;
  ret {| SimulatorToServer.message_type := SimulatorToServer.REGISTER;
         SimulatorToServer.sim_id := SimulatorToServer.sim_id to_server;
         SimulatorToServer.register_data :=
           {| SimulatorToServer.simulator_name := Simulator_WS.name self |};
         SimulatorToServer.state_data := SimulatorToServer.state_data to_server |}.

Definition _send_ready (to_server : SimulatorToServer.t) : M SimulatorToServer.t :=
  log "simulator_ws" "Sending Ready" ;;
  self <- get_impl ;;
  ret {| SimulatorToServer.message_type := SimulatorToServer.READY;
         SimulatorToServer.sim_id := Simulator_WS._sim_id self;
         SimulatorToServer.register_data := SimulatorToServer.register_data to_server;
         SimulatorToServer.state_data := SimulatorToServer.state_data to_server |}.

Definition _send_initial_state (to_server : SimulatorToServer.t)
  : M SimulatorToServer.t :=
  log "simulator_ws" "Sending initial State" ;;
  self <- get_impl ;;
  let to_server :=
    {| SimulatorToServer.message_type := SimulatorToServer.STATE;
       SimulatorToServer.sim_id := Simulator_WS._sim_id self;
       SimulatorToServer.register_data := SimulatorToServer.register_data to_server;
       SimulatorToServer.state_data := SimulatorToServer.state_data to_server |} in
  initial_state <-
    try_except (_on_episode_start (Simulator_WS._init_properties self))
      Py.is_Exception (fun e => raise (Py.EpisodeStartError e)) ;;
  self <- get_impl ;;
  let state_message := _new_state_message self in
  state_message <- lift (convert_state_to_proto state_message initial_state) ;;
  let state :=
    {| SimulatorToServer.state := SerializeToString state_message;
       SimulatorToServer.reward := Py.Float 0.0;
       SimulatorToServer.terminal := false;
       SimulatorToServer.action_taken := [] |} in
  ret {| SimulatorToServer.message_type := SimulatorToServer.message_type to_server;
         SimulatorToServer.sim_id := SimulatorToServer.sim_id to_server;
         SimulatorToServer.register_data := SimulatorToServer.register_data to_server;
         SimulatorToServer.state_data :=
           SimulatorToServer.state_data to_server ++ [state] |}.

(** The entry [_send_state] adds for a step that has a state. *)
Definition state_entry (step : SimStep.t) (state_message : Message)
  : SimulatorToServer.SimulationState :=
  {| SimulatorToServer.state := SerializeToString state_message;
     SimulatorToServer.reward := SimStep.reward step;
     SimulatorToServer.terminal := SimStep.terminal step;
     SimulatorToServer.action_taken := SimStep.prediction step |}.

(** A message object is truthy (its class defines neither [__bool__] nor
    [__len__]), so [if step.state] tests that a state was stored. *)
Definition _send_state (to_server : SimulatorToServer.t) : M SimulatorToServer.t :=
  log "simulator_ws" "Sending State" ;;
  self <- get_impl ;;
  let to_server :=
    {| SimulatorToServer.message_type := SimulatorToServer.STATE;
       SimulatorToServer.sim_id := Simulator_WS._sim_id self;
       SimulatorToServer.register_data := SimulatorToServer.register_data to_server;
       SimulatorToServer.state_data := SimulatorToServer.state_data to_server |} in
  to_server <-
    for_each (Simulator_WS._sim_steps self)
      (fun to_server step =>
         match SimStep.state step with
         | Some state_message =>
             ret {| SimulatorToServer.message_type :=
                      SimulatorToServer.message_type to_server;
                    SimulatorToServer.sim_id := SimulatorToServer.sim_id to_server;
                    SimulatorToServer.register_data :=
                      SimulatorToServer.register_data to_server;
                    SimulatorToServer.state_data :=
                      SimulatorToServer.state_data to_server
                      ++ [state_entry step state_message] |}
         | None =>
             log "simulator" "WARNING: Missing step in send_state" ;;
             ret to_server
         end)
      to_server ;;
  modify_impl (Simulator_WS.set_sim_steps []) ;;
  ret to_server.

Definition _on_acknowledge_register (from_server : ServerToSimulator.t DescriptorProto)
  : M unit :=
  log "simulator_ws" "Acknowledging Registration" ;;
  let data := acknowledge_register_data from_server in
  modify_impl (Simulator_WS.set_properties_schema (Some (properties_schema data))) ;;
  modify_impl (Simulator_WS.set_output_schema (Some (output_schema data))) ;;
  modify_impl (Simulator_WS.set_prediction_schema (Some (ack_prediction_schema data))) ;;
  modify_impl (Simulator_WS.set_sim_id (ack_sim_id data)).

Definition _on_set_properties (from_server : ServerToSimulator.t DescriptorProto)
  : M unit :=
  log "simulator_ws" "Setting properties" ;;
  let data := set_properties_data from_server in
  modify_impl (Simulator_WS.set_prediction_schema (Some (prediction_schema data))) ;;
  modify_impl (Simulator_WS.set_objective_name (Some (reward_name data))) ;;
  let dynamic_properties := dynamic_properties data in
  self <- get_impl ;;
  let properties_message :=
    message_for_dynamic_message dynamic_properties
      (Simulator_WS._properties_schema self) in
  modify_impl (Simulator_WS.set_init_properties (_dict_for_message properties_message)).

Definition _on_start (from_server : ServerToSimulator.t DescriptorProto) : M unit :=
  ret tt.

Definition _cache_action_for_predictor (prediction : bytes) : M unit :=
  self <- get_impl ;;
  let action_message :=
    message_for_dynamic_message prediction (Simulator_WS._prediction_schema self) in
  modify_impl (Simulator_WS.set_predictor_action (Some (_dict_for_message action_message))).

Definition _on_prediction (from_server : ServerToSimulator.t DescriptorProto)
  : M unit :=
  log "simulator_ws" "On Prediction" ;;
  for_each (prediction_data from_server)
    (fun _ p_data =>
       let step := SimStep.new (dynamic_prediction p_data) in
       modify_impl (fun o =>
         Simulator_WS.set_sim_steps (Simulator_WS._sim_steps o ++ [step]) o) ;;
       _cache_action_for_predictor (SimStep.prediction step))
    tt.

Definition _on_reset (from_server : ServerToSimulator.t DescriptorProto) : M unit :=
  ret tt.

Definition _on_stop (from_server : ServerToSimulator.t DescriptorProto) : M unit :=
  _on_episode_finish.

Definition _on_finished (from_server : ServerToSimulator.t DescriptorProto) : M unit :=
  ret tt.

(** The methods of the class that the two tables name.  [getattr(self,
    name, fallback)] finds a method under its name and answers [fallback]
    for a name the object has no attribute of, such as ['default']. *)
Definition send_methods
  : gmap string (SimulatorToServer.t -> M SimulatorToServer.t) :=
  list_to_map [
    ("_send_registration", _send_registration);
    ("_send_ready", _send_ready);
    ("_send_initial_state", _send_initial_state);
    ("_send_state", _send_state)
  ].

Definition recv_methods : gmap string (ServerToSimulator.t DescriptorProto -> M unit) :=
  list_to_map [
    ("_on_acknowledge_register", _on_acknowledge_register);
    ("_on_set_properties", _on_set_properties);
    ("_on_start", _on_start);
    ("_on_prediction", _on_prediction);
    ("_on_reset", _on_reset);
    ("_on_stop", _on_stop);
    ("_on_finished", _on_finished)
  ].

Definition getattr_method {A B} (methods : gmap string (A -> M B)) (name : string)
    (fallback : callable A B) : callable A B :=
  match methods !! name with
  | Some method => def1 method
  | None => fallback
  end.

(** The two lookups of [_on_send]: the name the table gives for the
    previous incoming type, and the callable found under that name. *)
Definition send_method_name (self : Simulator_WS.t) : string :=
  default "default"
    (Simulator_WS._dispatch_send self !! Simulator_WS._prev_message_type self).

Definition send_method (self : Simulator_WS.t)
  : callable SimulatorToServer.t SimulatorToServer.t :=
  getattr_method send_methods (send_method_name self)
    (lambda0 (log "simulator" "Finished")).

Definition _on_send (to_server : SimulatorToServer.t) : M SimulatorToServer.t :=
  self <- get_impl ;;
  let method := send_method self in
  call1 method to_server.

Definition _on_recv (from_server : ServerToSimulator.t DescriptorProto) : M unit :=
  let _raise := fun msg : ServerToSimulator.t DescriptorProto =>
    raise (Py.BonsaiServerError
      (Py.format "Received unknown message ({}) from server"
         [Py.ArgEnum (message_type msg)])) in
  self <- get_impl ;;
  let method_name :=
    default "default" (Simulator_WS._dispatch_recv self !! message_type from_server) in
  let method := getattr_method recv_methods method_name (def1 _raise) in
  call1 method from_server ;;
  modify_impl (Simulator_WS.set_prev_message_type (message_type from_server)).

(** [_connect]: answers [None] once connected, else the [repr] of what
    went wrong. *)
Definition _connect : M (option string) :=
  self <- get_impl ;;
  let brain := Simulator_WS.brain self in
  let url :=
    if Simulator.predict (Simulator_WS._sim self)
    then Brain._prediction_url brain
    else Brain._simulation_url brain in
  log "info" ("trying to connect: " ++ url) ;;
  let req :=
    {| url := url;
       connect_timeout := _CONNECT_TIMEOUT_SECS;
       request_timeout := _CONNECT_TIMEOUT_SECS;
       headers :=
         <["User-Agent" := Brain._user_info brain]>
           (<["Authorization" := Brain.config_accesskey brain]> ∅) |} in
  match websocket_connect req with
  | inr ws => modify_impl (Simulator_WS.set_ws (Some ws)) ;; ret None
  | inl e => ret (Some e)
  end.

(** [step.<attr> = ...] for the three results, on the [i]-th step of the
    batch: the step objects are only reachable through the batch list. *)
Definition store_result (i : nat) (state_message : Message) (reward : Py.num)
    (terminal : bool) : M unit :=
  modify_impl (fun o =>
    Simulator_WS.set_sim_steps
      (alter (fun step =>
                {| SimStep.prediction := SimStep.prediction step;
                   SimStep.state := Some state_message;
                   SimStep.reward := reward;
                   SimStep.terminal := terminal |})
             i (Simulator_WS._sim_steps o)) o).

(** [_advance(step)], for the step at index [i] of the batch. *)
Definition _advance (i : nat) (step : SimStep.t) : M unit :=
  log "simulator_ws" "Advancing" ;;
  self <- get_impl ;;
  let action_message :=
    message_for_dynamic_message (SimStep.prediction step)
      (Simulator_WS._prediction_schema self) in
  let action := _dict_for_message action_message in
  r <- try_except (_on_simulate action)
         Py.is_Exception (fun e => raise (Py.SimulateError e)) ;;
  let '(state, reward, terminal) := r in
  self <- get_impl ;;
  let state_message := _new_state_message self in
  state_message <- lift (convert_state_to_proto state_message state) ;;
  log "simulator" (MessageToJson state_message) ;;
  store_result i state_message reward terminal ;;
  if terminal then
    try_except
      (_on_episode_finish ;;
       self <- get_impl ;;
       _on_episode_start (Simulator_WS._init_properties self) ;;
       ret tt)
      Py.is_Exception (fun e => raise (Py.EpisodeStartError e))
  else ret tt.

(** [for step in self._sim_steps: self._advance(step)], from index [i]. *)
Fixpoint advance_steps (i : nat) (steps : list SimStep.t) : M unit :=
  match steps with
  | [] => ret tt
  | step :: steps' => _advance i step ;; advance_steps (S i) steps'
  end.

(** The error both transport failures are turned into. *)
Definition connection_closed (ws : WebSocket) : exn :=
  Py.BonsaiServerError
    (Py.format "Websocket connection closed. Code: {}, Reason: {}"
       [Py.ArgInt (close_code ws); Py.ArgStr (close_reason ws)]).

(** A method of [self._ws]. *)
Definition with_ws {A} (method : WebSocket -> (exn + A) * WebSocket) : M A :=
  self <- get_impl ;;
  match Simulator_WS._ws self with
  | Some ws =>
      let '(r, ws') := method ws in
      modify_impl (Simulator_WS.set_ws (Some ws')) ;;
      lift r
  | None => raise (Py.AttributeError "'NoneType' object has no such attribute")
  end.

(** [self._ws.close()] *)
Definition ws_close : M unit :=
  emit Close ;; with_ws (fun ws => (inr tt, close ws)).

Definition close_connection : M unit := ws_close.

Definition is_closed_error (e : exn) : bool :=
  match e with
  | Py.StreamClosedError | Py.WebSocketClosedError => true
  | _ => false
  end.

(** [run], one round trip, in the four parts of its body. *)

(** Grab a websocket connection if needed. *)
Definition connect_if_needed : M unit :=
  self <- get_impl ;;
  match Simulator_WS._ws self with
  | None =>
      message <- _connect ;;
      match message with
      | Some message =>
          raise (Py.BonsaiServerError
            (Py.format "Error while connecting to websocket: {}"
               [Py.ArgStr (Some message)]))
      | None => ret tt
      end
  | Some _ => ret tt
  end.

(** If there is a batch of predictions queued up, step through it. *)
Definition advance_batch : M unit :=
  self <- get_impl ;;
  if decide (Simulator_WS._prev_message_type self = PREDICTION)
  then advance_steps 0 (Simulator_WS._sim_steps self)
  else ret tt.

(** Build the message for the server and, if it has a type, write it. *)
Definition send_to_server : M unit :=
  let to_server := SimulatorToServer.new in
  to_server <- _on_send to_server ;;
  if SimulatorToServer.truthy (SimulatorToServer.message_type to_server) then
    let out_bytes := to_server_SerializeToString to_server in
    try_except
      (emit (WriteMessage out_bytes) ;; with_ws (write_message out_bytes))
      is_closed_error
      (fun e => ws <- with_ws (fun ws => (inr ws, ws)) ;; raise (connection_closed ws))
  else ret tt.

(** Read the response, dispatch it, and report whether the session goes on. *)
Definition read_response : M bool :=
  in_bytes <- with_ws (fun ws => let '(r, ws') := read_message ws in (inr r, ws')) ;;
  emit (ReadMessage in_bytes) ;;
  match in_bytes with
  | None => ws <- with_ws (fun ws => (inr ws, ws)) ;; raise (connection_closed ws)
  | Some in_bytes =>
      from_server <- lift (from_server_ParseFromString in_bytes) ;;
      _on_recv from_server ;;
      self <- get_impl ;;
      if decide (Simulator_WS._prev_message_type self = FINISHED) then
        ws_close ;;
        ret false
      else
        ret true
  end.

Definition run : M bool :=
  connect_if_needed ;;
  advance_batch ;;
  send_to_server ;;
  read_response.

End Methods.

(** ** A concrete set of collaborators

    Small executable instances of the three interfaces, on which the
    engine can be run: frames headed by one byte, schemas as lists of field
    names, messages as lists of named integers, a websocket fed from a fixed
    list of frames, and a user simulation that walks along a line. *)

Module Demo.
Import ServerToSimulator.

Definition byte_of_Z (z : Z) : Byte.byte :=
  default Byte.x00 (Byte.of_N (Z.to_N (z mod 256))).

Definition Z_of_byte (b : Byte.byte) : Z := Z.of_N (Byte.to_N b).

Definition tag (t : MessageType) : Byte.byte :=
  match t with
  | UNKNOWN => Byte.x00
  | ACKNOWLEDGE_REGISTER => Byte.x01
  | SET_PROPERTIES => Byte.x02
  | START => Byte.x03
  | PREDICTION => Byte.x04
  | RESET => Byte.x05
  | STOP => Byte.x06
  | FINISHED => Byte.x07
  | Unrecognized n => byte_of_Z n
  end.

Definition untag (b : Byte.byte) : MessageType :=
  match Z_of_byte b with
  | 0 => UNKNOWN
  | 1 => ACKNOWLEDGE_REGISTER
  | 2 => SET_PROPERTIES
  | 3 => START
  | 4 => PREDICTION
  | 5 => RESET
  | 6 => STOP
  | 7 => FINISHED
  | n => Unrecognized n
  end%Z.

Definition schema : list string := ["x"].

(** The message a frame with header [b] and payload [payload] decodes to. *)
Definition frame_message (b : Byte.byte) (payload : bytes)
  : ServerToSimulator.t (list string) :=
  {| message_type := untag b;
     acknowledge_register_data :=
       {| properties_schema := schema; output_schema := schema;
          ack_prediction_schema := schema; ack_sim_id := 7 |};
     set_properties_data :=
       {| prediction_schema := schema; reward_name := "goal";
          dynamic_properties := payload |};
     prediction_data := map (fun p => {| dynamic_prediction := [p] |}) payload |}.

Definition parse (frame : bytes) : exn + ServerToSimulator.t (list string) :=
  match frame with
  | [] => inl Py.DecodeError
  | b :: payload => inr (frame_message b payload)
  end.

Definition out_tag (t : SimulatorToServer.MessageType) : Byte.byte :=
  match t with
  | SimulatorToServer.UNSET => Byte.x00
  | SimulatorToServer.REGISTER => Byte.x01
  | SimulatorToServer.READY => Byte.x02
  | SimulatorToServer.STATE => Byte.x03
  end.

Definition serialize (m : SimulatorToServer.t) : bytes :=
  out_tag (SimulatorToServer.message_type m)
  :: flat_map SimulatorToServer.state (SimulatorToServer.state_data m).

Fixpoint fill (names : list string) (payload : bytes) : list (string * Z) :=
  match names with
  | [] => []
  | n :: names' =>
      match payload with
      | [] => (n, 0%Z) :: fill names' []
      | b :: payload' => (n, Z_of_byte b) :: fill names' payload'
      end
  end.

Fixpoint lookup_field (m : list (string * Z)) (name : string) : Z :=
  match m with
  | [] => 0
  | (n, v) :: m' => if String.eqb n name then v else lookup_field m' name
  end.

Fixpoint encode_state (m : list (string * Z)) (state : gmap string Z)
  : exn + list (string * Z) :=
  match m with
  | [] => inr []
  | (n, _) :: m' =>
      match state !! n, encode_state m' state with
      | Some v, inr r => inr ((n, v) :: r)
      | _, _ => inl Py.SimStateError
      end
  end.

#[export] Instance protobuf : Protobuf := {|
  Value := Z;
  DescriptorProto := list string;
  Message := list (string * Z);
  fields := map fst;
  getattr := lookup_field;
  SerializeToString := map (fun '(_, v) => byte_of_Z v);
  MessageToJson := fun _ => "{}";
  new_message_from_proto := fun s => fill (default [] s) [];
  message_for_dynamic_message := fun payload s =>
    match payload with
    | [] => None
    | _ => (fun s => fill s payload) <$> s
    end;
  convert_state_to_proto := encode_state;
  to_server_SerializeToString := serialize;
  from_server_ParseFromString := parse
|}.

(** A websocket: the frames the server will still deliver, and whether
    the connection takes writes. *)
Record socket := { inbox : list bytes; writable : bool }.

Fixpoint seconds (n : nat) : float :=
  match n with
  | O => 100.0%float
  | S n' => (seconds n' + 1.0)%float
  end.

Definition runtime (frames : list bytes) : Runtime := {|
  WebSocket := socket;
  websocket_connect := fun _ => inr {| inbox := frames; writable := true |};
  write_message := fun _ ws =>
    (if writable ws then inr tt else inl Py.WebSocketClosedError, ws);
  read_message := fun ws =>
    match inbox ws with
    | [] => (None, {| inbox := []; writable := false |})
    | f :: fs => (Some f, {| inbox := fs; writable := writable ws |})
    end;
  close := fun ws => {| inbox := inbox ws; writable := false |};
  close_code := fun ws => if writable ws then None else Some 1000%Z;
  close_reason := fun ws => if writable ws then None else Some "bye";
  time_time := seconds
|}.

(** The user's simulation: a position on a line, moved by the action's
    [x]; the episode ends at 3 or beyond.  [finish_raises] makes
    [episode_finish] raise. *)
Definition user (finish_raises : bool) : UserSimulator := {|
  user_state := Z;
  episode_start := fun _ _ => (inr {["x" := 0%Z]}, 0%Z);
  simulate := fun action pos =>
    let pos' := (pos + default 0 (action !! "x"))%Z in
    (inr ({["x" := pos']}, Py.Float 1.0, bool_decide (3 <= pos')%Z), pos');
  episode_finish := fun pos =>
    (if finish_raises then inl (Py.UserException "boom") else inr tt, pos)
|}.

Definition brain (predict : bool) : Brain.t :=
  {| Brain.config_predict := predict;
     Brain.config_accesskey := "key";
     Brain._prediction_url := "wss://predict";
     Brain._simulation_url := "wss://train";
     Brain._user_info := "sdk" |}.

(** The outgoing frames and the user's calls, out of a list of events. *)
Definition written `{UserSimulator} `{Runtime} (evs : list Event) : list bytes :=
  omap (fun e => match e with WriteMessage f => Some f | _ => None end) evs.

(** [n] calls of [run], stopping at the first that does not answer [True]. *)
Fixpoint runs `{UserSimulator} `{Runtime} (n : nat) (w : World)
  : (exn + bool) * World :=
  match n with
  | O => (inr true, w)
  | S n' =>
      match run w with
      | (inr true, w') => runs n' w'
      | r => r
      end
  end.

End Demo.

(** ** Sessions of the concrete collaborators *)

Module Scenario.
Import Demo ServerToSimulator.

(** A training session: handshake, episode configuration, start, a
    batch of two predictions of which the second ends the episode, stop,
    finish. *)
Module Training.
Definition frames : list bytes :=
  [[tag ACKNOWLEDGE_REGISTER];
   [tag SET_PROPERTIES; Byte.x00];
   [tag START];
   [tag PREDICTION; Byte.x01; Byte.x02];
   [tag STOP];
   [tag FINISHED]].

#[export] Instance sim : UserSimulator := user false.
#[export] Instance net : Runtime := runtime frames.

Definition w0 : World := Simulator__init__ (brain false) "sim" 0%Z.
Definition w1 : World := (run w0).2.
Definition w2 : World := (run w1).2.
Definition w3 : World := (run w2).2.
Definition w4 : World := (run w3).2.
Definition w5 : World := (run w4).2.
Definition w6 : World := (run w5).2.

(** A second [SET_PROPERTIES] frame, as the server may send one later. *)
Definition properties_frame : ServerToSimulator.t DescriptorProto :=
  frame_message (tag SET_PROPERTIES) [Byte.x00].
End Training.

(** A session whose server hangs up before it answers the registration. *)
Module HungUp.
#[export] Instance sim : UserSimulator := user false.
#[export] Instance net : Runtime := runtime [].

Definition w0 : World := Simulator__init__ (brain false) "sim" 0%Z.
End HungUp.

(** A prediction session whose user's [episode_finish] raises: handshake,
    then one prediction that ends the episode. *)
Module FinishRaises.
Definition frames : list bytes :=
  [[tag ACKNOWLEDGE_REGISTER]; [tag PREDICTION; Byte.x03]].

#[export] Instance sim : UserSimulator := user true.
#[export] Instance net : Runtime := runtime frames.

Definition w0 : World := Simulator__init__ (brain true) "sim" 0%Z.
Definition w1 : World := (run w0).2.
Definition w2 : World := (run w1).2.
End FinishRaises.

End Scenario.

(** * Properties *)

(** ** Reasoning about computations *)

Section Stable.
Context `{UserSimulator} `{Runtime}.

(** [stable R c]: whatever [c] does, returning or raising, the world it
    leaves is related by [R] to the one it started in. *)
Definition stable {A} (R : relation World) (c : M A) : Prop :=
  forall w, R w (c w).2.

Context (R : relation World) `{!PreOrder R}.

Lemma stable_ret {A} (a : A) : stable R (ret a).
Proof. intros w. reflexivity. Qed.

Lemma stable_raise {A} (e : exn) : stable R (raise (A := A) e).
Proof. intros w. reflexivity. Qed.

Lemma stable_lift {A} (r : exn + A) : stable R (lift r).
Proof. intros w. reflexivity. Qed.

Lemma stable_get_impl : stable R get_impl.
Proof. intros w. reflexivity. Qed.

Lemma stable_bind {A B} (c : M A) (k : A -> M B) :
  stable R c -> (forall a, stable R (k a)) -> stable R (bind c k).
Proof.
  intros Hc Hk w. unfold bind. specialize (Hc w).
  destruct (c w) as [[e|a] w1]; simpl in *; [assumption|].
  etransitivity; [eassumption | apply Hk].
Qed.

Lemma stable_try_except {A} (body : M A) classes handler :
  stable R body -> (forall e, stable R (handler e)) ->
  stable R (try_except body classes handler).
Proof.
  intros Hb Hh w. unfold try_except. specialize (Hb w).
  destruct (body w) as [[e|a] w1]; simpl in *; [|assumption].
  destruct (classes e); simpl; [|assumption].
  etransitivity; [eassumption | apply Hh].
Qed.

Lemma stable_for_each {A S} (xs : list A) (body : S -> A -> M S) acc :
  (forall s x, stable R (body s x)) -> stable R (for_each xs body acc).
Proof.
  intros Hbody. revert acc.
  induction xs as [|x xs IH]; intros acc; simpl.
  - apply stable_ret.
  - apply stable_bind; [apply Hbody | exact IH].
Qed.

Lemma stable_call1 {A B} (f : callable A B) (a : A) :
  (forall body, f = def1 body -> stable R (body a)) -> stable R (call1 f a).
Proof.
  intros Hf. destruct f as [body|body]; simpl.
  - apply stable_raise.
  - apply Hf. reflexivity.
Qed.

Lemma stable_if_decide {A} (P : Prop) `{!Decision P} (c1 c2 : M A) :
  stable R c1 -> stable R c2 -> stable R (if decide P then c1 else c2).
Proof. destruct (decide P); trivial. Qed.

End Stable.

(** ** What a session never changes: the two dispatch tables *)

Section Tables.
Context `{UserSimulator} `{Runtime}.
Import ServerToSimulator.

Definition same_tables : relation World := fun w w' =>
  Simulator_WS._dispatch_send (impl w') = Simulator_WS._dispatch_send (impl w)
  /\ Simulator_WS._dispatch_recv (impl w') = Simulator_WS._dispatch_recv (impl w).

#[global] Instance same_tables_preorder : PreOrder same_tables.
Proof.
  split.
  - intros w. split; reflexivity.
  - intros w1 w2 w3 [Hs1 Hr1] [Hs2 Hr2]. split; congruence.
Qed.

Lemma tables_emit e : stable same_tables (emit e).
Proof. intros w. split; reflexivity. Qed.

Lemma tables_time : stable same_tables time.
Proof. intros w. split; reflexivity. Qed.

Lemma tables_modify_impl f :
  (forall o, Simulator_WS._dispatch_send (f o) = Simulator_WS._dispatch_send o
             /\ Simulator_WS._dispatch_recv (f o) = Simulator_WS._dispatch_recv o) ->
  stable same_tables (modify_impl f).
Proof. intros Hf w. exact (Hf (impl w)). Qed.

Ltac tables_step :=
  first
    [ match goal with |- PreOrder _ => exact _ end
    | apply stable_ret | apply stable_raise | apply stable_lift
    | apply stable_get_impl | apply tables_emit | apply tables_time
    | apply tables_modify_impl; intros ?; split; reflexivity
    | apply stable_bind; [| | intros ?]
    | apply stable_try_except; [| | intros ?]
    | apply stable_for_each; [| intros ? ?]
    | apply stable_if_decide
    | match goal with
      | |- stable _ (if ?b then _ else _) => destruct b
      | |- stable _ (match ?x with _ => _ end) => destruct x
      | |- stable _ (let '(_, _) := ?x in _) => destruct x
      end ].

Ltac tables := repeat tables_step.

Ltac tables_with leaf := repeat first [ leaf | tables_step ].

Lemma tables_log d m : stable same_tables (log d m).
Proof. apply tables_emit. Qed.

Lemma tables_modify_sim f : stable same_tables (modify_sim f).
Proof. unfold modify_sim. tables. Qed.

Lemma tables_get_sim : stable same_tables get_sim.
Proof. unfold get_sim. tables. Qed.

Lemma tables_rate_update c s : stable same_tables (rate_update c s).
Proof.
  unfold rate_update.
  tables_with ltac:(first [apply tables_get_sim | apply tables_modify_sim]).
Qed.

Lemma tables_call_user {A} m (ev : exn + A -> Event) : stable same_tables (call_user m ev).
Proof.
  unfold call_user.
  tables_with ltac:(first [apply tables_get_sim | apply tables_modify_sim]).
Qed.

Lemma tables_on_episode_start c : stable same_tables (_on_episode_start c).
Proof.
  unfold _on_episode_start.
  tables_with ltac:(first [apply tables_modify_sim | apply tables_call_user]).
Qed.

Lemma tables_on_simulate a : stable same_tables (_on_simulate a).
Proof.
  unfold _on_simulate.
  tables_with ltac:(first [apply tables_modify_sim | apply tables_call_user
          | apply tables_rate_update | apply tables_get_sim]).
Qed.

Lemma tables_on_episode_finish : stable same_tables _on_episode_finish.
Proof.
  unfold _on_episode_finish.
  tables_with ltac:(first [apply tables_modify_sim | apply tables_call_user
                          | apply tables_rate_update]).
Qed.

Lemma tables_send_method name body to_server :
  send_methods !! name = Some body -> stable same_tables (body to_server).
Proof.
  intros Hin. apply elem_of_list_to_map_2 in Hin.
  repeat (apply elem_of_cons in Hin as [Heq|Hin]; [injection Heq as _ ->|]);
    [..|by apply elem_of_nil in Hin].
  - unfold _send_registration. tables_with ltac:(apply tables_log).
  - unfold _send_ready. tables_with ltac:(apply tables_log).
  - unfold _send_initial_state.
    tables_with ltac:(first [apply tables_log | apply tables_on_episode_start]).
  - unfold _send_state. tables_with ltac:(apply tables_log).
Qed.

Lemma tables_recv_method name body from_server :
  recv_methods !! name = Some body -> stable same_tables (body from_server).
Proof.
  intros Hin. apply elem_of_list_to_map_2 in Hin.
  repeat (apply elem_of_cons in Hin as [Heq|Hin]; [injection Heq as _ ->|]);
    [..|by apply elem_of_nil in Hin].
  - unfold _on_acknowledge_register. tables_with ltac:(apply tables_log).
  - unfold _on_set_properties. tables_with ltac:(apply tables_log).
  - unfold _on_start. tables.
  - unfold _on_prediction, _cache_action_for_predictor. tables_with ltac:(apply tables_log).
  - unfold _on_reset. tables.
  - apply tables_on_episode_finish.
  - unfold _on_finished. tables.
Qed.

Lemma tables_on_send to_server : stable same_tables (_on_send to_server).
Proof.
  unfold _on_send. tables. cbv zeta. apply stable_call1; [exact _|].
  intros body. unfold send_method, getattr_method.
  destruct (send_methods !! _) eqn:Hm; [|discriminate].
  injection 1 as <-. eapply tables_send_method, Hm.
Qed.

Lemma tables_on_recv from_server : stable same_tables (_on_recv from_server).
Proof.
  unfold _on_recv. tables.
  apply stable_call1; [exact _|].
  intros body. unfold getattr_method.
  destruct (recv_methods !! _) eqn:Hm.
  - injection 1 as <-. eapply tables_recv_method, Hm.
  - injection 1 as <-. tables.
Qed.

Lemma tables_with_ws {A} (m : WebSocket -> (exn + A) * WebSocket) :
  stable same_tables (with_ws m).
Proof. unfold with_ws. tables. Qed.

Lemma tables_advance i step : stable same_tables (_advance i step).
Proof.
  unfold _advance, store_result.
  tables_with ltac:(first [apply tables_log | apply tables_on_simulate
                          | apply tables_on_episode_finish
          | apply tables_on_episode_start]).
Qed.

Lemma tables_advance_steps steps : forall i, stable same_tables (advance_steps i steps).
Proof.
  induction steps as [|step steps IH]; intros i; simpl.
  - tables.
  - tables_with ltac:(first [apply tables_advance | apply IH]).
Qed.

Lemma tables_run : stable same_tables run.
Proof.
  unfold run, connect_if_needed, _connect, advance_batch, send_to_server,
    read_response, ws_close.
  tables_with ltac:(first [apply tables_log | apply tables_advance_steps | apply tables_on_send
          | apply tables_with_ws | apply tables_on_recv]).
Qed.

(** What [run] does before it reads the response. *)
Definition before_read : M unit :=
  connect_if_needed ;; advance_batch ;; send_to_server.

Lemma tables_before_read : stable same_tables before_read.
Proof.
  unfold before_read, connect_if_needed, _connect, advance_batch, send_to_server.
  tables_with ltac:(first [apply tables_log | apply tables_advance_steps
                          | apply tables_on_send | apply tables_with_ws]).
Qed.

(** The worlds a session goes through: the one [Simulator.__init__]
    makes, and then whatever each call of [run] leaves, whether it
    returned or raised. *)
Inductive reachable (brain : Brain.t) (name : string) (u : user_state)
  : World -> Prop :=
| reachable_init : reachable brain name u (Simulator__init__ brain name u)
| reachable_run w : reachable brain name u w -> reachable brain name u (run w).2.

Lemma reachable_tables brain name u w :
  reachable brain name u w ->
  same_tables (Simulator__init__ brain name u) w.
Proof.
  induction 1 as [|w Hw IH].
  - reflexivity.
  - etransitivity; [exact IH | apply tables_run].
Qed.

End Tables.

(** ** The schema-directed decoder *)

Section Codec.
Context `{Protobuf}.

(** Decoding a payload against a schema, as [_on_set_properties],
    [_cache_action_for_predictor] and [_advance] all do it. *)
Definition decode (payload : bytes) (schema : option DescriptorProto)
  : gmap string Value :=
  _dict_for_message (message_for_dynamic_message payload schema).

Lemma fold_insert_lookup (message : Message) (names : list string)
    (acc : gmap string Value) (name : string) :
  fold_left (fun result field => <[field := getattr message field]> result) names acc
    !! name
  = if bool_decide (name ∈ names) then Some (getattr message name) else acc !! name.
Proof.
  revert acc. induction names as [|n names IH]; intros acc; simpl.
  - reflexivity.
  - rewrite IH. destruct (decide (name = n)) as [->|Hne].
    + rewrite lookup_insert_eq.
      rewrite (bool_decide_eq_true_2 (n ∈ n :: names)) by apply list_elem_of_here.
      by destruct (bool_decide (n ∈ names)).
    + rewrite lookup_insert_ne by congruence.
      destruct (decide (name ∈ names)) as [Hin|Hnin].
      * rewrite !bool_decide_eq_true_2; [done | by apply list_elem_of_further | done].
      * rewrite !bool_decide_eq_false_2; [done | | done].
        intros [?|?]%elem_of_cons; contradiction.
Qed.

(** C9 (decoding).  Without a source message the decoder answers the
    empty mapping, whatever the schema, and it cannot raise (it is a
    total function); with a source message the result has, for every
    field the message declares, that field's value, and nothing else. *)
Theorem dict_for_message_spec :
  _dict_for_message None = ∅
  /\ (forall payload schema,
        message_for_dynamic_message payload schema = None ->
        decode payload schema = ∅)
  /\ (forall message field,
        field ∈ fields message ->
        _dict_for_message (Some message) !! field = Some (getattr message field))
  /\ (forall message field,
        field ∉ fields message ->
        _dict_for_message (Some message) !! field = None).
Proof.
  split; [reflexivity|]. split; [|split].
  - intros payload schema Hnone. unfold decode. rewrite Hnone. reflexivity.
  - intros message field Hin. unfold _dict_for_message.
    rewrite fold_insert_lookup, bool_decide_eq_true_2; done.
  - intros message field Hnin. unfold _dict_for_message.
    rewrite fold_insert_lookup, bool_decide_eq_false_2; [apply lookup_empty | done].
Qed.

End Codec.

(** ** The two dispatchers *)

Section Dispatch.
Context `{UserSimulator} `{Runtime}.
Import ServerToSimulator.

(** The table of outgoing messages as the specification gives it: what
    is sent after each previous incoming type, in training mode and in
    prediction mode; nothing is listed after [FINISHED]. *)
Inductive outgoing :=
| sends_REGISTER
| sends_READY
| sends_initial_STATE
| sends_batch_reply_STATE.

Definition spec_send_table (previous : MessageType) (predict : bool) : option outgoing :=
  match previous with
  | UNKNOWN => Some sends_REGISTER
  | ACKNOWLEDGE_REGISTER | SET_PROPERTIES | RESET | STOP =>
      Some (if predict then sends_initial_STATE else sends_READY)
  | START => Some sends_initial_STATE
  | PREDICTION => Some sends_batch_reply_STATE
  | FINISHED | Unrecognized _ => None
  end.

(** The builder of each outgoing message, and the type it writes. *)
Definition builder (o : outgoing) : SimulatorToServer.t -> M SimulatorToServer.t :=
  match o with
  | sends_REGISTER => _send_registration
  | sends_READY => _send_ready
  | sends_initial_STATE => _send_initial_state
  | sends_batch_reply_STATE => _send_state
  end.

Definition outgoing_type (o : outgoing) : SimulatorToServer.MessageType :=
  match o with
  | sends_REGISTER => SimulatorToServer.REGISTER
  | sends_READY => SimulatorToServer.READY
  | sends_initial_STATE | sends_batch_reply_STATE => SimulatorToServer.STATE
  end.

Definition previous_types : list MessageType :=
  [UNKNOWN; ACKNOWLEDGE_REGISTER; SET_PROPERTIES; START; PREDICTION; RESET; STOP].

Definition known_incoming : list MessageType :=
  [ACKNOWLEDGE_REGISTER; SET_PROPERTIES; START; PREDICTION; RESET; STOP; FINISHED].

Lemma for_each_send_state_type steps : forall acc w m w',
  for_each steps
    (fun to_server step =>
       match SimStep.state step with
       | Some state_message =>
           ret {| SimulatorToServer.message_type :=
                    SimulatorToServer.message_type to_server;
                  SimulatorToServer.sim_id := SimulatorToServer.sim_id to_server;
                  SimulatorToServer.register_data :=
                    SimulatorToServer.register_data to_server;
                  SimulatorToServer.state_data :=
                    SimulatorToServer.state_data to_server
                    ++ [state_entry step state_message] |}
       | None =>
           log "simulator" "WARNING: Missing step in send_state" ;;
           ret to_server
       end) acc w = (inr m, w') ->
  SimulatorToServer.message_type m = SimulatorToServer.message_type acc.
Proof.
  induction steps as [|step steps IH]; intros acc w m w'; simpl.
  - unfold ret. congruence.
  - unfold bind at 1. destruct (SimStep.state step); simpl.
    + intros Hrun. apply IH in Hrun. exact Hrun.
    + intros Hrun. apply IH in Hrun. exact Hrun.
Qed.

Lemma builder_type o to_server w m w' :
  builder o to_server w = (inr m, w') ->
  SimulatorToServer.message_type m = outgoing_type o.
Proof.
  destruct o; simpl.
  - unfold _send_registration, bind, log, emit, get_impl, ret. simpl.
    intros [= <- _]. reflexivity.
  - unfold _send_ready, bind, log, emit, get_impl, ret. simpl.
    intros [= <- _]. reflexivity.
  - unfold _send_initial_state, bind, log, emit, get_impl, ret, lift. simpl.
    destruct (try_except _ _ _ _) as [[e|s] w1]; [discriminate|].
    destruct (convert_state_to_proto _ _); [discriminate|].
    intros [= <- _]. reflexivity.
  - unfold _send_state. unfold bind at 1, log, emit. simpl.
    unfold bind at 1, get_impl. simpl. unfold bind at 1.
    destruct (for_each _ _ _ _) as [[e|m1] w1] eqn:Hloop; [discriminate|].
    apply for_each_send_state_type in Hloop. simpl in Hloop.
    unfold bind, modify_impl, ret. simpl.
    intros [= <- _]. exact Hloop.
Qed.

Lemma send_method_of_table brain name u w previous :
  reachable brain name u w ->
  previous ∈ previous_types ->
  Simulator_WS._prev_message_type (impl w) = previous ->
  exists o,
    spec_send_table previous (Brain.config_predict brain) = Some o
    /\ send_method (impl w) = def1 (builder o).
Proof.
  intros Hreach Hin Hprev.
  destruct (reachable_tables _ _ _ _ Hreach) as [Hsend _].
  unfold send_method, send_method_name. rewrite Hsend, Hprev.
  unfold previous_types in Hin.
  repeat (apply elem_of_cons in Hin as [->|Hin]);
    [..|by apply elem_of_nil in Hin];
    simpl; unfold Simulator.predict; simpl;
    destruct (Brain.config_predict brain);
    eexists; (split; [reflexivity|]); reflexivity.
Qed.

(** C1 (outgoing dispatch).  In every world of a session made for mode
    [Brain.config_predict brain], and for each of the seven previous
    incoming types, the callable [_on_send] looks up is the builder the
    specification's table names, and a message that builder returns has
    the type the table gives.  The first [_on_send] of a fresh session
    builds the [REGISTER] message, in either mode. *)
Theorem send_dispatch_follows_table brain name u :
  (forall w previous,
     reachable brain name u w ->
     previous ∈ previous_types ->
     Simulator_WS._prev_message_type (impl w) = previous ->
     exists o,
       spec_send_table previous (Brain.config_predict brain) = Some o
       /\ send_method (impl w) = def1 (builder o)
       /\ forall to_server m w',
            _on_send to_server w = (inr m, w') ->
            SimulatorToServer.message_type m = outgoing_type o)
  /\ _on_send SimulatorToServer.new (Simulator__init__ brain name u)
     = (inr {| SimulatorToServer.message_type := SimulatorToServer.REGISTER;
               SimulatorToServer.sim_id := 0;
               SimulatorToServer.register_data :=
                 {| SimulatorToServer.simulator_name := name |};
               SimulatorToServer.state_data := [] |},
        {| impl := impl (Simulator__init__ brain name u);
           clock_reads := clock_reads (Simulator__init__ brain name u);
           events := [Log "simulator_ws" "Sending Registration"] |}).
Proof.
  split.
  - intros w previous Hreach Hin Hprev.
    destruct (send_method_of_table _ _ _ _ _ Hreach Hin Hprev)
      as (o & Htable & Hmethod).
    exists o. split; [exact Htable|]. split; [exact Hmethod|].
    intros to_server m w'. unfold _on_send, bind, get_impl. simpl.
    rewrite Hmethod. simpl. apply builder_type.
  - reflexivity.
Qed.

(** C2 (unrecognised incoming type).  In every world of a session, a
    message whose type is none of the seven handled ones makes [_on_recv]
    raise the error that names that type, and the world, with
    [_prev_message_type] in it, stays exactly as it was. *)
Theorem unknown_message_rejected brain name u w
    (from_server : ServerToSimulator.t DescriptorProto) :
  reachable brain name u w ->
  message_type from_server ∉ known_incoming ->
  _on_recv from_server w
  = (inl (Py.BonsaiServerError
            (Py.format "Received unknown message ({}) from server"
               [Py.ArgEnum (message_type from_server)])), w).
Proof.
  intros Hreach Hnot.
  destruct (reachable_tables _ _ _ _ Hreach) as [_ Hrecv].
  assert (Hname :
    default "default" (Simulator_WS._dispatch_recv (impl w) !! message_type from_server)
    = "default").
  { rewrite Hrecv. unfold known_incoming in Hnot.
    destruct (message_type from_server);
      try reflexivity; exfalso; apply Hnot; set_solver. }
  unfold _on_recv, bind, get_impl. simpl. rewrite Hname. reflexivity.
Qed.

End Dispatch.

(** ** What the hooks do to the world *)

Section HookEffects.
Context `{UserSimulator} `{Runtime}.

(** The events a computation added. *)
Definition new_events (w w' : World) : list Event :=
  drop (length (events w)) (events w').

Lemma new_events_app w w' evs : events w' = events w ++ evs -> new_events w w' = evs.
Proof. intros Heq. unfold new_events. rewrite Heq. apply drop_app_length. Qed.

(** The hooks touch nothing of the engine but its [_sim]. *)
Definition sim_only (w w' : World) : Prop :=
  exists sim, impl w' = Simulator_WS.set_sim sim (impl w).

#[local] Instance sim_only_preorder : PreOrder sim_only.
Proof.
  split.
  - intros w. exists (Simulator_WS._sim (impl w)). by destruct (impl w).
  - intros w1 w2 w3 [s1 H1'] [s2 H2']. exists s2. rewrite H2', H1'. reflexivity.
Qed.

Lemma bind_inv {A B} (c : M A) (k : A -> M B) w r w' :
  bind c k w = (r, w') ->
  (exists e, c w = (inl e, w') /\ r = inl e)
  \/ (exists a w1, c w = (inr a, w1) /\ k a w1 = (r, w')).
Proof.
  unfold bind. destruct (c w) as [[e|a] w1]; intros Heq.
  - left. exists e. by simplify_eq.
  - right. by exists a, w1.
Qed.

Lemma bind_inr_inv {A B} (c : M A) (k : A -> M B) w b w' :
  bind c k w = (inr b, w') ->
  exists a w1, c w = (inr a, w1) /\ k a w1 = (inr b, w').
Proof.
  intros [(e & _ & [=])|Hok]%bind_inv. exact Hok.
Qed.

Lemma update_raises now self (e : exn) c :
  RateCounter.update now self = (inl e, c) ->
  e = Py.ZeroDivisionError \/ e = Py.OverflowError.
Proof.
  unfold RateCounter.update, Py.truediv_float, Py.mul_float, Py.to_float,
    Py.float_of_int, Py.float_is_not_int.
  intros Hupd. repeat case_match; simplify_eq; auto.
Qed.

Lemma rate_update_inv counter set_counter w r w' :
  rate_update counter set_counter w = (r, w') ->
  sim_only w w' /\ events w' = events w
  /\ forall e, r = inl e -> e = Py.ZeroDivisionError \/ e = Py.OverflowError.
Proof.
  unfold rate_update, bind, time, get_sim, get_impl, ret, modify_sim,
    modify_impl, lift. simpl.
  destruct (RateCounter.update _ _) as [r0 c] eqn:Hupd. simpl.
  intros Heq. injection Heq as Hr Hw. subst w'. simpl.
  split; [eexists; reflexivity|]. split; [reflexivity|].
  intros e ->. subst r0. eapply update_raises, Hupd.
Qed.

Lemma call_user_inv {A} (method : user_state -> (exn + A) * user_state)
    (observed : exn + A -> Event) w r w' :
  call_user method observed w = (r, w') ->
  sim_only w w' /\ events w' = events w ++ [observed r].
Proof.
  unfold call_user, bind, get_sim, get_impl, ret, modify_sim, modify_impl, emit, lift.
  simpl. destruct (method _) as [r0 u]. simpl.
  intros Heq. injection Heq as Hr Hw. subst w' r0. simpl.
  split; [eexists; reflexivity | reflexivity].
Qed.

Lemma modify_sim_inv f w r w' :
  modify_sim f w = (r, w') -> r = inr tt /\ sim_only w w' /\ events w' = events w.
Proof.
  unfold modify_sim, modify_impl. intros Heq. injection Heq as <- <-. simpl.
  split; [reflexivity|]. split; [eexists; reflexivity | reflexivity].
Qed.

(** [_on_episode_start]: the user's [episode_start] is called, once,
    with the configuration given, and its outcome is the hook's. *)
Lemma on_episode_start_inv config w r w' :
  _on_episode_start config w = (r, w') ->
  sim_only w w' /\ events w' = events w ++ [EpisodeStart config r].
Proof.
  unfold _on_episode_start.
  intros [(e & [[=] _]%modify_sim_inv & _)
         |(? & w1 & (_ & Hs1 & He1)%modify_sim_inv & Hk)]%bind_inv.
  apply bind_inv in Hk
    as [(e & [[=] _]%modify_sim_inv & _)
       |(? & w2 & (_ & Hs2 & He2)%modify_sim_inv & Hk)].
  apply call_user_inv in Hk as [Hs3 He3].
  split.
  - etransitivity; [exact Hs1|]. etransitivity; [exact Hs2 | exact Hs3].
  - rewrite He3, He2, He1. reflexivity.
Qed.

(** What [except Exception as e: raise C(e)] makes of an exception. *)
Definition wrapped (C : exn -> exn) (e : exn) : exn :=
  if Py.is_Exception e then C e else e.

Lemma try_except_wrap_inv {A} (body : M A) (C : exn -> exn) w r w' :
  try_except body Py.is_Exception (fun e => raise (C e)) w = (r, w') ->
  (exists e, body w = (inl e, w') /\ r = inl (wrapped C e))
  \/ (exists a, body w = (inr a, w') /\ r = inr a).
Proof.
  unfold try_except, wrapped, raise.
  destruct (body w) as [[e|a] w1]; [destruct (Py.is_Exception e) eqn:Hexc|];
    intros Heq; simplify_eq; [left; exists e; by rewrite Hexc ..| right; by exists a].
Qed.

Definition counter_error (e : exn) : Prop :=
  e = Py.ZeroDivisionError \/ e = Py.OverflowError.

(** The outcomes of [_on_episode_finish], with the events of each:
    the rate counter raises and the user's method is not reached, or the
    user's [episode_finish] is called, once, and its outcome is the
    hook's. *)
Inductive finished : exn + unit -> list Event -> Prop :=
| finish_counter_raised e : counter_error e -> finished (inl e) []
| finish_called r : finished r [EpisodeFinish r].

Lemma on_episode_finish_inv w r w' :
  _on_episode_finish w = (r, w') ->
  sim_only w w' /\ exists evs, finished r evs /\ events w' = events w ++ evs.
Proof.
  unfold _on_episode_finish.
  intros [(e & (Hs & He & Hr)%rate_update_inv & ->)
         |(? & w1 & (Hs1 & He1 & _)%rate_update_inv & Hk)]%bind_inv.
  { split; [exact Hs|]. exists []. split; [constructor; by apply Hr|].
    rewrite He. by rewrite app_nil_r. }
  apply bind_inv in Hk
    as [(e & [[=] _]%modify_sim_inv & _)
       |(? & w2 & (_ & Hs2 & He2)%modify_sim_inv & Hk)].
  apply call_user_inv in Hk as [Hs3 He3].
  split.
  - etransitivity; [exact Hs1|]. etransitivity; [exact Hs2 | exact Hs3].
  - eexists. split; [apply finish_called|]. rewrite He3, He2, He1. reflexivity.
Qed.

(** The outcomes of [_on_simulate]: the rate counter raises first; the
    user's [simulate] raises; it returns but the reward cannot be added
    to the episode's total; or the hook returns what [simulate] returned. *)
Inductive simulated (action : gmap string Value)
  : exn + (gmap string Value * Py.num * bool) -> list Event -> Prop :=
| simulate_counter_raised e : counter_error e -> simulated action (inl e) []
| simulate_raised e : simulated action (inl e) [Simulate action (inl e)]
| simulate_reward_overflow x :
    simulated action (inl Py.OverflowError) [Simulate action (inr x)]
| simulate_returned x : simulated action (inr x) [Simulate action (inr x)].

Lemma on_simulate_inv action w r w' :
  _on_simulate action w = (r, w') ->
  sim_only w w' /\ exists evs, simulated action r evs /\ events w' = events w ++ evs.
Proof.
  unfold _on_simulate.
  intros [(e & (Hs & He & Hr)%rate_update_inv & ->)
         |(? & w1 & (Hs1 & He1 & _)%rate_update_inv & Hk)]%bind_inv.
  { split; [exact Hs|]. exists []. split; [constructor; by apply Hr|].
    rewrite He. by rewrite app_nil_r. }
  apply bind_inv in Hk
    as [(e & [[=] _]%modify_sim_inv & _)
       |(? & w2 & (_ & Hs2 & He2)%modify_sim_inv & Hk)].
  apply bind_inv in Hk
    as [(e & (Hs3 & He3)%call_user_inv & ->)
       |([[state reward] terminal] & w3 & (Hs3 & He3)%call_user_inv & Hk)].
  { split; [etransitivity; [exact Hs1|]; etransitivity; [exact Hs2 | exact Hs3]|].
    eexists. split; [apply simulate_raised|]. rewrite He3, He2, He1. reflexivity. }
  assert (Hs13 : sim_only w w3).
  { etransitivity; [exact Hs1|]. etransitivity; [exact Hs2 | exact Hs3]. }
  assert (He13 : events w3 = events w ++ [Simulate action (inr (state, reward, terminal))]).
  { rewrite He3, He2, He1. reflexivity. }
  unfold bind at 1, get_sim, bind at 1, get_impl, ret at 1 in Hk. simpl in Hk.
  unfold bind at 1, lift in Hk.
  destruct (Py.add _ reward) as [e|total] eqn:Hadd.
  - injection Hk as <- <-. split; [exact Hs13|].
    eexists. split; [|exact He13].
    assert (e = Py.OverflowError) as ->.
    { unfold Py.add, Py.float_of_int in Hadd. repeat case_match; by simplify_eq. }
    apply simulate_reward_overflow.
  - apply bind_inv in Hk
      as [(e & [[=] _]%modify_sim_inv & _)
         |(? & w4 & (_ & Hs4 & He4)%modify_sim_inv & Hk)].
    injection Hk as <- <-.
    split; [etransitivity; [exact Hs13 | exact Hs4]|].
    eexists. split; [apply simulate_returned|]. rewrite He4. exact He13.
Qed.

Lemma sim_only_fields w w' :
  sim_only w w' ->
  Simulator_WS._sim_steps (impl w') = Simulator_WS._sim_steps (impl w)
  /\ Simulator_WS._init_properties (impl w') = Simulator_WS._init_properties (impl w)
  /\ Simulator_WS._output_schema (impl w') = Simulator_WS._output_schema (impl w)
  /\ Simulator_WS._prediction_schema (impl w') = Simulator_WS._prediction_schema (impl w)
  /\ Simulator_WS._sim_id (impl w') = Simulator_WS._sim_id (impl w)
  /\ Simulator_WS._prev_message_type (impl w')
     = Simulator_WS._prev_message_type (impl w).
Proof. intros [sim ->]. repeat split. Qed.

Lemma log_inv domain msg w r w' :
  log domain msg w = (r, w') ->
  r = inr tt /\ impl w' = impl w /\ events w' = events w ++ [Log domain msg].
Proof. unfold log, emit. intros Heq. by simplify_eq. Qed.

(** The outcomes of the [try] block that ends an episode and starts the
    next one, with the events of each. *)
Inductive restarted (config : gmap string Value) : exn + unit -> list Event -> Prop :=
| restart_finish_failed e evs :
    finished (inl e) evs ->
    restarted config (inl (wrapped Py.EpisodeStartError e)) evs
| restart_start_failed e :
    restarted config (inl (wrapped Py.EpisodeStartError e))
      [EpisodeFinish (inr tt); EpisodeStart config (inl e)]
| restart_done initial_state :
    restarted config (inr tt)
      [EpisodeFinish (inr tt); EpisodeStart config (inr initial_state)].

Lemma restart_inv w r w' :
  try_except
    (_on_episode_finish ;;
     self <- get_impl ;;
     _on_episode_start (Simulator_WS._init_properties self) ;;
     ret tt)
    Py.is_Exception (fun e => raise (Py.EpisodeStartError e)) w = (r, w') ->
  sim_only w w'
  /\ exists evs,
       restarted (Simulator_WS._init_properties (impl w)) r evs
       /\ events w' = events w ++ evs.
Proof.
  intros [(e & Hbody & ->)|([] & Hbody & ->)]%try_except_wrap_inv.
  - apply bind_inv in Hbody
      as [(e' & (Hs & evs & Hfin & He)%on_episode_finish_inv & [= <-])
         |([] & w1 & (Hs1 & evs1 & Hfin & He1)%on_episode_finish_inv & Hk)].
    { split; [exact Hs|]. exists evs. split; [by constructor | exact He]. }
    inversion Hfin; subst.
    unfold bind at 1, get_impl in Hk. simpl in Hk.
    apply bind_inv in Hk
      as [(e' & (Hs2 & He2)%on_episode_start_inv & [= <-])
         |(s0 & w2 & _ & [=])].
    split; [etransitivity; eassumption|].
    destruct (sim_only_fields _ _ Hs1) as (_ & -> & _) in He2.
    eexists. split; [apply restart_start_failed|].
    rewrite He2, He1, <- app_assoc. reflexivity.
  - apply bind_inr_inv in Hbody
      as ([] & w1 & (Hs1 & evs1 & Hfin & He1)%on_episode_finish_inv & Hk).
    inversion Hfin; subst.
    unfold bind at 1, get_impl in Hk. simpl in Hk.
    apply bind_inr_inv in Hk as (s0 & w2 & (Hs2 & He2)%on_episode_start_inv & [= <-]).
    split; [etransitivity; eassumption|].
    destruct (sim_only_fields _ _ Hs1) as (_ & -> & _) in He2.
    eexists. split; [apply restart_done|].
    rewrite He2, He1, <- app_assoc. reflexivity.
Qed.

(** The outcomes of [_advance], with the events of each and the result
    stored on the step, if one was: [simulate] does not return; the
    state it returns is not accepted by the encoder; the step is stored
    and the episode goes on; or the step is stored and, being terminal,
    is followed by the restart block. *)
Inductive advanced (action config : gmap string Value)
    (output_schema : option DescriptorProto)
  : exn + unit -> list Event -> option (Message * Py.num * bool) -> Prop :=
| advance_simulate_failed e evs :
    simulated action (inl e) evs ->
    advanced action config output_schema
      (inl (wrapped Py.SimulateError e))
      (Log "simulator_ws" "Advancing" :: evs) None
| advance_state_rejected state reward terminal e :
    convert_state_to_proto (new_message_from_proto output_schema) state = inl e ->
    advanced action config output_schema (inl e)
      [Log "simulator_ws" "Advancing"; Simulate action (inr (state, reward, terminal))]
      None
| advance_continues state reward message :
    convert_state_to_proto (new_message_from_proto output_schema) state = inr message ->
    advanced action config output_schema (inr tt)
      [Log "simulator_ws" "Advancing"; Simulate action (inr (state, reward, false));
       Log "simulator" (MessageToJson message)]
      (Some (message, reward, false))
| advance_terminal state reward message r evs :
    convert_state_to_proto (new_message_from_proto output_schema) state = inr message ->
    restarted config r evs ->
    advanced action config output_schema r
      ([Log "simulator_ws" "Advancing"; Simulate action (inr (state, reward, true));
        Log "simulator" (MessageToJson message)] ++ evs)
      (Some (message, reward, true)).

(** The step a stored result leaves in the batch. *)
Definition stored_step (step : SimStep.t) (result : Message * Py.num * bool)
  : SimStep.t :=
  {| SimStep.prediction := SimStep.prediction step;
     SimStep.state := Some result.1.1;
     SimStep.reward := result.1.2;
     SimStep.terminal := result.2 |}.

Definition store (i : nat) (result : option (Message * Py.num * bool))
    (steps : list SimStep.t) : list SimStep.t :=
  match result with
  | Some result => alter (fun step => stored_step step result) i steps
  | None => steps
  end.

Lemma advance_inv i step w r w' :
  _advance i step w = (r, w') ->
  exists evs result,
    advanced
      (_dict_for_message
         (message_for_dynamic_message (SimStep.prediction step)
            (Simulator_WS._prediction_schema (impl w))))
      (Simulator_WS._init_properties (impl w))
      (Simulator_WS._output_schema (impl w)) r evs result
    /\ events w' = events w ++ evs
    /\ exists sim,
         impl w'
         = Simulator_WS.set_sim sim
             (Simulator_WS.set_sim_steps
                (store i result (Simulator_WS._sim_steps (impl w))) (impl w)).
Proof.
  unfold _advance.
  intros [(e & ([=] & _)%log_inv & _)|([] & w0 & (_ & Hi0 & He0)%log_inv & Hk)]%bind_inv.
  unfold bind at 1, get_impl in Hk. simpl in Hk. rewrite Hi0 in Hk.
  apply bind_inv in Hk as [(e & Hsim & ->)|([[state reward] terminal] & w1 & Hsim & Hk)].
  { apply try_except_wrap_inv in Hsim as [(e' & Hsim & [= ->])|(? & _ & [=])].
    apply on_simulate_inv in Hsim as ([sim Hs] & evs & Hsimd & He).
    exists (Log "simulator_ws" "Advancing" :: evs), None. split; [by constructor|].
    split; [rewrite He, He0, <- app_assoc; reflexivity|].
    exists sim. rewrite Hs, Hi0. simpl. by destruct (impl w). }
  apply try_except_wrap_inv in Hsim as [(e' & _ & [=])|(? & Hsim & [= <-])].
  apply on_simulate_inv in Hsim as (Hs1 & evs & Hsimd & He1).
  inversion Hsimd; subst.
  assert (Hs01 : sim_only w w1).
  { destruct Hs1 as [sim Hs1]. exists sim. by rewrite Hs1, Hi0. }
  destruct (sim_only_fields _ _ Hs01) as (Hsteps & Hconfig & Hschema & _).
  unfold bind at 1, get_impl in Hk. simpl in Hk.
  unfold bind at 1, lift, _new_state_message in Hk. rewrite Hschema in Hk.
  destruct (convert_state_to_proto _ state) as [e|message] eqn:Hconv.
  { injection Hk as <- <-.
    do 2 eexists. split; [eapply advance_state_rejected; eassumption|].
    split; [rewrite He1, He0, <- app_assoc; reflexivity|].
    destruct Hs01 as [sim ->]. exists sim. simpl. by destruct (impl w). }
  apply bind_inv in Hk
    as [(e & ([=] & _)%log_inv & _)|([] & w2 & (_ & Hi2 & He2)%log_inv & Hk)].
  unfold bind at 1, store_result, modify_impl in Hk. simpl in Hk.
  rewrite Hi2, Hsteps in Hk.
  destruct Hs01 as [sim1 Hs01].
  destruct terminal.
  - apply restart_inv in Hk as ([sim Hs] & evs & Hres & He). simpl in Hs, He, Hres.
    rewrite Hconfig in Hres.
    eexists _, (Some (message, reward, true)).
    split; [eapply advance_terminal; eassumption|].
    split; [rewrite He, He2, He1, He0, <- !app_assoc; reflexivity|].
    exists sim. rewrite Hs, Hs01. simpl. by destruct (impl w).
  - injection Hk as <- <-.
    eexists _, (Some (message, reward, false)).
    split; [eapply advance_continues; eassumption|].
    split; [simpl; rewrite He2, He1, He0, <- !app_assoc; reflexivity|].
    exists sim1. simpl. rewrite Hs01. simpl. by destruct (impl w).
Qed.

End HookEffects.

(** ** The batch reply *)

Section BatchReply.
Context `{UserSimulator} `{Runtime}.

(** The entry of a step in the reply, if it has one. *)
Definition reply_entry (step : SimStep.t) : option SimulatorToServer.SimulationState :=
  state_entry step <$> SimStep.state step.

(** The warning logged for a step, if one is. *)
Definition missing_warning (step : SimStep.t) : option Event :=
  match SimStep.state step with
  | Some _ => None
  | None => Some (Log "simulator" "WARNING: Missing step in send_state")
  end.

Lemma send_state_loop steps : forall (acc : SimulatorToServer.t) w,
  for_each steps
    (fun to_server step =>
       match SimStep.state step with
       | Some state_message =>
           ret {| SimulatorToServer.message_type :=
                    SimulatorToServer.message_type to_server;
                  SimulatorToServer.sim_id := SimulatorToServer.sim_id to_server;
                  SimulatorToServer.register_data :=
                    SimulatorToServer.register_data to_server;
                  SimulatorToServer.state_data :=
                    SimulatorToServer.state_data to_server
                    ++ [state_entry step state_message] |}
       | None =>
           log "simulator" "WARNING: Missing step in send_state" ;;
           ret to_server
       end) acc w
  = (inr {| SimulatorToServer.message_type := SimulatorToServer.message_type acc;
            SimulatorToServer.sim_id := SimulatorToServer.sim_id acc;
            SimulatorToServer.register_data := SimulatorToServer.register_data acc;
            SimulatorToServer.state_data :=
              SimulatorToServer.state_data acc ++ omap reply_entry steps |},
     {| impl := impl w; clock_reads := clock_reads w;
        events := events w ++ omap missing_warning steps |}).
Proof.
  induction steps as [|step steps IH]; intros acc w; simpl.
  - unfold ret. rewrite !app_nil_r. by destruct acc, w.
  - unfold bind at 1, reply_entry, missing_warning.
    destruct (SimStep.state step) as [message|]; simpl.
    + rewrite IH. simpl. by rewrite <- app_assoc.
    + rewrite IH. simpl. by rewrite <- app_assoc.
Qed.

Lemma send_state_unfold (to_server : SimulatorToServer.t) (w : World) :
  _send_state to_server w
  = (inr {| SimulatorToServer.message_type := SimulatorToServer.STATE;
            SimulatorToServer.sim_id := Simulator_WS._sim_id (impl w);
            SimulatorToServer.register_data := SimulatorToServer.register_data to_server;
            SimulatorToServer.state_data :=
              SimulatorToServer.state_data to_server
              ++ omap reply_entry (Simulator_WS._sim_steps (impl w)) |},
     {| impl := Simulator_WS.set_sim_steps [] (impl w);
        clock_reads := clock_reads w;
        events :=
          (events w ++ [Log "simulator_ws" "Sending State"])
          ++ omap missing_warning (Simulator_WS._sim_steps (impl w)) |}).
Proof.
  unfold _send_state. unfold bind at 1, log, emit. simpl.
  unfold bind at 1, get_impl. simpl. unfold bind at 1.
  rewrite send_state_loop. reflexivity.
Qed.


End BatchReply.

(** Membership of an event in an explicit list of events. *)
Ltac event_in H :=
  simpl in H; rewrite ?elem_of_app, ?elem_of_cons, ?elem_of_nil in H;
  revert H; intuition (try discriminate; simplify_eq; auto).

(** ** Episode configuration *)

Section SetProperties.
Context `{UserSimulator} `{Runtime}.
Import ServerToSimulator.

(** C10 ([SET_PROPERTIES]).  The handler always returns, and leaves the
    prediction schema, the objective name and the initial properties it
    took from the message, the latter decoded against the properties
    schema; [_sim_id], the properties schema and the output schema are as
    before.  From then on a prediction is decoded against the schema
    this message carried: so does [_cache_action_for_predictor], and so
    does [_advance] for the action it hands to [simulate]. *)
Theorem set_properties_replaces_prediction_schema
    (from_server : ServerToSimulator.t DescriptorProto) (w : World) :
  let data := set_properties_data from_server in
  exists w',
    _on_set_properties from_server w = (inr tt, w')
    /\ Simulator_WS._prediction_schema (impl w') = Some (prediction_schema data)
    /\ Simulator_WS.objective_name (impl w') = Some (reward_name data)
    /\ Simulator_WS._init_properties (impl w')
       = decode (dynamic_properties data) (Simulator_WS._properties_schema (impl w))
    /\ Simulator_WS._sim_id (impl w') = Simulator_WS._sim_id (impl w)
    /\ Simulator_WS._properties_schema (impl w')
       = Simulator_WS._properties_schema (impl w)
    /\ Simulator_WS._output_schema (impl w') = Simulator_WS._output_schema (impl w)
    /\ (forall prediction,
          Simulator_WS._predictor_action
            (impl (_cache_action_for_predictor prediction w').2)
          = Some (decode prediction (Some (prediction_schema data))))
    /\ (forall i step r w'' action result,
          _advance i step w' = (r, w'') ->
          Simulate action result ∈ new_events w' w'' ->
          action = decode (SimStep.prediction step) (Some (prediction_schema data))).
Proof.
  intros data. eexists. split.
  { unfold _on_set_properties, bind, log, emit, modify_impl, get_impl. simpl.
    reflexivity. }
  simpl. repeat (split; [reflexivity|]).
  intros i step r w'' action result Hadv Hin.
  apply advance_inv in Hadv as (evs & stored & Hspec & Hev & _).
  rewrite (new_events_app _ _ _ Hev) in Hin. simpl in Hspec.
  unfold decode. fold data in Hspec.
  inversion Hspec as [e evs0 Hsim| | |? ? ? ? evs0 ? Hres]; subst; clear Hspec.
  - inversion Hsim; subst; event_in Hin.
  - event_in Hin.
  - event_in Hin.
  - inversion Hres as [e evs1 Hfin| |]; subst; [inversion Hfin; subst|..]; event_in Hin.
Qed.

End SetProperties.

(** ** Failures of [episode_finish] *)

Section EpisodeFinishFailure.
Context `{UserSimulator} `{Runtime}.
Import ServerToSimulator.



End EpisodeFinishFailure.

(** ** A batch, from its first step to the reply *)

Section Batch.
Context `{UserSimulator} `{Runtime}.
Import ServerToSimulator.

(** What one step of a batch that went through produced: what [simulate]
    returned, the message its state was encoded into and, for a terminal
    step, the state the next episode started from. *)
Record outcome := {
  o_state : gmap string Value;
  o_reward : Py.num;
  o_terminal : bool;
  o_message : Message;
  o_restart : gmap string Value
}.

Definition o_result (o : outcome) : Message * Py.num * bool :=
  (o_message o, o_reward o, o_terminal o).

(** The events of such a step, in order: [simulate] is called with the
    decoded action and returns; the encoded state is logged; and, only
    when the step is terminal, [episode_finish] is called and returns,
    then [episode_start] is called with the initial properties and
    returns. *)
Definition step_events (schema : option DescriptorProto) (config : gmap string Value)
    (step : SimStep.t) (o : outcome) : list Event :=
  [Log "simulator_ws" "Advancing";
   Simulate (decode (SimStep.prediction step) schema)
     (inr (o_state o, o_reward o, o_terminal o));
   Log "simulator" (MessageToJson (o_message o))]
  ++ (if o_terminal o
      then [EpisodeFinish (inr tt); EpisodeStart config (inr (o_restart o))]
      else []).

(** The entry of such a step in the reply. *)
Definition step_entry (step : SimStep.t) (o : outcome)
  : SimulatorToServer.SimulationState :=
  {| SimulatorToServer.state := SerializeToString (o_message o);
     SimulatorToServer.reward := o_reward o;
     SimulatorToServer.terminal := o_terminal o;
     SimulatorToServer.action_taken := SimStep.prediction step |}.

Definition encoded (output_schema : option DescriptorProto) (o : outcome) : Prop :=
  convert_state_to_proto (new_message_from_proto output_schema) (o_state o)
  = inr (o_message o).

Lemma advance_returns_inv i step w w' :
  _advance i step w = (inr tt, w') ->
  exists o,
    encoded (Simulator_WS._output_schema (impl w)) o
    /\ events w'
       = events w
         ++ step_events (Simulator_WS._prediction_schema (impl w))
              (Simulator_WS._init_properties (impl w)) step o
    /\ exists sim,
         impl w'
         = Simulator_WS.set_sim sim
             (Simulator_WS.set_sim_steps
                (alter (fun step => stored_step step (o_result o)) i
                   (Simulator_WS._sim_steps (impl w))) (impl w)).
Proof.
  intros (evs & stored & Hspec & Hev & Himpl)%advance_inv.
  inversion Hspec as [| |state reward message Hconv
                     |state reward message r evs0 Hconv Hres]; subst; clear Hspec.
  - exists {| o_state := state; o_reward := reward; o_terminal := false;
              o_message := message; o_restart := ∅ |}.
    split; [exact Hconv|]. split; [exact Hev | exact Himpl].
  - inversion Hres as [| |s0]; subst.
    exists {| o_state := state; o_reward := reward; o_terminal := true;
              o_message := message; o_restart := s0 |}.
    split; [exact Hconv|]. split; [exact Hev | exact Himpl].
Qed.

(** The results of the steps from index [i] on, stored one by one. *)
Fixpoint store_all (i : nat) (outs : list outcome) (steps : list SimStep.t)
  : list SimStep.t :=
  match outs with
  | [] => steps
  | o :: outs' =>
      store_all (S i) outs' (alter (fun step => stored_step step (o_result o)) i steps)
  end.

Lemma store_all_zip outs : forall done steps,
  length outs = length steps ->
  store_all (length done) outs (done ++ steps)
  = done ++ zip_with (fun step o => stored_step step (o_result o)) steps outs.
Proof.
  induction outs as [|o outs IH]; intros done [|step steps] Hlen;
    simpl in *; try discriminate; [reflexivity|].
  rewrite alter_app_r_alt by lia. rewrite Nat.sub_diag. simpl.
  specialize (IH (done ++ [stored_step step (o_result o)]) steps).
  rewrite length_app, Nat.add_1_r, <- !app_assoc in IH. simpl in IH.
  apply IH. lia.
Qed.

Lemma advance_steps_inv steps : forall i w w',
  advance_steps i steps w = (inr tt, w') ->
  exists outs,
    length outs = length steps
    /\ Forall (encoded (Simulator_WS._output_schema (impl w))) outs
    /\ events w'
       = events w
         ++ concat (zip_with
                      (step_events (Simulator_WS._prediction_schema (impl w))
                         (Simulator_WS._init_properties (impl w)))
                      steps outs)
    /\ exists sim,
         impl w'
         = Simulator_WS.set_sim sim
             (Simulator_WS.set_sim_steps
                (store_all i outs (Simulator_WS._sim_steps (impl w))) (impl w)).
Proof.
  induction steps as [|step steps IH]; intros i w w'; simpl.
  - intros [= <-]. exists []. split; [reflexivity|]. split; [constructor|].
    split; [by rewrite app_nil_r|].
    exists (Simulator_WS._sim (impl w)). simpl. by destruct (impl w).
  - intros ([] & w1 & Hstep & Hrest)%bind_inr_inv.
    apply advance_returns_inv in Hstep as (o & Henc & Hev1 & sim1 & Himpl1).
    apply IH in Hrest as (outs & Hlen & Hencs & Hev & sim & Himpl).
    rewrite Himpl1 in Hencs, Hev, Himpl. simpl in Hencs, Hev, Himpl.
    exists (o :: outs). split; [simpl; by rewrite Hlen|].
    split; [by constructor|].
    split; [rewrite Hev, Hev1, <- app_assoc; reflexivity|].
    exists sim. rewrite Himpl. reflexivity.
Qed.

Lemma with_ws_events {A} (method : WebSocket -> (exn + A) * WebSocket) w r w' :
  with_ws method w = (r, w') -> events w' = events w.
Proof.
  unfold with_ws, bind, get_impl, modify_impl, lift, raise. simpl.
  destruct (Simulator_WS._ws (impl w)); [destruct (method _)|];
    intros Heq; by simplify_eq.
Qed.

Lemma omap_reply_stored steps : forall outs,
  length outs = length steps ->
  omap reply_entry (zip_with (fun step o => stored_step step (o_result o)) steps outs)
  = zip_with step_entry steps outs
  /\ omap missing_warning
       (zip_with (fun step o => stored_step step (o_result o)) steps outs) = [].
Proof.
  induction steps as [|step steps IH]; intros [|o outs] Hlen;
    simpl in Hlen; try discriminate; [by split|].
  destruct (IH outs) as [IH1 IH2]; [lia|].
  split.
  - change (step_entry step o :: omap reply_entry
              (zip_with (fun step o => stored_step step (o_result o)) steps outs)
            = step_entry step o :: zip_with step_entry steps outs).
    by rewrite IH1.
  - exact IH2.
Qed.

Lemma try_except_returns_inv {A} (body : M A) classes (C : exn -> M A) w a w' :
  (forall e w1 r w2, C e w1 = (r, w2) -> exists e', r = inl e') ->
  try_except body classes C w = (inr a, w') ->
  body w = (inr a, w').
Proof.
  intros Hraises. unfold try_except.
  destruct (body w) as [[e|a0] w1]; [|done].
  destruct (classes e); [|done].
  intros [e' [=]]%Hraises.
Qed.

(** The events of a cycle from its first step to the write of its reply,
    and the reply: there is one outcome per step of the batch; the events
    are those of the steps, in order, then the reply's; and the reply has
    one entry per step, in order. *)
Definition batch_then_reply (w w' : World) : Prop :=
  exists outs,
    length outs = length (Simulator_WS._sim_steps (impl w))
    /\ Forall (encoded (Simulator_WS._output_schema (impl w))) outs
    /\ new_events w w'
       = concat (zip_with
                   (step_events (Simulator_WS._prediction_schema (impl w))
                      (Simulator_WS._init_properties (impl w)))
                   (Simulator_WS._sim_steps (impl w)) outs)
         ++ [Log "simulator_ws" "Sending State";
             WriteMessage
               (to_server_SerializeToString
                  {| SimulatorToServer.message_type := SimulatorToServer.STATE;
                     SimulatorToServer.sim_id := Simulator_WS._sim_id (impl w);
                     SimulatorToServer.register_data :=
                       {| SimulatorToServer.simulator_name := "" |};
                     SimulatorToServer.state_data :=
                       zip_with step_entry (Simulator_WS._sim_steps (impl w)) outs |})].

(** [simulate] returned [terminal = true] for the step at index [i], and
    the step holds what it returned. *)
Definition terminal_result_stored (i : nat) (step : SimStep.t) (w w' : World) : Prop :=
  exists state reward message,
    Simulate (decode (SimStep.prediction step)
                (Simulator_WS._prediction_schema (impl w)))
      (inr (state, reward, true)) ∈ new_events w w'
    /\ convert_state_to_proto
         (new_message_from_proto (Simulator_WS._output_schema (impl w))) state
       = inr message
    /\ Simulator_WS._sim_steps (impl w')
       = alter (fun step => stored_step step (message, reward, true)) i
           (Simulator_WS._sim_steps (impl w)).

(** C3 (a terminal step inside a batch).  Take a cycle that starts with a
    batch pending.  If it gets as far as having written its reply, the
    events of the cycle up to that write are, step by step in the order
    of the batch, one call of [simulate] followed, exactly when it
    returned [terminal = true], by one call of [episode_finish] and one
    of [episode_start] with the initial properties; the next step comes
    after them, and the reply after all steps.  The reply has the type
    [STATE] and one entry per step, in order, with the state (encoded),
    the reward and the terminal flag that the step's own [simulate]
    returned, and the step's prediction.  And whenever [_advance] has
    called [episode_finish], whatever came of it, [simulate] had returned
    [terminal = true] for that step and the step holds what it returned. *)
Theorem terminal_step_restarts_before_reply brain name u w :
  reachable brain name u w ->
  Simulator_WS._prev_message_type (impl w) = PREDICTION ->
  (forall w',
     (advance_batch ;; send_to_server) w = (inr tt, w') ->
     batch_then_reply w w')
  /\ (forall i step r w' result,
        _advance i step w = (r, w') ->
        EpisodeFinish result ∈ new_events w w' ->
        terminal_result_stored i step w w').
Proof.
  intros Hreach Hprev. split.
  - intros w' ([] & w1 & Hbatch & Hsend)%bind_inr_inv.
    unfold advance_batch in Hbatch. unfold bind at 1, get_impl in Hbatch.
    simpl in Hbatch. rewrite decide_True in Hbatch by exact Hprev.
    apply advance_steps_inv in Hbatch as (outs & Hlen & Henc & Hev1 & sim & Himpl).
    pose proof (store_all_zip outs [] _ Hlen) as Hstore. simpl in Hstore.
    rewrite Hstore in Himpl. clear Hstore.
    exists outs. split; [exact Hlen|]. split; [exact Henc|].
    apply new_events_app.
    assert (Hmethod : send_method (impl w1) = def1 _send_state).
    { destruct (send_method_of_table _ _ _ _ PREDICTION Hreach) as (o & Ho & Hm);
        [unfold previous_types; do 4 apply list_elem_of_further; apply list_elem_of_here
        | exact Hprev |].
      injection Ho as <-.
      transitivity (send_method (impl w)); [rewrite Himpl; reflexivity | exact Hm]. }
    apply bind_inr_inv in Hsend as (to_server & w2 & Hbuild & Hwrite).
    unfold _on_send in Hbuild. unfold bind at 1, get_impl in Hbuild. simpl in Hbuild.
    rewrite Hmethod in Hbuild. simpl in Hbuild.
    rewrite send_state_unfold in Hbuild. injection Hbuild as <- <-.
    simpl in Hwrite.
    apply try_except_returns_inv in Hwrite.
    2:{ intros e w3 r w4 [(e' & _ & ->)|(ws & w5 & _ & [= <- _])]%bind_inv; eauto. }
    apply bind_inr_inv in Hwrite as ([] & w3 & [= <-] & Hws).
    apply with_ws_events in Hws. rewrite Hws. simpl.
    rewrite Himpl. simpl.
    destruct (omap_reply_stored (Simulator_WS._sim_steps (impl w)) outs Hlen)
      as [-> ->].
    rewrite Hev1, <- !app_assoc. reflexivity.
  - intros i step r w' result Hadv Hin.
    apply advance_inv in Hadv as (evs & stored & Hspec & Hev & sim & Himpl).
    unfold terminal_result_stored.
    rewrite (new_events_app _ _ _ Hev) in Hin |- *.
    inversion Hspec as [e0 evs0 Hsim| | |state reward message ? evs0 Hconv Hres];
      subst; clear Hspec.
    + inversion Hsim; subst; event_in Hin.
    + event_in Hin.
    + event_in Hin.
    + exists state, reward, message. split; [|split; [exact Hconv|]].
      * unfold decode. simpl. apply list_elem_of_further, list_elem_of_here.
      * rewrite Himpl. reflexivity.
Qed.

End Batch.

(** ** The run cycle: reading the response *)

Section RunCycle.
Context `{UserSimulator} `{Runtime}.
Import ServerToSimulator.

Lemma run_split w : run w = (before_read ;; read_response) w.
Proof.
  unfold run, before_read, bind.
  destruct (connect_if_needed w) as [[e|[]] w1]; [reflexivity|].
  destruct (advance_batch w1) as [[e|[]] w2]; [reflexivity|].
  destruct (send_to_server w2) as [[e|[]] w3]; reflexivity.
Qed.

Lemma on_recv_finished brain name u w
    (from_server : ServerToSimulator.t DescriptorProto) :
  same_tables (Simulator__init__ brain name u) w ->
  message_type from_server = FINISHED ->
  _on_recv from_server w
  = (inr tt,
     {| impl := Simulator_WS.set_prev_message_type FINISHED (impl w);
        clock_reads := clock_reads w;
        events := events w |}).
Proof.
  intros [_ Hrecv] Htype.
  unfold _on_recv. unfold bind at 1, get_impl. simpl.
  rewrite Hrecv, Htype. reflexivity.
Qed.

Lemma connect_if_needed_connected w ws :
  Simulator_WS._ws (impl w) = Some ws -> connect_if_needed w = (inr tt, w).
Proof.
  intros Hws. unfold connect_if_needed, bind, get_impl. simpl. by rewrite Hws.
Qed.

Lemma advance_batch_no_batch w :
  Simulator_WS._prev_message_type (impl w) <> PREDICTION ->
  advance_batch w = (inr tt, w).
Proof.
  intros Hprev. unfold advance_batch, bind, get_impl. simpl.
  by rewrite decide_False.
Qed.

(** C6 (a closed channel).  When a cycle comes to read and the websocket
    answers that it has closed, [run] raises the error made of the
    socket's close code and close reason; it does not return, so the
    caller is given no value in place of a message.  Nothing of the
    session moves but the socket, and the state machine stays where it
    was. *)
Theorem closed_channel_raises w w1 ws ws' :
  before_read w = (inr tt, w1) ->
  Simulator_WS._ws (impl w1) = Some ws ->
  read_message ws = (None, ws') ->
  run w
  = (inl (Py.BonsaiServerError
            (Py.format "Websocket connection closed. Code: {}, Reason: {}"
               [Py.ArgInt (close_code ws'); Py.ArgStr (close_reason ws')])),
     {| impl := Simulator_WS.set_ws (Some ws') (impl w1);
        clock_reads := clock_reads w1;
        events := events w1 ++ [ReadMessage None] |}).
Proof.
  intros Hbefore Hws Hread. rewrite run_split. unfold bind at 1. rewrite Hbefore.
  unfold read_response, with_ws.
  unfold bind at 1. unfold bind at 1, get_impl. simpl. rewrite Hws, Hread.
  unfold bind, modify_impl, lift, emit, raise, connection_closed. simpl.
  reflexivity.
Qed.

(** C5, as the code has it ([FINISHED] and the cycle after it).  The
    cycle that reads a [FINISHED] message closes the websocket and
    returns [False], and after the read it writes nothing.  A cycle
    started in a world whose previous incoming type is [FINISHED] does
    not skip the send: the callable [_on_send] falls back on takes no
    argument, the call with the message raises [TypeError], and [run]
    raises it before anything is written or read. *)
Theorem finished_then_next_cycle_raises brain name u w :
  reachable brain name u w ->
  (forall w1 ws ws' in_bytes from_server,
     before_read w = (inr tt, w1) ->
     Simulator_WS._ws (impl w1) = Some ws ->
     read_message ws = (Some in_bytes, ws') ->
     from_server_ParseFromString in_bytes = inr from_server ->
     message_type from_server = FINISHED ->
     run w
     = (inr false,
        {| impl :=
             Simulator_WS.set_ws (Some (close ws'))
               (Simulator_WS.set_prev_message_type FINISHED
                  (Simulator_WS.set_ws (Some ws') (impl w1)));
           clock_reads := clock_reads w1;
           events := events w1 ++ [ReadMessage (Some in_bytes); Close] |}))
  /\ (forall ws,
        Simulator_WS._ws (impl w) = Some ws ->
        Simulator_WS._prev_message_type (impl w) = FINISHED ->
        run w
        = (inl (Py.TypeError "<lambda>() takes 0 positional arguments but 1 was given"),
           w)).
Proof.
  intros Hreach. pose proof (reachable_tables _ _ _ _ Hreach) as Htables.
  split.
  - intros w1 ws ws' in_bytes from_server Hbefore Hws Hread Hparse Htype.
    assert (Htables1 : same_tables (Simulator__init__ brain name u) w1).
    { etransitivity; [exact Htables|].
      pose proof (tables_before_read w) as Hkeep. by rewrite Hbefore in Hkeep. }
    rewrite run_split. unfold bind at 1. rewrite Hbefore.
    unfold read_response, with_ws.
    unfold bind at 1. unfold bind at 1, get_impl. simpl. rewrite Hws, Hread.
    unfold bind at 1, modify_impl. simpl. unfold lift at 1.
    unfold bind at 1, emit. simpl.
    unfold bind at 1, lift. rewrite Hparse.
    unfold bind at 1. erewrite on_recv_finished; [|exact Htables1|exact Htype].
    unfold bind, get_impl, modify_impl, ws_close, emit, with_ws, lift, ret. simpl.
    rewrite <- app_assoc. reflexivity.
  - intros ws Hws Hprev.
    unfold run. unfold bind at 1. rewrite (connect_if_needed_connected _ _ Hws).
    unfold bind at 1. rewrite advance_batch_no_batch by (by rewrite Hprev).
    unfold bind at 1, send_to_server. unfold bind at 1, _on_send.
    unfold bind at 1, get_impl. simpl.
    destruct Htables as [Hsend _].
    unfold send_method, send_method_name. rewrite Hsend, Hprev. reflexivity.
Qed.

End RunCycle.

(** ** The rate counter *)

(** C7, as the code has it ([update] with no time elapsed).  The test
    [delta is not 0] holds for every float, so the division is always
    attempted: when the clock reads what it did at the last reset, [update]
    raises [ZeroDivisionError], with [count] incremented and [rate] as it
    was. *)
Theorem update_with_no_time_elapsed_raises (now : float) (self : RateCounter.t) :
  PrimFloat.eqb (now - RateCounter.start self) 0 = true ->
  Py.float_of_int (RateCounter.count self + 1) <> inl Py.OverflowError ->
  RateCounter.update now self
  = (inl Py.ZeroDivisionError,
     {| RateCounter.count := RateCounter.count self + 1;
        RateCounter.rate := RateCounter.rate self;
        RateCounter.start := RateCounter.start self |}).
Proof.
  intros Hzero Hcount.
  unfold RateCounter.update, Py.truediv_float, Py.to_float. simpl.
  unfold Py.float_of_int in *.
  destruct (is_infinity _); [by destruct Hcount|].
  rewrite Hzero. reflexivity.
Qed.

(** * The theorems at work on the concrete sessions *)

Lemma pair_of_fst {A B} (p : A * B) (a : A) : p.1 = a -> p = (a, p.2).
Proof. destruct p. simpl. intros ->. reflexivity. Defined.

Section TrainingSession.
Import Demo Scenario.Training ServerToSimulator.

Lemma training_w1 : reachable (brain false) "sim" 0%Z w1.
Proof. apply reachable_run, reachable_init. Defined.

Lemma training_w3 : reachable (brain false) "sim" 0%Z w3.
Proof. apply reachable_run, reachable_run, training_w1. Defined.

Lemma training_w4 : reachable (brain false) "sim" 0%Z w4.
Proof. apply reachable_run, training_w3. Defined.

Lemma training_w5 : reachable (brain false) "sim" 0%Z w5.
Proof. apply reachable_run, training_w4. Defined.

Lemma training_w6 : reachable (brain false) "sim" 0%Z w6.
Proof. apply reachable_run, training_w5. Defined.

(** The frames the whole session writes: [REGISTER], [READY], [READY], the
    initial [STATE], the [STATE] reply with two entries, [READY]. *)
Example training_session_frames :
  written (events w6)
  = [[Byte.x01]; [Byte.x02]; [Byte.x02]; [Byte.x03; Byte.x00];
     [Byte.x03; Byte.x01; Byte.x03]; [Byte.x02]].
Proof. vm_compute. reflexivity. Qed.

(** After [START], in training mode, the dispatcher picks the builder of
    the initial [STATE]. *)
Lemma send_dispatch_after_start :
  reachable (brain false) "sim" 0%Z w3
  /\ START ∈ previous_types
  /\ Simulator_WS._prev_message_type (impl w3) = START
  /\ exists o,
       spec_send_table START (Brain.config_predict (brain false)) = Some o
       /\ send_method (impl w3) = def1 (builder o)
       /\ forall to_server m w',
            _on_send to_server w3 = (inr m, w') ->
            SimulatorToServer.message_type m = outgoing_type o.
Proof.
  assert (Hin : START ∈ previous_types)
    by (unfold previous_types; do 3 apply list_elem_of_further; apply list_elem_of_here).
  assert (Hprev : Simulator_WS._prev_message_type (impl w3) = START)
    by (vm_compute; reflexivity).
  split; [exact training_w3|]. split; [exact Hin|]. split; [exact Hprev|].
  exact (proj1 (send_dispatch_follows_table (brain false) "sim" 0%Z)
           w3 START training_w3 Hin Hprev).
Defined.

(** A frame whose header is 99 is rejected, and nothing moves. *)
Lemma unknown_message_99_rejected :
  reachable (brain false) "sim" 0%Z w1
  /\ (message_type (frame_message Byte.x63 []) ∉ known_incoming)
  /\ _on_recv (frame_message Byte.x63 []) w1
     = (inl (Py.BonsaiServerError
               (Py.format "Received unknown message ({}) from server"
                  [Py.ArgEnum (message_type (frame_message Byte.x63 []))])), w1).
Proof.
  assert (Hnot : message_type (frame_message Byte.x63 []) ∉ known_incoming).
  { intros Hin. apply (bool_decide_pack _) in Hin. vm_compute in Hin. exact Hin. }
  split; [exact training_w1|]. split; [exact Hnot|].
  exact (unknown_message_rejected (brain false) "sim" 0%Z w1
           (frame_message Byte.x63 []) training_w1 Hnot).
Defined.

(** The batch of two predictions, the second terminal. *)
Lemma batch_of_two_restarts_once :
  reachable (brain false) "sim" 0%Z w4
  /\ Simulator_WS._prev_message_type (impl w4) = PREDICTION
  /\ ((advance_batch ;; send_to_server) w4).1 = inr tt
  /\ batch_then_reply w4 ((advance_batch ;; send_to_server) w4).2.
Proof.
  assert (Hprev : Simulator_WS._prev_message_type (impl w4) = PREDICTION)
    by (vm_compute; reflexivity).
  assert (Hrun : ((advance_batch ;; send_to_server) w4).1 = inr tt)
    by (vm_compute; reflexivity).
  split; [exact training_w4|]. split; [exact Hprev|]. split; [exact Hrun|].
  exact (proj1 (terminal_step_restarts_before_reply (brain false) "sim" 0%Z w4
                  training_w4 Hprev)
           ((advance_batch ;; send_to_server) w4).2
           (pair_of_fst _ _ Hrun)).
Defined.

(** A [SET_PROPERTIES] frame after the handshake: the schema it carries
    is the one a later prediction is decoded against. *)
Lemma set_properties_after_handshake :
  Simulator_WS._prediction_schema (impl (_on_set_properties properties_frame w1).2)
  = Some schema
  /\ Simulator_WS._predictor_action
       (impl (_cache_action_for_predictor [Byte.x02]
                (_on_set_properties properties_frame w1).2).2)
     = Some (decode [Byte.x02] (Some schema)).
Proof.
  destruct (set_properties_replaces_prediction_schema properties_frame w1)
    as (w' & Heq & Hschema & _ & _ & _ & _ & _ & Hcache & _).
  rewrite Heq. split; [exact Hschema | exact (Hcache [Byte.x02])].
Defined.

(** The cycle that reads [FINISHED], and the one after it. *)
Lemma finished_cycle_and_the_next :
  (before_read w5).1 = inr tt
  /\ Simulator_WS._ws (impl (before_read w5).2)
     = Some {| inbox := [[tag FINISHED]]; writable := true |}
  /\ run w5
     = (inr false,
        {| impl :=
             Simulator_WS.set_ws
               (Some (close {| inbox := []; writable := true |}))
               (Simulator_WS.set_prev_message_type FINISHED
                  (Simulator_WS.set_ws (Some {| inbox := []; writable := true |})
                     (impl (before_read w5).2)));
           clock_reads := clock_reads (before_read w5).2;
           events :=
             events (before_read w5).2
             ++ [ReadMessage (Some [tag FINISHED]); Close] |})
  /\ Simulator_WS._ws (impl w6) = Some {| inbox := []; writable := false |}
  /\ Simulator_WS._prev_message_type (impl w6) = FINISHED
  /\ run w6
     = (inl (Py.TypeError "<lambda>() takes 0 positional arguments but 1 was given"),
        w6).
Proof.
  assert (Hbefore : (before_read w5).1 = inr tt) by (vm_compute; reflexivity).
  assert (Hws : Simulator_WS._ws (impl (before_read w5).2)
                = Some {| inbox := [[tag FINISHED]]; writable := true |})
    by (vm_compute; reflexivity).
  assert (Hws6 : Simulator_WS._ws (impl w6) = Some {| inbox := []; writable := false |})
    by (vm_compute; reflexivity).
  assert (Hprev6 : Simulator_WS._prev_message_type (impl w6) = FINISHED)
    by (vm_compute; reflexivity).
  split; [exact Hbefore|]. split; [exact Hws|].
  split.
  { exact (proj1 (finished_then_next_cycle_raises (brain false) "sim" 0%Z w5
                    training_w5)
             (before_read w5).2
             {| inbox := [[tag FINISHED]]; writable := true |}
             {| inbox := []; writable := true |}
             [tag FINISHED]
             (frame_message (tag FINISHED) [])
             (pair_of_fst _ _ Hbefore) Hws eq_refl eq_refl eq_refl). }
  split; [exact Hws6|]. split; [exact Hprev6|].
  exact (proj2 (finished_then_next_cycle_raises (brain false) "sim" 0%Z w6
                  training_w6)
           {| inbox := []; writable := false |} Hws6 Hprev6).
Defined.

End TrainingSession.

Section HungUpSession.
Import Demo Scenario.HungUp ServerToSimulator.

(** The server hangs up before answering: the first cycle raises. *)
Lemma hung_up_before_answering :
  (before_read w0).1 = inr tt
  /\ Simulator_WS._ws (impl (before_read w0).2)
     = Some {| inbox := []; writable := true |}
  /\ run w0
     = (inl (Py.BonsaiServerError
               (Py.format "Websocket connection closed. Code: {}, Reason: {}"
                  [Py.ArgInt (close_code {| inbox := []; writable := false |});
                   Py.ArgStr (close_reason {| inbox := []; writable := false |})])),
        {| impl :=
             Simulator_WS.set_ws (Some {| inbox := []; writable := false |})
               (impl (before_read w0).2);
           clock_reads := clock_reads (before_read w0).2;
           events := events (before_read w0).2 ++ [ReadMessage None] |}).
Proof.
  assert (Hbefore : (before_read w0).1 = inr tt) by (vm_compute; reflexivity).
  assert (Hws : Simulator_WS._ws (impl (before_read w0).2)
                = Some {| inbox := []; writable := true |})
    by (vm_compute; reflexivity).
  split; [exact Hbefore|]. split; [exact Hws|].
  exact (closed_channel_raises w0 (before_read w0).2
           {| inbox := []; writable := true |}
           {| inbox := []; writable := false |}
           (pair_of_fst _ _ Hbefore) Hws eq_refl).
Defined.

End HungUpSession.

Section FinishRaisesSession.
Import Demo Scenario.FinishRaises ServerToSimulator.




End FinishRaisesSession.

Section Concrete.
Import Demo.

(** An absent source decodes to the empty mapping against the schema
    [x]; a message with field [x] decodes to its value. *)
Lemma decode_absent_and_present :
  message_for_dynamic_message [] (Some ["x"]) = None
  /\ decode [] (Some ["x"]) = (∅ : gmap string Z)
  /\ "x" ∈ fields [("x", 5%Z)]
  /\ _dict_for_message (Some [("x", 5%Z)]) !! "x" = Some (getattr [("x", 5%Z)] "x")
  /\ ("y" ∉ fields [("x", 5%Z)])
  /\ _dict_for_message (Some [("x", 5%Z)]) !! "y" = None.
Proof.
  assert (Hin : "x" ∈ fields [("x", 5%Z)]) by apply list_elem_of_here.
  assert (Hnot : "y" ∉ fields [("x", 5%Z)]).
  { intros H. apply (bool_decide_pack _) in H. vm_compute in H. exact H. }
  split; [reflexivity|].
  split; [exact (proj1 (proj2 dict_for_message_spec) [] (Some ["x"]) eq_refl)|].
  split; [exact Hin|].
  split; [exact (proj1 (proj2 (proj2 dict_for_message_spec)) _ _ Hin)|].
  split; [exact Hnot|].
  exact (proj2 (proj2 (proj2 dict_for_message_spec)) _ _ Hnot).
Defined.

(** One second after the reset, the first update sets the rate to 0.9. *)
Example update_after_one_second :
  RateCounter.update 101.0%float (RateCounter.reset 100.0%float)
  = (inr tt,
     {| RateCounter.count := 1; RateCounter.rate := Py.Float 0.9;
        RateCounter.start := 100.0%float |}).
Proof. vm_compute. reflexivity. Qed.

(** The clock has not moved since the reset. *)
Lemma update_right_after_reset_raises :
  PrimFloat.eqb (100.0 - RateCounter.start (RateCounter.reset 100.0)) 0 = true
  /\ Py.float_of_int (RateCounter.count (RateCounter.reset 100.0) + 1)
     <> inl Py.OverflowError
  /\ RateCounter.update 100.0%float (RateCounter.reset 100.0%float)
     = (inl Py.ZeroDivisionError,
        {| RateCounter.count := RateCounter.count (RateCounter.reset 100.0) + 1;
           RateCounter.rate := RateCounter.rate (RateCounter.reset 100.0);
           RateCounter.start := RateCounter.start (RateCounter.reset 100.0) |}).
Proof.
  assert (Hzero :
    PrimFloat.eqb (100.0 - RateCounter.start (RateCounter.reset 100.0)) 0 = true)
    by (vm_compute; reflexivity).
  assert (Hcount :
    Py.float_of_int (RateCounter.count (RateCounter.reset 100.0) + 1)
    <> inl Py.OverflowError)
    by (vm_compute; discriminate).
  split; [exact Hzero|]. split; [exact Hcount|].
  exact (update_with_no_time_elapsed_raises 100.0 (RateCounter.reset 100.0)
           Hzero Hcount).
Defined.

End Concrete.

(** * More of the engine *)

(** ** What a computation leaves alone, and what it may add *)

Section Frames.
Context `{UserSimulator} `{Runtime}.
Import ServerToSimulator.

(** [keeps field]: the attribute [field] of the engine is as it was. *)
Definition keeps {X} (field : Simulator_WS.t -> X) : relation World :=
  fun w w' => field (impl w') = field (impl w).

#[global] Instance keeps_preorder {X} (field : Simulator_WS.t -> X) :
  PreOrder (keeps field).
Proof.
  split.
  - intros w. reflexivity.
  - intros w1 w2 w3 H12 H23. unfold keeps in *. congruence.
Qed.

Lemma keeps_emit {X} (field : Simulator_WS.t -> X) e : stable (keeps field) (emit e).
Proof. intros w. reflexivity. Qed.

Lemma keeps_time {X} (field : Simulator_WS.t -> X) : stable (keeps field) time.
Proof. intros w. reflexivity. Qed.

Lemma keeps_modify_impl {X} (field : Simulator_WS.t -> X) f :
  (forall o, field (f o) = field o) -> stable (keeps field) (modify_impl f).
Proof. intros Hf w. exact (Hf (impl w)). Qed.

(** [adds p]: the events are extended, and only with events that
    satisfy [p]. *)
Definition adds (p : Event -> bool) : relation World :=
  fun w w' => exists evs, events w' = events w ++ evs /\ forallb p evs = true.

#[global] Instance adds_preorder (p : Event -> bool) : PreOrder (adds p).
Proof.
  split.
  - intros w. exists []. by rewrite app_nil_r.
  - intros w1 w2 w3 (l1 & H12 & Hl1) (l2 & H23 & Hl2). exists (l1 ++ l2). split.
    + by rewrite H23, H12, app_assoc.
    + rewrite forallb_app, Hl1, Hl2. reflexivity.
Qed.

Lemma adds_emit p e : p e = true -> stable (adds p) (emit e).
Proof. intros He w. exists [e]. simpl. by rewrite He. Qed.

Lemma adds_time p : stable (adds p) time.
Proof. intros w. exists []. by rewrite app_nil_r. Qed.

Lemma adds_modify_impl p f : stable (adds p) (modify_impl f).
Proof. intros w. exists []. by rewrite app_nil_r. Qed.

Lemma adds_step p w w' evs :
  events w' = events w ++ evs -> forallb p evs = true -> adds p w w'.
Proof. intros Heq Hall. by exists evs. Qed.

(** An event that [p] excludes is not among the events added. *)
Lemma adds_not_in p w w' e : adds p w w' -> p e = false -> e ∉ new_events w w'.
Proof.
  intros (evs & Heq & Hall) He Hin. rewrite (new_events_app _ _ _ Heq) in Hin.
  apply list_elem_of_In in Hin.
  rewrite forallb_forall in Hall. rewrite (Hall _ Hin) in He. discriminate.
Qed.

(** The two dispatchers call one of the methods of the class, or the
    fallback: what every method keeps, the dispatched call keeps. *)
Lemma stable_send_dispatch (R : relation World) `{!PreOrder R} :
  (forall to_server, stable R (_send_registration to_server)) ->
  (forall to_server, stable R (_send_ready to_server)) ->
  (forall to_server, stable R (_send_initial_state to_server)) ->
  (forall to_server, stable R (_send_state to_server)) ->
  forall to_server, stable R (_on_send to_server).
Proof.
  intros Hreg Hready Hinit Hstate to_server.
  unfold _on_send. apply stable_bind; [exact _ | apply stable_get_impl; exact _ |].
  intros self. cbv zeta. apply stable_call1; [exact _|].
  intros body. unfold send_method, getattr_method.
  destruct (send_methods !! _) eqn:Hm; [|discriminate].
  injection 1 as <-. apply elem_of_list_to_map_2 in Hm.
  repeat (apply elem_of_cons in Hm as [Heq|Hm]; [injection Heq as _ ->|]);
    [..|by apply elem_of_nil in Hm]; auto.
Qed.

Lemma stable_recv_handler (R : relation World) `{!PreOrder R} :
  (forall from_server, stable R (_on_acknowledge_register from_server)) ->
  (forall from_server, stable R (_on_set_properties from_server)) ->
  (forall from_server, stable R (_on_prediction from_server)) ->
  stable R _on_episode_finish ->
  forall name fallback from_server,
    stable R (call1 (getattr_method recv_methods name
                       (def1 (fun msg => raise (fallback msg)))) from_server).
Proof.
  intros Hack Hprops Hpred Hstop name fallback from_server.
  apply stable_call1; [exact _|].
  intros body. unfold getattr_method.
  destruct (recv_methods !! _) eqn:Hm.
  - injection 1 as <-. apply elem_of_list_to_map_2 in Hm.
    repeat (apply elem_of_cons in Hm as [Heq|Hm]; [injection Heq as _ ->|]);
      [..|by apply elem_of_nil in Hm]; auto; apply stable_ret; exact _.
  - injection 1 as <-. apply stable_raise. exact _.
Qed.

End Frames.

(** One step of a proof that a computation is [stable]: through the
    structure of the computation, down to the primitives [leaf] settles. *)
Ltac stable_step leaf :=
  first
    [ match goal with |- PreOrder _ => exact _ end
    | leaf
    | apply stable_ret | apply stable_raise | apply stable_lift
    | apply stable_get_impl
    | apply stable_bind; [| | intros ?]
    | apply stable_try_except; [| | intros ?]
    | apply stable_for_each; [| intros ? ?]
    | apply stable_if_decide
    | match goal with
      | |- stable _ (if ?b then _ else _) => destruct b
      | |- stable _ (match ?x with _ => _ end) => destruct x
      | |- stable _ (let '(_, _) := ?x in _) => destruct x
      end ].

Ltac stable_with leaf := repeat stable_step leaf.

Ltac keeps_leaf :=
  first [ apply keeps_emit | apply keeps_time
        | apply keeps_modify_impl; intros ?; reflexivity ].

(** An event that the property at hand holds of, by computation. *)
Ltac adds_leaf :=
  first [ apply adds_emit; reflexivity | apply adds_time | apply adds_modify_impl ].

Ltac unfold_hooks :=
  unfold _on_episode_start, _on_simulate, _on_episode_finish, call_user,
    rate_update, modify_sim, get_sim, log.

Ltac unfold_methods :=
  unfold connect_if_needed, _connect, ws_close, with_ws, _advance, store_result,
    _send_registration, _send_ready, _send_initial_state, _send_state,
    _on_acknowledge_register, _on_set_properties, _on_prediction,
    _cache_action_for_predictor;
  unfold_hooks.

(** An attribute that no assignment of the method at hand names. *)
Ltac keeps_methods := unfold_methods; stable_with keeps_leaf.

(** ** One cycle of [run], part by part *)

Section Cycle.
Context `{UserSimulator} `{Runtime}.
Import ServerToSimulator.

(** *** The previous incoming type and the socket *)

Lemma keeps_prev_advance_steps steps : forall i,
  stable (keeps Simulator_WS._prev_message_type) (advance_steps i steps).
Proof.
  induction steps as [|step steps IH]; intros i; simpl.
  - apply stable_ret. exact _.
  - apply stable_bind; [exact _ | keeps_methods | intros _; apply IH].
Qed.

Lemma keeps_prev_on_send to_server :
  stable (keeps Simulator_WS._prev_message_type) (_on_send to_server).
Proof. apply stable_send_dispatch; [exact _|..]; intros ?; keeps_methods. Qed.

Lemma keeps_prev_before_read :
  stable (keeps Simulator_WS._prev_message_type) before_read.
Proof.
  unfold before_read, advance_batch, send_to_server, connect_if_needed, _connect,
    with_ws, log.
  stable_with ltac:(first [ apply keeps_prev_advance_steps | apply keeps_prev_on_send
                          | keeps_leaf ]).
Qed.

Lemma keeps_prev_handler name fallback from_server :
  stable (keeps Simulator_WS._prev_message_type)
    (call1 (getattr_method recv_methods name
              (def1 (fun msg => raise (fallback msg)))) from_server).
Proof. apply stable_recv_handler; [exact _|..]; try intros ?; keeps_methods. Qed.

Lemma keeps_ws_handler name fallback from_server :
  stable (keeps Simulator_WS._ws)
    (call1 (getattr_method recv_methods name
              (def1 (fun msg => raise (fallback msg)))) from_server).
Proof. apply stable_recv_handler; [exact _|..]; try intros ?; keeps_methods. Qed.

Ltac handler_keeps Hcall :=
  match type of Hcall with
  | ?c ?w = _ =>
      assert (Hprev : keeps Simulator_WS._prev_message_type w (c w).2)
        by apply keeps_prev_handler;
      assert (Hws : keeps Simulator_WS._ws w (c w).2) by apply keeps_ws_handler;
      rewrite Hcall in Hprev, Hws
  end.

(** [_on_recv]: the previous type is assigned after the handler has
    returned, and only then. *)
Lemma on_recv_inv from_server w r w' :
  _on_recv from_server w = (r, w') ->
  Simulator_WS._ws (impl w') = Simulator_WS._ws (impl w)
  /\ match r with
     | inl _ =>
         Simulator_WS._prev_message_type (impl w')
         = Simulator_WS._prev_message_type (impl w)
     | inr _ => Simulator_WS._prev_message_type (impl w') = message_type from_server
     end.
Proof.
  unfold _on_recv. unfold bind at 1, get_impl. simpl.
  intros [(e & Hcall & ->)|([] & w1 & Hcall & Hset)]%bind_inv.
  - handler_keeps Hcall. split; [exact Hws | exact Hprev].
  - handler_keeps Hcall. unfold modify_impl in Hset. injection Hset as <- <-.
    split; [exact Hws | reflexivity].
Qed.

(** The world once a frame, or the end of the stream, has been read. *)
Definition after_read (w : World) (ws' : WebSocket) (in_bytes : option bytes) : World :=
  {| impl := Simulator_WS.set_ws (Some ws') (impl w);
     clock_reads := clock_reads w;
     events := events w ++ [ReadMessage in_bytes] |}.

Definition after_close (w : World) (ws : WebSocket) : World :=
  {| impl := Simulator_WS.set_ws (Some (close ws)) (impl w);
     clock_reads := clock_reads w;
     events := events w ++ [Close] |}.

(** The ways [read_response] ends. *)
Inductive response : World -> exn + bool -> World -> Prop :=
| response_no_socket w :
    Simulator_WS._ws (impl w) = None ->
    response w (inl (Py.AttributeError "'NoneType' object has no such attribute")) w
| response_closed w ws ws' :
    Simulator_WS._ws (impl w) = Some ws ->
    read_message ws = (None, ws') ->
    response w (inl (connection_closed ws')) (after_read w ws' None)
| response_not_parsed w ws ws' in_bytes e :
    Simulator_WS._ws (impl w) = Some ws ->
    read_message ws = (Some in_bytes, ws') ->
    from_server_ParseFromString in_bytes = inl e ->
    response w (inl e) (after_read w ws' (Some in_bytes))
| response_not_handled w ws ws' in_bytes from_server e w' :
    Simulator_WS._ws (impl w) = Some ws ->
    read_message ws = (Some in_bytes, ws') ->
    from_server_ParseFromString in_bytes = inr from_server ->
    _on_recv from_server (after_read w ws' (Some in_bytes)) = (inl e, w') ->
    response w (inl e) w'
| response_handled w ws ws' in_bytes from_server w' :
    Simulator_WS._ws (impl w) = Some ws ->
    read_message ws = (Some in_bytes, ws') ->
    from_server_ParseFromString in_bytes = inr from_server ->
    _on_recv from_server (after_read w ws' (Some in_bytes)) = (inr tt, w') ->
    message_type from_server <> FINISHED ->
    response w (inr true) w'
| response_finished w ws ws' in_bytes from_server w' :
    Simulator_WS._ws (impl w) = Some ws ->
    read_message ws = (Some in_bytes, ws') ->
    from_server_ParseFromString in_bytes = inr from_server ->
    _on_recv from_server (after_read w ws' (Some in_bytes)) = (inr tt, w') ->
    message_type from_server = FINISHED ->
    response w (inr false) (after_close w' ws').

Lemma read_response_inv w r w' : read_response w = (r, w') -> response w r w'.
Proof.
  unfold read_response, with_ws at 1.
  unfold bind at 1. unfold bind at 1, get_impl. simpl.
  destruct (Simulator_WS._ws (impl w)) as [ws|] eqn:Hws.
  2:{ unfold raise. intros [= <- <-]. by constructor. }
  destruct (read_message ws) as [in_bytes ws'] eqn:Hread.
  unfold bind at 1, modify_impl, lift. simpl.
  unfold bind at 1, emit. simpl.
  fold (after_read w ws' in_bytes).
  destruct in_bytes as [in_bytes|].
  2:{ unfold with_ws, bind, get_impl, modify_impl, lift, raise. simpl.
      intros [= <- <-].
      replace {| impl := _; clock_reads := _; events := _ |}
        with (after_read w ws' None)
        by (unfold after_read; simpl; by destruct (impl w)).
      by econstructor. }
  unfold bind at 1.
  destruct (from_server_ParseFromString in_bytes) as [e|from_server] eqn:Hparse.
  { intros [= <- <-]. by econstructor. }
  unfold bind at 1.
  destruct (_on_recv from_server _) as [[e|[]] w2] eqn:Hrecv.
  { intros [= <- <-]. by econstructor. }
  destruct (on_recv_inv _ _ _ _ Hrecv) as [Hws2 Hprev2]. simpl in Hws2.
  unfold bind at 1, get_impl. simpl. rewrite Hprev2.
  destruct (decide (message_type from_server = FINISHED)) as [Hfin|Hfin].
  - unfold ws_close, with_ws, bind, emit, get_impl, modify_impl, lift, ret. simpl.
    rewrite Hws2. simpl. intros [= <- <-]. by econstructor.
  - unfold ret. intros [= <- <-]. by econstructor.
Qed.

End Cycle.

Section Sending.
Context `{UserSimulator} `{Runtime}.
Import ServerToSimulator.

(** Whatever [_on_send] finds in the table, the message it returns has
    one of the three declared types. *)
Lemma on_send_type to_server w m w' :
  _on_send to_server w = (inr m, w') ->
  SimulatorToServer.truthy (SimulatorToServer.message_type m) = true.
Proof.
  unfold _on_send. unfold bind at 1, get_impl. simpl.
  unfold send_method, getattr_method.
  destruct (send_methods !! _) as [method|] eqn:Hm; [|discriminate].
  apply elem_of_list_to_map_2 in Hm. simpl.
  repeat (apply elem_of_cons in Hm as [Heq|Hm]; [injection Heq as _ ->|]);
    [..|by apply elem_of_nil in Hm]; intros Hrun.
  - apply (builder_type sends_REGISTER) in Hrun. by rewrite Hrun.
  - apply (builder_type sends_READY) in Hrun. by rewrite Hrun.
  - apply (builder_type sends_initial_STATE) in Hrun. by rewrite Hrun.
  - apply (builder_type sends_batch_reply_STATE) in Hrun. by rewrite Hrun.
Qed.

(** The world once a frame has been handed to the socket. *)
Definition after_write (w : World) (ws' : option WebSocket) (frame : bytes) : World :=
  {| impl := Simulator_WS.set_ws ws' (impl w);
     clock_reads := clock_reads w;
     events := events w ++ [WriteMessage frame] |}.

(** What [run] raises when [write_message] raised [e]. *)
Definition write_error (e : exn) (ws' : WebSocket) : exn :=
  if is_closed_error e then connection_closed ws' else e.

(** The ways [send_to_server] ends. *)
Inductive sent : World -> exn + unit -> World -> Prop :=
| sent_not_built w e w1 :
    _on_send SimulatorToServer.new w = (inl e, w1) ->
    sent w (inl e) w1
| sent_no_socket w to_server w1 :
    _on_send SimulatorToServer.new w = (inr to_server, w1) ->
    Simulator_WS._ws (impl w1) = None ->
    sent w (inl (Py.AttributeError "'NoneType' object has no such attribute"))
      (after_write w1 None (to_server_SerializeToString to_server))
| sent_write_failed w to_server w1 ws e ws' :
    _on_send SimulatorToServer.new w = (inr to_server, w1) ->
    Simulator_WS._ws (impl w1) = Some ws ->
    write_message (to_server_SerializeToString to_server) ws = (inl e, ws') ->
    sent w (inl (write_error e ws'))
      (after_write w1 (Some ws') (to_server_SerializeToString to_server))
| sent_written w to_server w1 ws ws' :
    _on_send SimulatorToServer.new w = (inr to_server, w1) ->
    Simulator_WS._ws (impl w1) = Some ws ->
    write_message (to_server_SerializeToString to_server) ws = (inr tt, ws') ->
    sent w (inr tt)
      (after_write w1 (Some ws') (to_server_SerializeToString to_server)).

Lemma send_to_server_inv w r w' : send_to_server w = (r, w') -> sent w r w'.
Proof.
  unfold send_to_server. unfold bind at 1.
  destruct (_on_send _ w) as [[e|to_server] w1] eqn:Hsend.
  { intros [= <- <-]. by constructor. }
  rewrite (on_send_type _ _ _ _ Hsend).
  unfold try_except, with_ws. unfold bind at 1, emit. simpl.
  unfold bind at 1, get_impl. simpl.
  destruct (Simulator_WS._ws (impl w1)) as [ws|] eqn:Hws.
  2:{ unfold raise. simpl. intros [= <- <-].
      replace {| impl := _; clock_reads := _; events := _ |}
        with (after_write w1 None (to_server_SerializeToString to_server))
        by (unfold after_write; rewrite <- Hws; by destruct (impl w1)).
      by constructor. }
  destruct (write_message _ ws) as [[e|[]] ws'] eqn:Hwrite;
    unfold bind, modify_impl, lift, get_impl, raise; simpl.
  - destruct (is_closed_error e) eqn:Hclosed; simpl; intros [= <- <-].
    + replace {| impl := _; clock_reads := _; events := _ |}
        with (after_write w1 (Some ws') (to_server_SerializeToString to_server))
        by (unfold after_write; simpl; by destruct (impl w1)).
      replace (connection_closed ws') with (write_error e ws')
        by (unfold write_error; by rewrite Hclosed).
      by econstructor.
    + replace e with (write_error e ws') at 1
        by (unfold write_error; by rewrite Hclosed).
      by econstructor.
  - intros [= <- <-]. by econstructor.
Qed.

(** [run] from its three parts. *)
Lemma run_inv w r w' :
  run w = (r, w') ->
  (exists e, before_read w = (inl e, w') /\ r = inl e)
  \/ (exists w1, before_read w = (inr tt, w1) /\ read_response w1 = (r, w')).
Proof.
  rewrite run_split.
  intros [(e & Hb & ->)|([] & w1 & Hb & Hr)]%bind_inv; [left|right]; eauto.
Qed.

Lemma before_read_inv w r w' :
  before_read w = (r, w') ->
  (exists e, connect_if_needed w = (inl e, w') /\ r = inl e)
  \/ (exists w1 e, connect_if_needed w = (inr tt, w1)
                   /\ advance_batch w1 = (inl e, w') /\ r = inl e)
  \/ (exists w1 w2, connect_if_needed w = (inr tt, w1)
                    /\ advance_batch w1 = (inr tt, w2) /\ sent w2 r w').
Proof.
  unfold before_read.
  intros [(e & Hc & ->)|([] & w1 & Hc & Hk)]%bind_inv; [left; eauto|].
  apply bind_inv in Hk as [(e & Ha & ->)|([] & w2 & Ha & Hs)];
    [right; left; eauto|].
  right. right. exists w1, w2. repeat split; trivial. by apply send_to_server_inv.
Qed.

End Sending.

(** ** What a cycle writes and reads *)

Section Traffic.
Context `{UserSimulator} `{Runtime}.
Import ServerToSimulator.

(** The events that are calls of the websocket. *)
Definition is_io (e : Event) : bool :=
  match e with
  | WriteMessage _ | ReadMessage _ | Close => true
  | _ => false
  end.

Definition io_events (evs : list Event) : list Event := List.filter is_io evs.

(** A property of events that holds of every log line and of every call
    of the user's methods. *)
Definition internal (p : Event -> bool) : Prop :=
  forall e, is_io e = false -> p e = true.

Ltac internal_leaf Hp :=
  first [ apply adds_emit; apply Hp; reflexivity | apply adds_time
        | apply adds_modify_impl ].

Ltac internal_methods Hp := unfold_methods; stable_with ltac:(internal_leaf Hp).

Lemma adds_connect p : internal p -> stable (adds p) connect_if_needed.
Proof. intros Hp. internal_methods Hp. Qed.

Lemma adds_advance_steps p : internal p ->
  forall steps i, stable (adds p) (advance_steps i steps).
Proof.
  intros Hp steps. induction steps as [|step steps IH]; intros i; simpl.
  - apply stable_ret. exact _.
  - apply stable_bind; [exact _ | internal_methods Hp | intros _; apply IH].
Qed.

Lemma adds_advance_batch p : internal p -> stable (adds p) advance_batch.
Proof.
  intros Hp. unfold advance_batch.
  stable_with ltac:(first [apply (adds_advance_steps p Hp) | internal_leaf Hp]).
Qed.

Lemma adds_on_send p : internal p -> forall to_server, stable (adds p) (_on_send to_server).
Proof.
  intros Hp. apply stable_send_dispatch; [exact _|..]; intros ?; internal_methods Hp.
Qed.

Lemma adds_on_recv p : internal p ->
  forall from_server, stable (adds p) (_on_recv from_server).
Proof.
  intros Hp from_server. unfold _on_recv.
  apply stable_bind; [exact _ | apply stable_get_impl; exact _ | intros self].
  apply stable_bind; [exact _ | | intros _; apply adds_modify_impl].
  apply stable_recv_handler; [exact _|..]; try intros ?; internal_methods Hp.
Qed.

(** [carries l]: the calls of the websocket among the events added are
    exactly [l], in that order. *)
Definition carries (l : list Event) : relation World :=
  fun w w' => exists evs, events w' = events w ++ evs /\ io_events evs = l.

Lemma carries_new_events l w w' : carries l w w' -> io_events (new_events w w') = l.
Proof. intros (evs & Heq & Hio). by rewrite (new_events_app _ _ _ Heq). Qed.

Lemma carries_trans l1 l2 w1 w2 w3 :
  carries l1 w1 w2 -> carries l2 w2 w3 -> carries (l1 ++ l2) w1 w3.
Proof.
  intros (evs1 & H12 & Hl1) (evs2 & H23 & Hl2). exists (evs1 ++ evs2). split.
  - by rewrite H23, H12, app_assoc.
  - unfold io_events in *. by rewrite List.filter_app, Hl1, Hl2.
Qed.

Lemma carries_nothing w w' : adds (fun e => negb (is_io e)) w w' -> carries [] w w'.
Proof.
  intros (evs & Heq & Hall). exists evs. split; [exact Heq|].
  clear Heq. unfold io_events.
  induction evs as [|e evs IH]; simpl in *; [reflexivity|].
  apply andb_true_iff in Hall as [He Hall]. apply negb_true_iff in He.
  rewrite He. by apply IH.
Qed.

Lemma internal_quiet : internal (fun e => negb (is_io e)).
Proof. intros e He. by rewrite He. Qed.

Ltac quiet c w :=
  let Hq := fresh "Hq" in
  assert (Hq : carries [] w (c w).2) by
    (apply carries_nothing;
     first [ apply (adds_connect _ internal_quiet)
           | apply (adds_advance_batch _ internal_quiet)
           | apply (adds_on_send _ internal_quiet)
           | apply (adds_on_recv _ internal_quiet) ]).

Lemma carries_after_write w ws' frame :
  carries [WriteMessage frame] w (after_write w ws' frame).
Proof. by exists [WriteMessage frame]. Qed.

Lemma carries_after_read w ws' in_bytes :
  carries [ReadMessage in_bytes] w (after_read w ws' in_bytes).
Proof. by exists [ReadMessage in_bytes]. Qed.

Lemma carries_after_close w ws : carries [Close] w (after_close w ws).
Proof. by exists [Close]. Qed.

Lemma carries_refl w : carries [] w w.
Proof. exists []. by rewrite app_nil_r. Qed.

(** What [send_to_server] carries: at most the one write. *)
Lemma sent_carries w r w' :
  sent w r w' ->
  match r with
  | inl _ => carries [] w w' \/ exists frame, carries [WriteMessage frame] w w'
  | inr _ => exists frame, carries [WriteMessage frame] w w'
  end.
Proof.
  intros Hsent. inversion Hsent as [? e w1 Hsend|? m w1 Hsend Hws
                                   |? m w1 ws e ws' Hsend Hws Hwrite
                                   |? m w1 ws ws' Hsend Hws Hwrite]; subst.
  - left. quiet (_on_send SimulatorToServer.new) w. by rewrite Hsend in Hq.
  - right. quiet (_on_send SimulatorToServer.new) w. rewrite Hsend in Hq.
    eexists. apply (carries_trans [] _ _ _ _ Hq). apply carries_after_write.
  - right. quiet (_on_send SimulatorToServer.new) w. rewrite Hsend in Hq.
    eexists. apply (carries_trans [] _ _ _ _ Hq). apply carries_after_write.
  - quiet (_on_send SimulatorToServer.new) w. rewrite Hsend in Hq.
    eexists. apply (carries_trans [] _ _ _ _ Hq). apply carries_after_write.
Qed.

Lemma before_read_carries w r w' :
  before_read w = (r, w') ->
  match r with
  | inl _ => carries [] w w' \/ exists frame, carries [WriteMessage frame] w w'
  | inr _ => exists frame, carries [WriteMessage frame] w w'
  end.
Proof.
  intros [(e & Hc & ->)|[(w1 & e & Hc & Ha & ->)|(w1 & w2 & Hc & Ha & Hsent)]]%before_read_inv.
  - left. quiet connect_if_needed w. by rewrite Hc in Hq.
  - left. quiet connect_if_needed w. rewrite Hc in Hq.
    quiet advance_batch w1. rewrite Ha in Hq0.
    apply (carries_trans [] [] _ _ _ Hq Hq0).
  - quiet connect_if_needed w. rewrite Hc in Hq.
    quiet advance_batch w1. rewrite Ha in Hq0.
    pose proof (carries_trans [] [] _ _ _ Hq Hq0) as Hq2. simpl in Hq2.
    apply sent_carries in Hsent. destruct r as [e|[]].
    + destruct Hsent as [Hs|[frame Hs]]; [left|right; exists frame];
        apply (carries_trans [] _ _ _ _ Hq2 Hs).
    + destruct Hsent as [frame Hs]. exists frame.
      apply (carries_trans [] _ _ _ _ Hq2 Hs).
Qed.

Lemma response_carries w r w' :
  response w r w' ->
  match r with
  | inl _ => carries [] w w' \/ exists x, carries [ReadMessage x] w w'
  | inr true => exists frame, carries [ReadMessage (Some frame)] w w'
  | inr false => exists frame, carries [ReadMessage (Some frame); Close] w w'
  end.
Proof.
  intros Hresp.
  inversion Hresp as [? Hws|? ws ws' Hws Hread|? ws ws' in_bytes e Hws Hread Hparse
                     |? ws ws' in_bytes m e w2 Hws Hread Hparse Hrecv
                     |? ws ws' in_bytes m w2 Hws Hread Hparse Hrecv Htype
                     |? ws ws' in_bytes m w2 Hws Hread Hparse Hrecv Htype]; subst.
  - left. apply carries_refl.
  - right. eexists. apply carries_after_read.
  - right. eexists. apply carries_after_read.
  - right. quiet (_on_recv m) (after_read w ws' (Some in_bytes)). rewrite Hrecv in Hq.
    eexists. apply (carries_trans _ [] _ _ _ (carries_after_read _ _ _) Hq).
  - quiet (_on_recv m) (after_read w ws' (Some in_bytes)). rewrite Hrecv in Hq.
    eexists. apply (carries_trans _ [] _ _ _ (carries_after_read _ _ _) Hq).
  - quiet (_on_recv m) (after_read w ws' (Some in_bytes)). rewrite Hrecv in Hq.
    eexists.
    apply (carries_trans [_] [_] _ _ _
             (carries_trans _ [] _ _ _ (carries_after_read _ _ _) Hq)
             (carries_after_close _ _)).
Qed.

(** X1 (one write, then one read).  Whatever world a cycle starts in and
    however it ends, [run] calls the websocket in this order and no
    other: at most one [write_message], then at most one [read_message],
    then at most one [close].  A cycle that returns [True] has written one
    frame and then read one; a cycle that returns [False] has written one
    frame, read one and then closed the socket; a cycle that raises has
    read only if it wrote, and has closed nothing. *)
Theorem run_writes_once_then_reads_once w :
  match (run w).1 with
  | inr true =>
      exists out_bytes in_bytes,
        io_events (new_events w (run w).2)
        = [WriteMessage out_bytes; ReadMessage (Some in_bytes)]
  | inr false =>
      exists out_bytes in_bytes,
        io_events (new_events w (run w).2)
        = [WriteMessage out_bytes; ReadMessage (Some in_bytes); Close]
  | inl _ =>
      io_events (new_events w (run w).2) = []
      \/ (exists out_bytes,
            io_events (new_events w (run w).2) = [WriteMessage out_bytes])
      \/ (exists out_bytes in_bytes,
            io_events (new_events w (run w).2)
            = [WriteMessage out_bytes; ReadMessage in_bytes])
  end.
Proof.
  destruct (run w) as [r w'] eqn:Hrun. simpl.
  apply run_inv in Hrun as [(e & Hb & ->)|(w1 & Hb & Hr)].
  - apply before_read_carries in Hb as [Hb|[frame Hb]].
    + left. by apply carries_new_events.
    + right. left. exists frame. by apply carries_new_events.
  - apply before_read_carries in Hb as [out_bytes Hb].
    apply read_response_inv, response_carries in Hr.
    destruct r as [e|[|]].
    + destruct Hr as [Hr|[x Hr]].
      * right. left. exists out_bytes.
        apply carries_new_events, (carries_trans [_] [] _ _ _ Hb Hr).
      * right. right. exists out_bytes, x.
        apply carries_new_events, (carries_trans [_] [_] _ _ _ Hb Hr).
    + destruct Hr as [in_bytes Hr]. exists out_bytes, in_bytes.
      apply carries_new_events, (carries_trans [_] [_] _ _ _ Hb Hr).
    + destruct Hr as [in_bytes Hr]. exists out_bytes, in_bytes.
      apply carries_new_events, (carries_trans [_] [_; _] _ _ _ Hb Hr).
Qed.

End Traffic.

(** ** The state machine *)

Section StateMachine.
Context `{UserSimulator} `{Runtime}.
Import ServerToSimulator.

Lemma carries_grows l w w' : carries l w w' -> exists evs, events w' = events w ++ evs.
Proof. intros (evs & Heq & _). by exists evs. Qed.

Lemma on_recv_grows from_server w :
  exists evs, events (_on_recv from_server w).2 = events w ++ evs.
Proof.
  destruct (adds_on_recv (fun e => negb (is_io e)) internal_quiet from_server w)
    as (evs & Heq & _).
  by exists evs.
Qed.

Lemma run_moves_previous_type w :
  match (run w).1 with
  | inl _ =>
      Simulator_WS._prev_message_type (impl (run w).2)
      = Simulator_WS._prev_message_type (impl w)
  | inr _ => True
  end.
Proof.
  destruct (run w) as [[e|go_on] w'] eqn:Hrun; simpl; [|exact I].
  apply run_inv in Hrun as [(e' & Hb & [= <-])|(w1 & Hb & Hr)].
  { pose proof (keeps_prev_before_read w) as Hkeep. by rewrite Hb in Hkeep. }
  pose proof (keeps_prev_before_read w) as Hprev1. rewrite Hb in Hprev1.
  unfold keeps in Hprev1. simpl in Hprev1.
  apply read_response_inv in Hr.
  inversion Hr as [? Hws|? ws ws' Hws Hread|? ws ws' in_bytes e0 Hws Hread Hparse
                  |? ws ws' in_bytes m e0 w2 Hws Hread Hparse Hrecv| |]; subst;
    try exact Hprev1.
  apply on_recv_inv in Hrecv as [_ Hprev]. by rewrite Hprev.
Qed.


End StateMachine.

(** ** The pending batch *)

Section Pending.
Context `{UserSimulator} `{Runtime}.
Import ServerToSimulator.

(** What [_on_prediction] does to the engine for one entry of the
    message: the step is appended, and the decoded action cached. *)
Definition queue (o : Simulator_WS.t) (p_data : PredictionData) : Simulator_WS.t :=
  Simulator_WS.set_predictor_action
    (Some (decode (dynamic_prediction p_data) (Simulator_WS._prediction_schema o)))
    (Simulator_WS.set_sim_steps
       (Simulator_WS._sim_steps o ++ [SimStep.new (dynamic_prediction p_data)]) o).

Lemma on_prediction_loop entries : forall w,
  for_each entries
    (fun _ p_data =>
       let step := SimStep.new (dynamic_prediction p_data) in
       modify_impl (fun o =>
         Simulator_WS.set_sim_steps (Simulator_WS._sim_steps o ++ [step]) o) ;;
       _cache_action_for_predictor (SimStep.prediction step))
    tt w
  = (inr tt, {| impl := fold_left queue entries (impl w);
                clock_reads := clock_reads w;
                events := events w |}).
Proof.
  induction entries as [|p_data entries IH]; intros w; simpl.
  - unfold ret. by destruct w.
  - unfold bind at 1. unfold bind at 1, modify_impl. simpl.
    unfold _cache_action_for_predictor, bind, get_impl, modify_impl. simpl.
    rewrite IH. reflexivity.
Qed.

Lemma on_prediction_unfold (from_server : ServerToSimulator.t DescriptorProto) w :
  _on_prediction from_server w
  = (inr tt, {| impl := fold_left queue (prediction_data from_server) (impl w);
                clock_reads := clock_reads w;
                events := events w ++ [Log "simulator_ws" "On Prediction"] |}).
Proof.
  unfold _on_prediction. unfold bind at 1, log, emit. simpl.
  rewrite on_prediction_loop. reflexivity.
Qed.

Lemma queue_all_steps entries : forall o,
  Simulator_WS._sim_steps (fold_left queue entries o)
  = Simulator_WS._sim_steps o
    ++ map (fun p_data => SimStep.new (dynamic_prediction p_data)) entries.
Proof.
  induction entries as [|p_data entries IH]; intros o; simpl.
  - by rewrite app_nil_r.
  - rewrite IH. simpl. by rewrite <- app_assoc.
Qed.

Lemma queue_all_schema entries : forall o,
  Simulator_WS._prediction_schema (fold_left queue entries o)
  = Simulator_WS._prediction_schema o.
Proof.
  induction entries as [|p_data entries IH]; intros o; simpl; [reflexivity|].
  by rewrite IH.
Qed.

Lemma queue_all_action entries : forall o,
  Simulator_WS._predictor_action (fold_left queue entries o)
  = match last entries with
    | Some p_data =>
        Some (decode (dynamic_prediction p_data) (Simulator_WS._prediction_schema o))
    | None => Simulator_WS._predictor_action o
    end.
Proof.
  induction entries as [|p_data entries IH] using rev_ind; intros o; [reflexivity|].
  rewrite fold_left_app, last_snoc. simpl. by rewrite queue_all_schema.
Qed.

Lemma queue_all_keeps {X} (field : Simulator_WS.t -> X) entries :
  (forall o p_data, field (queue o p_data) = field o) ->
  forall o, field (fold_left queue entries o) = field o.
Proof.
  intros Hfield. induction entries as [|p_data entries IH]; intros o; simpl;
    [reflexivity|].
  by rewrite IH.
Qed.

(** X3 ([_on_prediction] queues the batch).  The handler always returns.
    It appends one fresh step per entry of the message, in the order of
    the message, after the steps that were already pending: nothing is
    replaced or dropped, and a message without entries leaves the batch
    as it was.  The action cached for the predictor is the decoding of
    the last entry against the prediction schema, and is left as it was
    when the message has no entry.  The only event is the log line; the
    schemas, [_sim_id], the initial properties and [_prev_message_type]
    are not touched. *)
Theorem on_prediction_queues_steps
    (from_server : ServerToSimulator.t DescriptorProto) (w : World) :
  exists w',
    _on_prediction from_server w = (inr tt, w')
    /\ Simulator_WS._sim_steps (impl w')
       = Simulator_WS._sim_steps (impl w)
         ++ map (fun p_data => SimStep.new (dynamic_prediction p_data))
              (prediction_data from_server)
    /\ Simulator_WS._predictor_action (impl w')
       = match last (prediction_data from_server) with
         | Some p_data =>
             Some (decode (dynamic_prediction p_data)
                     (Simulator_WS._prediction_schema (impl w)))
         | None => Simulator_WS._predictor_action (impl w)
         end
    /\ events w' = events w ++ [Log "simulator_ws" "On Prediction"]
    /\ Simulator_WS._prediction_schema (impl w')
       = Simulator_WS._prediction_schema (impl w)
    /\ Simulator_WS._output_schema (impl w') = Simulator_WS._output_schema (impl w)
    /\ Simulator_WS._sim_id (impl w') = Simulator_WS._sim_id (impl w)
    /\ Simulator_WS._init_properties (impl w')
       = Simulator_WS._init_properties (impl w)
    /\ Simulator_WS._prev_message_type (impl w')
       = Simulator_WS._prev_message_type (impl w)
    /\ Simulator_WS._sim (impl w') = Simulator_WS._sim (impl w).
Proof.
  eexists. split; [apply on_prediction_unfold|]. simpl.
  split; [apply queue_all_steps|]. split; [apply queue_all_action|].
  split; [reflexivity|]. split; [apply queue_all_schema|].
  repeat split; apply queue_all_keeps; reflexivity.
Qed.

(** The handler each incoming type is dispatched to. *)
Definition handler_of (type : MessageType)
  : ServerToSimulator.t DescriptorProto -> M unit :=
  match type with
  | ACKNOWLEDGE_REGISTER => _on_acknowledge_register
  | SET_PROPERTIES => _on_set_properties
  | START => _on_start
  | PREDICTION => _on_prediction
  | RESET => _on_reset
  | STOP => _on_stop
  | FINISHED => _on_finished
  | UNKNOWN | Unrecognized _ =>
      fun msg =>
        raise (Py.BonsaiServerError
                 (Py.format "Received unknown message ({}) from server"
                    [Py.ArgEnum (message_type msg)]))
  end.

Lemma on_recv_dispatch brain name u w (from_server : ServerToSimulator.t DescriptorProto) :
  same_tables (Simulator__init__ brain name u) w ->
  _on_recv from_server w
  = (handler_of (message_type from_server) from_server ;;
     modify_impl (Simulator_WS.set_prev_message_type (message_type from_server))) w.
Proof.
  intros [_ Hrecv]. unfold _on_recv. unfold bind at 1, get_impl. simpl.
  rewrite Hrecv. destruct (message_type from_server); reflexivity.
Qed.

Lemma keeps_steps_handler type from_server :
  type <> PREDICTION -> stable (keeps Simulator_WS._sim_steps) (handler_of type from_server).
Proof. intros Htype. destruct type; try contradiction; simpl; keeps_methods. Qed.

Lemma on_recv_steps brain name u w (from_server : ServerToSimulator.t DescriptorProto) r w' :
  same_tables (Simulator__init__ brain name u) w ->
  _on_recv from_server w = (r, w') ->
  Simulator_WS._prev_message_type (impl w') <> PREDICTION ->
  Simulator_WS._sim_steps (impl w') = Simulator_WS._sim_steps (impl w).
Proof.
  intros Htables Hrecv Hprev.
  pose proof (on_recv_inv _ _ _ _ Hrecv) as [_ Hmoved].
  rewrite (on_recv_dispatch _ _ _ _ _ Htables) in Hrecv.
  destruct (decide (message_type from_server = PREDICTION)) as [Htype|Htype].
  - rewrite Htype in Hrecv. simpl in Hrecv. unfold bind in Hrecv.
    rewrite on_prediction_unfold in Hrecv. unfold modify_impl in Hrecv.
    injection Hrecv as <- <-. simpl in Hprev. contradiction.
  - pose proof (keeps_steps_handler _ from_server Htype w) as Hkeep.
    apply bind_inv in Hrecv as [(e & Hh & ->)|([] & w1 & Hh & Hset)];
      rewrite Hh in Hkeep; [exact Hkeep|].
    unfold modify_impl in Hset. injection Hset as _ <-. exact Hkeep.
Qed.

Lemma send_method_prediction brain name u w :
  same_tables (Simulator__init__ brain name u) w ->
  Simulator_WS._prev_message_type (impl w) = PREDICTION ->
  send_method (impl w) = def1 _send_state.
Proof.
  intros [Hsend _] Hprev. unfold send_method, send_method_name.
  rewrite Hsend, Hprev. reflexivity.
Qed.

(** After [_on_send], whether it returned or raised, the batch is as it
    was or it is empty. *)
Lemma on_send_steps to_server w r w' :
  _on_send to_server w = (r, w') ->
  Simulator_WS._sim_steps (impl w') = Simulator_WS._sim_steps (impl w)
  \/ Simulator_WS._sim_steps (impl w') = [].
Proof.
  unfold _on_send. unfold bind at 1, get_impl. simpl.
  unfold send_method, getattr_method.
  destruct (send_methods !! _) as [method|] eqn:Hm;
    [|unfold call1, raise; intros [= <- <-]; by left].
  apply elem_of_list_to_map_2 in Hm. unfold call1.
  repeat (apply elem_of_cons in Hm as [Heq|Hm]; [injection Heq as _ ->|]);
    [..|by apply elem_of_nil in Hm]; intros Hrun.
  - left. assert (Hk : stable (keeps Simulator_WS._sim_steps)
                         (_send_registration to_server)) by keeps_methods.
    specialize (Hk w). by rewrite Hrun in Hk.
  - left. assert (Hk : stable (keeps Simulator_WS._sim_steps) (_send_ready to_server))
      by keeps_methods.
    specialize (Hk w). by rewrite Hrun in Hk.
  - left. assert (Hk : stable (keeps Simulator_WS._sim_steps)
                         (_send_initial_state to_server)) by keeps_methods.
    specialize (Hk w). by rewrite Hrun in Hk.
  - right. rewrite send_state_unfold in Hrun. by injection Hrun as <- <-.
Qed.

Lemma keeps_steps_connect : stable (keeps Simulator_WS._sim_steps) connect_if_needed.
Proof. keeps_methods. Qed.

Lemma keeps_prev_connect :
  stable (keeps Simulator_WS._prev_message_type) connect_if_needed.
Proof. keeps_methods. Qed.

Lemma keeps_prev_advance_batch :
  stable (keeps Simulator_WS._prev_message_type) advance_batch.
Proof.
  unfold advance_batch.
  stable_with ltac:(first [apply keeps_prev_advance_steps | keeps_leaf]).
Qed.

Lemma tables_connect : stable same_tables connect_if_needed.
Proof.
  assert (Hs : stable (keeps Simulator_WS._dispatch_send) connect_if_needed)
    by keeps_methods.
  assert (Hr : stable (keeps Simulator_WS._dispatch_recv) connect_if_needed)
    by keeps_methods.
  intros w. split; [apply Hs | apply Hr].
Qed.

Lemma tables_advance_batch : stable same_tables advance_batch.
Proof.
  intros w. unfold advance_batch, bind, get_impl. simpl.
  destruct (decide _); [apply tables_advance_steps | reflexivity].
Qed.

(** The batch before the response is read. *)
Lemma before_read_steps brain name u w r w' :
  same_tables (Simulator__init__ brain name u) w ->
  (Simulator_WS._prev_message_type (impl w) <> PREDICTION ->
   Simulator_WS._sim_steps (impl w) = []) ->
  before_read w = (r, w') ->
  (Simulator_WS._prev_message_type (impl w') <> PREDICTION ->
   Simulator_WS._sim_steps (impl w') = [])
  /\ (r = inr tt -> Simulator_WS._sim_steps (impl w') = []).
Proof.
  intros Htables Hinv Hbefore.
  pose proof (keeps_prev_before_read w) as Hprev. rewrite Hbefore in Hprev.
  unfold keeps in Hprev. simpl in Hprev.
  apply before_read_inv in Hbefore
    as [(e & Hc & ->)|[(w1 & e & Hc & Ha & ->)|(w1 & w2 & Hc & Ha & Hsent)]].
  - pose proof (keeps_steps_connect w) as Hsteps. rewrite Hc in Hsteps.
    unfold keeps in Hsteps. simpl in Hsteps.
    split; [|discriminate]. intros Hne. rewrite Hsteps. apply Hinv. by rewrite <- Hprev.
  - split; [|discriminate]. intros Hne.
    pose proof (keeps_prev_advance_batch w1) as Hp. rewrite Ha in Hp.
    unfold keeps in Hp. simpl in Hp. rewrite Hp in Hne.
    rewrite (advance_batch_no_batch _ Hne) in Ha. discriminate.
  - pose proof (keeps_steps_connect w) as Hsteps1. rewrite Hc in Hsteps1.
    pose proof (keeps_prev_connect w) as Hprev1. rewrite Hc in Hprev1.
    pose proof (keeps_prev_advance_batch w1) as Hprev2. rewrite Ha in Hprev2.
    unfold keeps in *. simpl in *.
    assert (Htables2 : same_tables (Simulator__init__ brain name u) w2).
    { etransitivity; [exact Htables|]. etransitivity.
      - pose proof (tables_connect w) as Ht. rewrite Hc in Ht. exact Ht.
      - pose proof (tables_advance_batch w1) as Ht. rewrite Ha in Ht. exact Ht. }
    assert (Hsent_steps : forall r0 w3,
      _on_send SimulatorToServer.new w2 = (r0, w3) ->
      Simulator_WS._sim_steps (impl w3) = []).
    { intros r0 w3 Hsend.
      destruct (decide (Simulator_WS._prev_message_type (impl w2) = PREDICTION))
        as [Hp|Hp].
      - unfold _on_send, bind, get_impl in Hsend. simpl in Hsend.
        rewrite (send_method_prediction _ _ _ _ Htables2 Hp) in Hsend.
        simpl in Hsend. rewrite send_state_unfold in Hsend.
        by injection Hsend as <- <-.
      - rewrite Hprev2 in Hp. rewrite (advance_batch_no_batch _ Hp) in Ha.
        injection Ha as <-.
        destruct (on_send_steps _ _ _ _ Hsend) as [Hs|Hs]; [|exact Hs].
        rewrite Hs, Hsteps1. apply Hinv. by rewrite <- Hprev1. }
    assert (Hempty : Simulator_WS._sim_steps (impl w') = []).
    { inversion Hsent; subst; simpl; eauto. }
    split; intros _; exact Hempty.
Qed.

(** X4 (no batch is pending outside [PREDICTION]).  In every world of a
    session, whether the calls of [run] so far returned or raised, the
    batch [_sim_steps] is empty unless the previous incoming type is
    [PREDICTION]: steps are only ever queued by the handler of a
    [PREDICTION] message, and the reply that follows takes all of them. *)
Theorem no_batch_outside_prediction brain name u w :
  reachable brain name u w ->
  Simulator_WS._prev_message_type (impl w) <> PREDICTION ->
  Simulator_WS._sim_steps (impl w) = [].
Proof.
  induction 1 as [|w Hreach IH]; [reflexivity|].
  pose proof (reachable_tables _ _ _ _ Hreach) as Htables.
  destruct (run w) as [r w'] eqn:Hrun. simpl.
  apply run_inv in Hrun as [(e & Hb & ->)|(w1 & Hb & Hr)].
  { by destruct (before_read_steps _ _ _ _ _ _ Htables IH Hb). }
  assert (Htables1 : same_tables (Simulator__init__ brain name u) w1).
  { etransitivity; [exact Htables|].
    pose proof (tables_before_read w) as Ht. by rewrite Hb in Ht. }
  destruct (before_read_steps _ _ _ _ _ _ Htables IH Hb) as [_ Hempty].
  specialize (Hempty eq_refl).
  apply read_response_inv in Hr.
  inversion Hr as [? Hws|? ws ws' Hws Hread|? ws ws' in_bytes e Hws Hread Hparse
                  |? ws ws' in_bytes m e w2 Hws Hread Hparse Hrecv
                  |? ws ws' in_bytes m w2 Hws Hread Hparse Hrecv Htype
                  |? ws ws' in_bytes m w2 Hws Hread Hparse Hrecv Htype]; subst;
    intros Hne; try exact Hempty.
  - rewrite (on_recv_steps brain name u (after_read w1 ws' (Some in_bytes)) _ _ _
               Htables1 Hrecv Hne). exact Hempty.
  - rewrite (on_recv_steps brain name u (after_read w1 ws' (Some in_bytes)) _ _ _
               Htables1 Hrecv Hne). exact Hempty.
  - simpl. rewrite (on_recv_steps brain name u (after_read w1 ws' (Some in_bytes)) _ _ _
               Htables1 Hrecv); [exact Hempty|].
    apply on_recv_inv in Hrecv as [_ ->]. by rewrite Htype.
Qed.

End Pending.

(** ** The handshake *)

Section Handshake.
Context `{UserSimulator} `{Runtime}.
Import ServerToSimulator.

Lemma send_method_init_tables brain name u w :
  same_tables (Simulator__init__ brain name u) w ->
  send_method (impl w)
  = match spec_send_table (Simulator_WS._prev_message_type (impl w))
            (Brain.config_predict brain) with
    | Some o => def1 (builder o)
    | None => lambda0 (log "simulator" "Finished")
    end.
Proof.
  intros [Hsend _]. unfold send_method, send_method_name. rewrite Hsend.
  destruct (Simulator_WS._prev_message_type (impl w));
    simpl; unfold Simulator.predict; simpl;
    destruct (Brain.config_predict brain); reflexivity.
Qed.

Lemma on_send_by_table brain name u w to_server :
  same_tables (Simulator__init__ brain name u) w ->
  _on_send to_server w
  = call1 match spec_send_table (Simulator_WS._prev_message_type (impl w))
                  (Brain.config_predict brain) with
          | Some o => def1 (builder o)
          | None => lambda0 (log "simulator" "Finished")
          end to_server w.
Proof.
  intros Htables. unfold _on_send, bind, get_impl. cbv beta iota zeta.
  by rewrite (send_method_init_tables _ _ _ _ Htables).
Qed.

(** X5 (the handshake).  In every world of a session, an
    [ACKNOWLEDGE_REGISTER] message is handled without error: the engine
    takes the three schemas and the simulator id from the message, moves
    the previous incoming type to [ACKNOWLEDGE_REGISTER], logs one line
    and touches nothing else.  In training mode the message built next
    is [READY], and the id it carries is the one the server has just
    assigned. *)
Theorem registration_acknowledged brain name u w
    (from_server : ServerToSimulator.t DescriptorProto) :
  reachable brain name u w ->
  message_type from_server = ACKNOWLEDGE_REGISTER ->
  let data := acknowledge_register_data from_server in
  exists w',
    _on_recv from_server w = (inr tt, w')
    /\ Simulator_WS._properties_schema (impl w') = Some (properties_schema data)
    /\ Simulator_WS._output_schema (impl w') = Some (output_schema data)
    /\ Simulator_WS._prediction_schema (impl w') = Some (ack_prediction_schema data)
    /\ Simulator_WS._sim_id (impl w') = ack_sim_id data
    /\ Simulator_WS._prev_message_type (impl w') = ACKNOWLEDGE_REGISTER
    /\ Simulator_WS._sim_steps (impl w') = Simulator_WS._sim_steps (impl w)
    /\ Simulator_WS._init_properties (impl w') = Simulator_WS._init_properties (impl w)
    /\ Simulator_WS._sim (impl w') = Simulator_WS._sim (impl w)
    /\ Simulator_WS._ws (impl w') = Simulator_WS._ws (impl w)
    /\ events w' = events w ++ [Log "simulator_ws" "Acknowledging Registration"]
    /\ (Brain.config_predict brain = false ->
        forall to_server,
          (_on_send to_server w').1
          = inr {| SimulatorToServer.message_type := SimulatorToServer.READY;
                   SimulatorToServer.sim_id := ack_sim_id data;
                   SimulatorToServer.register_data :=
                     SimulatorToServer.register_data to_server;
                   SimulatorToServer.state_data :=
                     SimulatorToServer.state_data to_server |}).
Proof.
  intros Hreach Htype data.
  pose proof (reachable_tables _ _ _ _ Hreach) as Htables.
  rewrite (on_recv_dispatch _ _ _ _ _ Htables), Htype.
  eexists. split.
  { unfold handler_of, _on_acknowledge_register, bind, log, emit, modify_impl. simpl.
    reflexivity. }
  simpl. repeat (split; [reflexivity|]).
  intros Hmode to_server.
  match goal with
  | |- (_on_send _ ?w1).1 = _ =>
      assert (Htables1 : same_tables (Simulator__init__ brain name u) w1)
        by (destruct Htables; split; assumption)
  end.
  rewrite (on_send_by_table _ _ _ _ _ Htables1). simpl. rewrite Hmode. reflexivity.
Qed.

End Handshake.

(** ** Episodes *)

Section Episodes.
Context `{UserSimulator} `{Runtime}.
Import ServerToSimulator.

(** The statistics [Simulator] keeps of the episode at hand. *)
Definition iteration_count (w : World) : Z :=
  Simulator.iteration_count (Simulator_WS._sim (impl w)).

Definition episode_reward (w : World) : Py.num :=
  Simulator.episode_reward (Simulator_WS._sim (impl w)).

Definition episode_count (w : World) : Z :=
  Simulator.episode_count (Simulator_WS._sim (impl w)).

Definition keeps_statistics : relation World := fun w w' =>
  iteration_count w' = iteration_count w
  /\ episode_reward w' = episode_reward w
  /\ episode_count w' = episode_count w.

Lemma statistics_rate_update counter set_counter :
  (forall c o, Simulator.iteration_count (set_counter c o) = Simulator.iteration_count o) ->
  (forall c o, Simulator.episode_reward (set_counter c o) = Simulator.episode_reward o) ->
  (forall c o, Simulator.episode_count (set_counter c o) = Simulator.episode_count o) ->
  stable keeps_statistics (rate_update counter set_counter).
Proof.
  intros Hi Hr Hc w.
  unfold rate_update, bind, time, get_sim, get_impl, ret, modify_sim, modify_impl, lift.
  simpl. destruct (RateCounter.update _ _) as [r c]. simpl.
  unfold keeps_statistics, iteration_count, episode_reward, episode_count. simpl.
  by rewrite Hi, Hr, Hc.
Qed.

Lemma statistics_call_user {A} (method : user_state -> (exn + A) * user_state)
    (observed : exn + A -> Event) :
  stable keeps_statistics (call_user method observed).
Proof.
  intros w.
  unfold call_user, bind, get_sim, get_impl, ret, modify_sim, modify_impl, emit, lift.
  simpl. destruct (method _) as [r u]. simpl. repeat split.
Qed.

(** [_on_episode_start]: both counters of the episode are back at zero
    before the user's method is called, whatever it then does. *)
Lemma on_episode_start_statistics config w :
  iteration_count (_on_episode_start config w).2 = 0%Z
  /\ episode_reward (_on_episode_start config w).2 = Py.Int 0
  /\ episode_count (_on_episode_start config w).2 = episode_count w.
Proof.
  unfold _on_episode_start, bind, modify_sim, modify_impl. simpl.
  match goal with
  | |- context [call_user ?m ?ev ?w0] =>
      destruct (statistics_call_user m ev w0) as (Hi & Hr & Hc)
  end.
  rewrite Hi, Hr, Hc. repeat split.
Qed.

Lemma on_episode_finish_statistics w w' :
  _on_episode_finish w = (inr tt, w') ->
  iteration_count w' = iteration_count w
  /\ episode_reward w' = episode_reward w
  /\ episode_count w' = (episode_count w + 1)%Z.
Proof.
  unfold _on_episode_finish.
  intros ([] & w1 & Hrate & Hk)%bind_inr_inv.
  apply bind_inr_inv in Hk as ([] & w2 & Hcount & Huser).
  assert (H1' : keeps_statistics w w1).
  { pose proof (statistics_rate_update Simulator._episode_rate
                  Simulator.set_episode_rate
                  ltac:(reflexivity) ltac:(reflexivity) ltac:(reflexivity) w) as Hs.
    by rewrite Hrate in Hs. }
  assert (H3 : keeps_statistics w2 w').
  { pose proof (statistics_call_user episode_finish EpisodeFinish w2) as Hs.
    by rewrite Huser in Hs. }
  unfold modify_sim, modify_impl in Hcount. injection Hcount as <-.
  destruct H1' as (Hi1 & Hr1 & Hc1), H3 as (Hi3 & Hr3 & Hc3).
  unfold iteration_count, episode_reward, episode_count in *. simpl in *.
  rewrite Hi3, Hr3, Hc3, Hi1, Hr1, Hc1. repeat split.
Qed.

Lemma on_simulate_statistics action w state reward terminal w' :
  _on_simulate action w = (inr (state, reward, terminal), w') ->
  iteration_count w' = (iteration_count w + 1)%Z
  /\ Py.add (episode_reward w) reward = inr (episode_reward w')
  /\ episode_count w' = episode_count w.
Proof.
  unfold _on_simulate.
  intros ([] & w1 & Hrate & Hk)%bind_inr_inv.
  apply bind_inr_inv in Hk as ([] & w2 & Hcount & Hk).
  apply bind_inr_inv in Hk as ([[state' reward'] terminal'] & w3 & Huser & Hk).
  assert (H1' : keeps_statistics w w1).
  { pose proof (statistics_rate_update Simulator._iteration_rate
                  Simulator.set_iteration_rate
                  ltac:(reflexivity) ltac:(reflexivity) ltac:(reflexivity) w) as Hs.
    by rewrite Hrate in Hs. }
  assert (H3 : keeps_statistics w2 w3).
  { pose proof (statistics_call_user (simulate action) (Simulate action) w2) as Hs.
    by rewrite Huser in Hs. }
  unfold modify_sim, modify_impl in Hcount. injection Hcount as <-.
  unfold bind at 1, get_sim, bind at 1, get_impl, ret at 1 in Hk. simpl in Hk.
  unfold bind at 1, lift in Hk.
  destruct (Py.add _ reward') as [e|total] eqn:Hadd; [discriminate|].
  unfold bind, modify_sim, modify_impl, ret in Hk. simpl in Hk.
  injection Hk as <- <- <- <-.
  destruct H1' as (Hi1 & Hr1 & Hc1), H3 as (Hi3 & Hr3 & Hc3).
  unfold iteration_count, episode_reward, episode_count in *. simpl in *.
  rewrite Hi3, Hc3, Hi1, Hc1. rewrite Hr3, Hr1 in Hadd. repeat split. exact Hadd.
Qed.

(** X6 (the statistics of an episode).  When [_advance] returns, the
    user's [simulate] has been called once and has returned.  If the step
    it returned is not terminal, [iteration_count] is one more than it
    was, [episode_reward] is what it was plus the reward of the step (with
    Python's addition), and [episode_count] is as it was.  If the step is
    terminal, the episode has been finished and the next one started:
    [episode_count] is one more than it was, and [iteration_count] and
    [episode_reward] are back at zero. *)
Theorem advance_keeps_episode_statistics i step w w' :
  _advance i step w = (inr tt, w') ->
  exists state reward terminal,
    Simulate (decode (SimStep.prediction step) (Simulator_WS._prediction_schema (impl w)))
      (inr (state, reward, terminal)) ∈ new_events w w'
    /\ if terminal
       then iteration_count w' = 0%Z
            /\ episode_reward w' = Py.Int 0
            /\ episode_count w' = (episode_count w + 1)%Z
       else iteration_count w' = (iteration_count w + 1)%Z
            /\ Py.add (episode_reward w) reward = inr (episode_reward w')
            /\ episode_count w' = episode_count w.
Proof.
  unfold _advance.
  intros ([] & w0 & (_ & Hi0 & He0)%log_inv & Hk)%bind_inr_inv.
  unfold bind at 1, get_impl in Hk. simpl in Hk. rewrite Hi0 in Hk.
  apply bind_inr_inv in Hk as ([[state reward] terminal] & w1 & Hsim & Hk).
  apply try_except_wrap_inv in Hsim as [(e' & _ & [=])|(? & Hsim & [= <-])].
  rewrite <- Hi0 in Hsim.
  assert (Hstat0 : keeps_statistics w w0).
  { unfold keeps_statistics, iteration_count, episode_reward, episode_count.
    by rewrite Hi0. }
  destruct Hstat0 as (Hi0' & Hr0' & Hc0').
  pose proof (on_simulate_inv _ _ _ _ Hsim) as (_ & evs1 & Hsimd & He1).
  inversion Hsimd; subst.
  rewrite Hi0 in He1, Hsim.
  apply on_simulate_statistics in Hsim as (Hi1 & Hr1 & Hc1).
  rewrite Hi0' in Hi1. rewrite Hr0' in Hr1. rewrite Hc0' in Hc1.
  unfold bind at 1, get_impl in Hk. simpl in Hk.
  unfold bind at 1, lift in Hk.
  destruct (convert_state_to_proto _ state) as [e|message] eqn:Hconv; [discriminate|].
  apply bind_inr_inv in Hk as ([] & w2 & (_ & Hi2 & He2)%log_inv & Hk).
  unfold bind at 1, store_result, modify_impl in Hk. simpl in Hk.
  exists state, reward, terminal.
  destruct terminal.
  - pose proof (restart_inv _ _ _ Hk) as (_ & evs & _ & He). simpl in He.
    split.
    { rewrite (new_events_app w w'
                 ([Log "simulator_ws" "Advancing";
                   Simulate (decode (SimStep.prediction step)
                               (Simulator_WS._prediction_schema (impl w)))
                     (inr (state, reward, true));
                   Log "simulator" (MessageToJson message)] ++ evs)).
      - apply elem_of_app. left. apply list_elem_of_further, list_elem_of_here.
      - rewrite He, He2, He1, He0, <- !app_assoc. reflexivity. }
    apply try_except_returns_inv in Hk;
      [|intros ? ? ? ? [= <- _]; by eexists].
    apply bind_inr_inv in Hk as ([] & w3 & Hfin & Hk).
    unfold bind at 1, get_impl in Hk. simpl in Hk.
    apply bind_inr_inv in Hk as (s0 & w4 & Hstart & [= <-]).
    apply on_episode_finish_statistics in Hfin as (_ & _ & Hc3).
    pose proof (on_episode_start_statistics
                  (Simulator_WS._init_properties (impl w3)) w3) as (Hi4 & Hr4 & Hc4).
    rewrite Hstart in Hi4, Hr4, Hc4. simpl in Hi4, Hr4, Hc4.
    split; [exact Hi4|]. split; [exact Hr4|].
    rewrite Hc4, Hc3. unfold episode_count in *. simpl. rewrite Hi2.
    by rewrite Hc1.
  - injection Hk as <-. split.
    { rewrite (new_events_app w _
                 [Log "simulator_ws" "Advancing";
                  Simulate (decode (SimStep.prediction step)
                              (Simulator_WS._prediction_schema (impl w)))
                    (inr (state, reward, false));
                  Log "simulator" (MessageToJson message)]).
      - apply list_elem_of_further, list_elem_of_here.
      - simpl. rewrite He2, He1, He0, <- !app_assoc. reflexivity. }
    unfold iteration_count, episode_reward, episode_count in *. simpl.
    rewrite Hi2. by repeat split.
Qed.

End Episodes.

(** ** The initial state of an episode *)

Section InitialState.
Context `{UserSimulator} `{Runtime}.
Import ServerToSimulator.

(** The entry of the initial state in a [STATE] message. *)
Definition initial_entry (message : Message) : SimulatorToServer.SimulationState :=
  {| SimulatorToServer.state := SerializeToString message;
     SimulatorToServer.reward := Py.Float 0.0;
     SimulatorToServer.terminal := false;
     SimulatorToServer.action_taken := [] |}.

(** The outcomes of [_send_initial_state], with the events of each: the
    user's [episode_start] raises; the state it returns is not accepted by
    the encoder; or the message is built. *)
Inductive initial_state (config : gmap string Value)
    (output_schema : option DescriptorProto) (sim_id : Z)
    (to_server : SimulatorToServer.t)
  : exn + SimulatorToServer.t -> list Event -> Prop :=
| initial_start_failed e :
    initial_state config output_schema sim_id to_server
      (inl (wrapped Py.EpisodeStartError e))
      [Log "simulator_ws" "Sending initial State"; EpisodeStart config (inl e)]
| initial_state_rejected state e :
    convert_state_to_proto (new_message_from_proto output_schema) state = inl e ->
    initial_state config output_schema sim_id to_server (inl e)
      [Log "simulator_ws" "Sending initial State"; EpisodeStart config (inr state)]
| initial_state_built state message :
    convert_state_to_proto (new_message_from_proto output_schema) state = inr message ->
    initial_state config output_schema sim_id to_server
      (inr {| SimulatorToServer.message_type := SimulatorToServer.STATE;
              SimulatorToServer.sim_id := sim_id;
              SimulatorToServer.register_data :=
                SimulatorToServer.register_data to_server;
              SimulatorToServer.state_data :=
                SimulatorToServer.state_data to_server ++ [initial_entry message] |})
      [Log "simulator_ws" "Sending initial State"; EpisodeStart config (inr state)].

(** X7 (the initial state).  [_send_initial_state] calls the user's
    [episode_start] exactly once, with the initial properties the engine
    holds, and nothing else of the user's.  If that call raises [e], the
    builder raises [EpisodeStartError(e)] (or [e] itself when [except
    Exception] does not catch it); if the state it returns is refused by
    the encoder, the encoder's error is raised as it is; otherwise the
    message is a [STATE] with the engine's [_sim_id] and, after what the
    message already held, one entry: the encoded state, reward [0.0], not
    terminal, no action.  In every case only the [Simulator] object has
    moved, and its [iteration_count] and [episode_reward] are zero. *)
Theorem send_initial_state_outcomes (to_server : SimulatorToServer.t) (w : World) :
  initial_state (Simulator_WS._init_properties (impl w))
    (Simulator_WS._output_schema (impl w)) (Simulator_WS._sim_id (impl w)) to_server
    (_send_initial_state to_server w).1
    (new_events w (_send_initial_state to_server w).2)
  /\ sim_only w (_send_initial_state to_server w).2
  /\ iteration_count (_send_initial_state to_server w).2 = 0%Z
  /\ episode_reward (_send_initial_state to_server w).2 = Py.Int 0.
Proof.
  destruct (_send_initial_state to_server w) as [r w'] eqn:Hrun. simpl.
  unfold _send_initial_state in Hrun.
  apply bind_inv in Hrun
    as [(e & ([=] & _)%log_inv & _)|([] & w0 & (_ & Hi0 & He0)%log_inv & Hk)].
  unfold bind at 1, get_impl in Hk. simpl in Hk. rewrite Hi0 in Hk.
  pose proof (on_episode_start_statistics (Simulator_WS._init_properties (impl w)) w0)
    as (Hiter & Hreward & _).
  apply bind_inv in Hk as [(e & Hstart & ->)|(state & w1 & Hstart & Hk)].
  - apply try_except_wrap_inv in Hstart as [(e' & Hstart & [= ->])|(? & _ & [=])].
    rewrite Hstart in Hiter, Hreward.
    apply on_episode_start_inv in Hstart as ([sim Hs] & He).
    split; [|split; [|split; assumption]].
    + rewrite (new_events_app w w'
                 [Log "simulator_ws" "Sending initial State";
                  EpisodeStart (Simulator_WS._init_properties (impl w)) (inl e')])
        by (rewrite He, He0, <- app_assoc; reflexivity).
      constructor.
    + exists sim. by rewrite Hs, Hi0.
  - apply try_except_wrap_inv in Hstart as [(e' & _ & [=])|(? & Hstart & [= <-])].
    rewrite Hstart in Hiter, Hreward. simpl in Hiter, Hreward.
    apply on_episode_start_inv in Hstart as ([sim Hs] & He).
    assert (Hev : events w1
                  = events w ++ [Log "simulator_ws" "Sending initial State";
                                 EpisodeStart (Simulator_WS._init_properties (impl w))
                                   (inr state)]).
    { rewrite He, He0, <- app_assoc. reflexivity. }
    unfold bind at 1, get_impl in Hk. simpl in Hk.
    unfold bind at 1, lift, _new_state_message in Hk. rewrite Hs in Hk. simpl in Hk.
    rewrite Hi0 in Hk.
    destruct (convert_state_to_proto _ state) as [e|message] eqn:Hconv.
    + injection Hk as <- <-.
      split; [|split; [|split; assumption]].
      * rewrite (new_events_app _ _ _ Hev). by constructor.
      * exists sim. by rewrite Hs, Hi0.
    + unfold ret in Hk. injection Hk as <- <-.
      split; [|split; [|split; assumption]].
      * rewrite (new_events_app _ _ _ Hev). simpl.
        by apply initial_state_built.
      * exists sim. by rewrite Hs, Hi0.
Qed.

End InitialState.

(** ** Failures of a step, of the connection and of a write *)

Section Failures.
Context `{UserSimulator} `{Runtime}.
Import ServerToSimulator.

(** Among the outcomes of [_advance], a raising [simulate] is seen in
    one only. *)
Lemma advanced_simulate_raised action config schema r evs result a e :
  advanced action config schema r evs result ->
  Simulate a (inl e) ∈ evs ->
  r = inl (wrapped Py.SimulateError e) /\ a = action /\ result = None
  /\ evs = [Log "simulator_ws" "Advancing"; Simulate action (inl e)].
Proof.
  intros Hspec Hin.
  inversion Hspec as [e0 evs0 Hsim| | |? ? ? ? evs0 ? Hres]; subst; clear Hspec.
  - inversion Hsim; subst; try solve [exfalso; event_in Hin].
    assert (Heq : Simulate a (inl e) = Simulate action (inl e0)).
    { revert Hin. rewrite !elem_of_cons, elem_of_nil.
      intros [Heq|[Heq|[]]]; [discriminate | exact Heq]. }
    injection Heq as -> ->. by repeat split.
  - exfalso. event_in Hin.
  - exfalso. event_in Hin.
  - exfalso.
    inversion Hres as [e0 evs1 Hfin| |]; subst; [inversion Hfin; subst|..];
      event_in Hin.
Qed.

(** X8 (a failing [simulate]).  When the user's [simulate] raises [e]
    during [_advance], the step ends there: [_advance] raises
    [SimulateError(e)] (or [e] itself when [except Exception] does not
    catch it), the action was the decoding of the step's prediction
    against the prediction schema, nothing is stored on the step or
    anywhere in the batch, and neither [episode_finish] nor
    [episode_start] is called: the only events are the log line and the
    failed call. *)
Theorem simulate_failure_ends_the_step i step w r w' action e :
  _advance i step w = (r, w') ->
  Simulate action (inl e) ∈ new_events w w' ->
  r = inl (wrapped Py.SimulateError e)
  /\ action = decode (SimStep.prediction step) (Simulator_WS._prediction_schema (impl w))
  /\ Simulator_WS._sim_steps (impl w') = Simulator_WS._sim_steps (impl w)
  /\ new_events w w' = [Log "simulator_ws" "Advancing"; Simulate action (inl e)].
Proof.
  intros Hadv Hin.
  apply advance_inv in Hadv as (evs & stored & Hspec & Hev & sim & Himpl).
  rewrite (new_events_app _ _ _ Hev) in *.
  destruct (advanced_simulate_raised _ _ _ _ _ _ _ _ Hspec Hin)
    as (-> & -> & -> & ->).
  rewrite Himpl. by repeat split.
Qed.






(** The request [_connect] makes. *)
Definition connect_request (self : Simulator_WS.t) : HTTPRequest :=
  let brain := Simulator_WS.brain self in
  {| url := if Simulator.predict (Simulator_WS._sim self)
            then Brain._prediction_url brain
            else Brain._simulation_url brain;
     connect_timeout := 60;
     request_timeout := 60;
     headers := <["User-Agent" := Brain._user_info brain]>
                  (<["Authorization" := Brain.config_accesskey brain]> ∅) |}.

Lemma run_connect_failure w message :
  Simulator_WS._ws (impl w) = None ->
  websocket_connect (connect_request (impl w)) = inl message ->
  run w
  = (inl (Py.BonsaiServerError
            (Py.format "Error while connecting to websocket: {}"
               [Py.ArgStr (Some message)])),
     {| impl := impl w;
        clock_reads := clock_reads w;
        events := events w
                  ++ [Log "info" ("trying to connect: " ++ url (connect_request (impl w)))]
     |}).
Proof.
  intros Hws Hconnect.
  unfold run. unfold bind at 1.
  unfold connect_if_needed. unfold bind at 1, get_impl. simpl. rewrite Hws.
  unfold bind at 1, _connect. unfold bind at 1, get_impl. simpl.
  unfold bind at 1, log, emit. simpl.
  unfold connect_request in Hconnect. unfold _CONNECT_TIMEOUT_SECS.
  rewrite Hconnect. reflexivity.
Qed.

(** X10 (connecting).  A cycle that starts without a websocket asks for
    one: at the prediction URL of the BRAIN in prediction mode and at its
    simulation URL otherwise, with both timeouts at 60 seconds, the access
    key as [Authorization] and the user info as [User-Agent].  If the
    connection fails, [run] raises [BonsaiServerError] with the failure's
    text, nothing is sent or read, and the engine is exactly as before, so
    that the next call of [run] tries again.  If it succeeds the socket is
    kept, and a cycle that starts with a socket does not connect. *)
Theorem connect_failure_raises w :
  Simulator_WS._ws (impl w) = None ->
  (forall message,
     websocket_connect (connect_request (impl w)) = inl message ->
     run w
     = (inl (Py.BonsaiServerError
               (Py.format "Error while connecting to websocket: {}"
                  [Py.ArgStr (Some message)])),
        {| impl := impl w;
           clock_reads := clock_reads w;
           events := events w
                     ++ [Log "info" ("trying to connect: " ++ url (connect_request (impl w)))]
        |}))
  /\ (forall ws,
        websocket_connect (connect_request (impl w)) = inr ws ->
        connect_if_needed w
        = (inr tt,
           {| impl := Simulator_WS.set_ws (Some ws) (impl w);
              clock_reads := clock_reads w;
              events := events w
                        ++ [Log "info"
                              ("trying to connect: " ++ url (connect_request (impl w)))]
           |})
        /\ forall w', Simulator_WS._ws (impl w') = Some ws ->
                      connect_if_needed w' = (inr tt, w')).
Proof.
  intros Hws. split.
  - intros message Hconnect. by apply run_connect_failure.
  - intros ws Hconnect. split.
    + unfold connect_if_needed. unfold bind at 1, get_impl. simpl. rewrite Hws.
      unfold bind at 1, _connect. unfold bind at 1, get_impl. simpl.
      unfold bind at 1, log, emit. simpl.
      unfold connect_request in Hconnect. unfold _CONNECT_TIMEOUT_SECS.
      rewrite Hconnect. reflexivity.
    + intros w' Hws'. by apply (connect_if_needed_connected _ ws).
Qed.

(** X11 (a write that fails).  When the message has been built and
    [write_message] raises [e], [run] raises at once and reads nothing: for
    [StreamClosedError] and [WebSocketClosedError] it raises the
    [BonsaiServerError] made of the socket's close code and close reason;
    any other error is raised as it is.  The previous incoming type is
    unchanged. *)
Theorem write_failure_raises w to_server w1 ws e ws' :
  (connect_if_needed ;; advance_batch ;; _on_send SimulatorToServer.new) w
  = (inr to_server, w1) ->
  Simulator_WS._ws (impl w1) = Some ws ->
  write_message (to_server_SerializeToString to_server) ws = (inl e, ws') ->
  run w
  = (inl (if is_closed_error e
          then Py.BonsaiServerError
                 (Py.format "Websocket connection closed. Code: {}, Reason: {}"
                    [Py.ArgInt (close_code ws'); Py.ArgStr (close_reason ws')])
          else e),
     {| impl := Simulator_WS.set_ws (Some ws') (impl w1);
        clock_reads := clock_reads w1;
        events := events w1 ++ [WriteMessage (to_server_SerializeToString to_server)] |})
  /\ Simulator_WS._prev_message_type (impl w1)
     = Simulator_WS._prev_message_type (impl w).
Proof.
  intros Hbuild Hws Hwrite.
  apply bind_inr_inv in Hbuild as ([] & wa & Hc & Hk).
  apply bind_inr_inv in Hk as ([] & wb & Ha & Hsend).
  split.
  - unfold run. unfold bind at 1. rewrite Hc. unfold bind at 1. rewrite Ha.
    unfold bind at 1.
    assert (Hsent : send_to_server wb
                    = (inl (write_error e ws'),
                       after_write w1 (Some ws') (to_server_SerializeToString to_server))).
    { destruct (send_to_server wb) as [r w2] eqn:Hs.
      apply send_to_server_inv in Hs.
      inversion Hs as [? e0 w3 Hsend'|? m w3 Hsend' Hws'
                      |? m w3 ws0 e0 ws0' Hsend' Hws' Hwrite'
                      |? m w3 ws0 ws0' Hsend' Hws' Hwrite']; subst;
        rewrite Hsend in Hsend'; simplify_eq; try congruence;
        rewrite Hwrite in Hwrite'; by simplify_eq. }
    rewrite Hsent. reflexivity.
  - pose proof (keeps_prev_connect w) as H1'. rewrite Hc in H1'.
    pose proof (keeps_prev_advance_batch wa) as H2'. rewrite Ha in H2'.
    pose proof (keeps_prev_on_send SimulatorToServer.new wb) as H3'.
    rewrite Hsend in H3'. unfold keeps in *. simpl in *. congruence.
Qed.

End Failures.

(** ** When the user's methods are called *)

Section Timing.
Context `{UserSimulator} `{Runtime}.
Import ServerToSimulator.

Definition is_episode_start (e : Event) : bool :=
  match e with
  | EpisodeStart _ _ => true
  | _ => false
  end.

Definition starts_no_episode : relation World :=
  adds (fun e => negb (is_episode_start e)).

Lemma no_start_connect : stable starts_no_episode connect_if_needed.
Proof. unfold starts_no_episode. unfold_methods. stable_with adds_leaf. Qed.

Lemma no_start_handler type from_server :
  stable starts_no_episode (handler_of type from_server).
Proof.
  unfold starts_no_episode.
  destruct type; simpl; unfold _on_start, _on_reset, _on_stop, _on_finished;
    unfold_methods; stable_with adds_leaf.
Qed.

Lemma no_start_on_recv brain name u w (from_server : ServerToSimulator.t DescriptorProto) :
  same_tables (Simulator__init__ brain name u) w ->
  starts_no_episode w (_on_recv from_server w).2.
Proof.
  intros Htables. rewrite (on_recv_dispatch _ _ _ _ _ Htables).
  assert (Hk : stable starts_no_episode
                 (handler_of (message_type from_server) from_server ;;
                  modify_impl (Simulator_WS.set_prev_message_type
                                 (message_type from_server)))).
  { apply stable_bind; [exact _ | apply no_start_handler | intros _].
    apply adds_modify_impl. }
  apply Hk.
Qed.

Lemma no_start_on_send brain name u w to_server :
  same_tables (Simulator__init__ brain name u) w ->
  Brain.config_predict brain = false ->
  Simulator_WS._prev_message_type (impl w) <> START ->
  Simulator_WS._prev_message_type (impl w) <> PREDICTION ->
  starts_no_episode w (_on_send to_server w).2.
Proof.
  intros Htables Hmode Hstart Hpred.
  rewrite (on_send_by_table _ _ _ _ _ Htables), Hmode.
  destruct (Simulator_WS._prev_message_type (impl w)); try contradiction;
    cbv beta iota delta [spec_send_table builder call1].
  all: match goal with
       | |- starts_no_episode _ (?c _).2 =>
           assert (Hk : stable starts_no_episode c)
             by (unfold starts_no_episode; unfold_methods; stable_with adds_leaf);
           apply Hk
       end.
Qed.

(** X12 (when an episode is started in training mode).  In a training
    session, a cycle of [run] that begins with a previous incoming type
    other than [START] and [PREDICTION] never calls the user's
    [episode_start], however it ends: in training mode an episode is only
    started by the initial state that answers [START], or after the
    terminal step of a batch. *)
Theorem training_starts_episodes_on_start_only brain name u w :
  reachable brain name u w ->
  Brain.config_predict brain = false ->
  Simulator_WS._prev_message_type (impl w) <> START ->
  Simulator_WS._prev_message_type (impl w) <> PREDICTION ->
  forall config result, EpisodeStart config result ∉ new_events w (run w).2.
Proof.
  intros Hreach Hmode Hstart Hpred config result.
  apply (adds_not_in (fun e => negb (is_episode_start e))); [|reflexivity].
  fold starts_no_episode.
  pose proof (reachable_tables _ _ _ _ Hreach) as Htables.
  assert (Hbefore : starts_no_episode w (before_read w).2
                    /\ same_tables (Simulator__init__ brain name u) (before_read w).2).
  { split.
    2:{ etransitivity; [exact Htables | apply tables_before_read]. }
    destruct (before_read w) as [r1 w1] eqn:Hb. simpl.
    apply before_read_inv in Hb
      as [(e & Hc & ->)|[(w1' & e & Hc & Ha & ->)|(w1' & w2 & Hc & Ha & Hsent)]].
    - pose proof (no_start_connect w) as Hk. by rewrite Hc in Hk.
    - pose proof (keeps_prev_connect w) as Hp. rewrite Hc in Hp.
      unfold keeps in Hp. simpl in Hp.
      rewrite advance_batch_no_batch in Ha by (by rewrite Hp). discriminate.
    - pose proof (keeps_prev_connect w) as Hp. rewrite Hc in Hp.
      unfold keeps in Hp. simpl in Hp.
      rewrite advance_batch_no_batch in Ha by (by rewrite Hp).
      injection Ha as <-.
      pose proof (no_start_connect w) as Hk1. rewrite Hc in Hk1. simpl in Hk1.
      assert (Htables1 : same_tables (Simulator__init__ brain name u) w1').
      { etransitivity; [exact Htables|].
        pose proof (tables_connect w) as Ht. by rewrite Hc in Ht. }
      pose proof (no_start_on_send _ _ _ w1' SimulatorToServer.new Htables1 Hmode)
        as Hk2.
      rewrite Hp in Hk2. specialize (Hk2 Hstart Hpred).
      etransitivity; [exact Hk1|].
      inversion Hsent as [? e0 w3 Hsend|? m w3 Hsend Hws
                         |? m w3 ws0 e0 ws0' Hsend Hws Hwrite
                         |? m w3 ws0 ws0' Hsend Hws Hwrite]; subst;
        rewrite Hsend in Hk2; simpl in Hk2; [exact Hk2|..];
        (etransitivity; [exact Hk2|]); by eapply adds_step. }
  destruct Hbefore as [Hbefore Htables1].
  destruct (run w) as [r w'] eqn:Hrun. simpl.
  apply run_inv in Hrun as [(e & Hb & ->)|(w1 & Hb & Hr)];
    rewrite Hb in Hbefore, Htables1; simpl in Hbefore, Htables1; [exact Hbefore|].
  etransitivity; [exact Hbefore|].
  apply read_response_inv in Hr.
  inversion Hr as [? Hws|? ws ws' Hws Hread|? ws ws' in_bytes e Hws Hread Hparse
                  |? ws ws' in_bytes m e w2 Hws Hread Hparse Hrecv
                  |? ws ws' in_bytes m w2 Hws Hread Hparse Hrecv Htype
                  |? ws ws' in_bytes m w2 Hws Hread Hparse Hrecv Htype]; subst.
  - reflexivity.
  - by eapply adds_step.
  - by eapply adds_step.
  - etransitivity; [by eapply (adds_step _ _ (after_read w1 ws' (Some in_bytes)))|].
    pose proof (no_start_on_recv brain name u (after_read w1 ws' (Some in_bytes)) m
                  Htables1) as Hk.
    by rewrite Hrecv in Hk.
  - etransitivity; [by eapply (adds_step _ _ (after_read w1 ws' (Some in_bytes)))|].
    pose proof (no_start_on_recv brain name u (after_read w1 ws' (Some in_bytes)) m
                  Htables1) as Hk.
    by rewrite Hrecv in Hk.
  - etransitivity; [by eapply (adds_step _ _ (after_read w1 ws' (Some in_bytes)))|].
    pose proof (no_start_on_recv brain name u (after_read w1 ws' (Some in_bytes)) m
                  Htables1) as Hk.
    rewrite Hrecv in Hk. simpl in Hk.
    etransitivity; [exact Hk|]. by eapply adds_step.
Qed.

End Timing.

(** ** The rate counter, call after call *)

(** X13 ([_RateCounter.update]).  Every call of [update] counts: [count]
    is one more afterwards whether the call returns or raises, and
    [start] is never moved.  A call that returns leaves a float in
    [rate]; a call that raises leaves [rate] as it was, and what it
    raises is [ZeroDivisionError] or [OverflowError].  With a count and a
    rate that convert to floats, the call raises exactly when the time
    elapsed since [start] is zero. *)
Theorem update_counts_every_call (now : float) (self : RateCounter.t) :
  RateCounter.count (RateCounter.update now self).2 = (RateCounter.count self + 1)%Z
  /\ RateCounter.start (RateCounter.update now self).2 = RateCounter.start self
  /\ match (RateCounter.update now self).1 with
     | inr _ => exists f, RateCounter.rate (RateCounter.update now self).2 = Py.Float f
     | inl e =>
         RateCounter.rate (RateCounter.update now self).2 = RateCounter.rate self
         /\ (e = Py.ZeroDivisionError \/ e = Py.OverflowError)
     end
  /\ (forall c r,
        Py.float_of_int (RateCounter.count self + 1) = inr c ->
        Py.to_float (RateCounter.rate self) = inr r ->
        (RateCounter.update now self).1
        = if PrimFloat.eqb (now - RateCounter.start self) 0
          then inl Py.ZeroDivisionError
          else inr tt).
Proof.
  unfold RateCounter.update, Py.truediv_float, Py.mul_float, Py.float_is_not_int.
  cbn [RateCounter.count RateCounter.rate RateCounter.start Py.to_float].
  split; [|split; [|split]].
  - repeat case_match; reflexivity.
  - repeat case_match; reflexivity.
  - destruct (Py.float_of_int _) as [e|c] eqn:Hc.
    { simpl. split; [reflexivity|]. unfold Py.float_of_int in Hc.
      case_match; simplify_eq. by right. }
    destruct (PrimFloat.eqb _ 0); [simpl; split; [reflexivity | by left]|].
    destruct (Py.to_float (RateCounter.rate self)) as [e|r] eqn:Hr.
    { simpl. split; [reflexivity|]. unfold Py.to_float, Py.float_of_int in Hr.
      repeat case_match; simplify_eq. by right. }
    simpl. by eexists.
  - intros c r Hc Hr. rewrite Hc, Hr. by destruct (PrimFloat.eqb _ 0).
Qed.

(** ** When an episode is finished *)

Section Finishing.
Context `{UserSimulator} `{Runtime}.
Import ServerToSimulator.

Definition is_episode_finish (e : Event) : bool :=
  match e with
  | EpisodeFinish _ => true
  | _ => false
  end.

Definition finishes_no_episode : relation World :=
  adds (fun e => negb (is_episode_finish e)).

Lemma no_finish_on_send to_server : stable finishes_no_episode (_on_send to_server).
Proof.
  unfold finishes_no_episode.
  apply stable_send_dispatch; [exact _|..]; intros ?; unfold_methods;
    stable_with adds_leaf.
Qed.

Lemma no_finish_before_read w :
  Simulator_WS._prev_message_type (impl w) <> PREDICTION ->
  finishes_no_episode w (before_read w).2.
Proof.
  intros Hprev.
  assert (Hconnect : stable finishes_no_episode connect_if_needed)
    by (unfold finishes_no_episode; unfold_methods; stable_with adds_leaf).
  assert (Hsend : stable finishes_no_episode send_to_server).
  { unfold send_to_server, with_ws.
    stable_with ltac:(first [apply no_finish_on_send | adds_leaf]). }
  unfold before_read. unfold bind at 1.
  pose proof (Hconnect w) as H1'. pose proof (keeps_prev_connect w) as Hp.
  destruct (connect_if_needed w) as [[e|[]] w1]; simpl in *; [exact H1'|].
  unfold bind at 1. rewrite advance_batch_no_batch by (by rewrite Hp).
  etransitivity; [exact H1' | apply Hsend].
Qed.

Lemma no_finish_handler type from_server :
  type <> STOP -> stable finishes_no_episode (handler_of type from_server).
Proof.
  intros Htype. unfold finishes_no_episode.
  destruct type; try contradiction; simpl;
    unfold _on_start, _on_reset, _on_finished; unfold_methods;
    stable_with adds_leaf.
Qed.

Lemma no_finish_on_recv brain name u w (from_server : ServerToSimulator.t DescriptorProto) :
  same_tables (Simulator__init__ brain name u) w ->
  message_type from_server <> STOP ->
  finishes_no_episode w (_on_recv from_server w).2.
Proof.
  intros Htables Htype. rewrite (on_recv_dispatch _ _ _ _ _ Htables).
  assert (Hk : stable finishes_no_episode
                 (handler_of (message_type from_server) from_server ;;
                  modify_impl (Simulator_WS.set_prev_message_type
                                 (message_type from_server)))).
  { apply stable_bind; [exact _ | by apply no_finish_handler | intros _].
    apply adds_modify_impl. }
  apply Hk.
Qed.

(** X14 (when an episode is finished).  In every world of a session, in
    either mode, a cycle of [run] that begins with a previous incoming
    type other than [PREDICTION] calls the user's [episode_finish] only
    if the message it reads is [STOP]: outside the terminal step of a
    batch, an episode is finished by the server's [STOP] and by nothing
    else. *)
Theorem episode_finish_follows_stop brain name u w result :
  reachable brain name u w ->
  Simulator_WS._prev_message_type (impl w) <> PREDICTION ->
  EpisodeFinish result ∈ new_events w (run w).2 ->
  exists in_bytes from_server,
    ReadMessage (Some in_bytes) ∈ new_events w (run w).2
    /\ from_server_ParseFromString in_bytes = inr from_server
    /\ message_type from_server = STOP.
Proof.
  intros Hreach Hprev Hin.
  pose proof (reachable_tables _ _ _ _ Hreach) as Htables.
  pose proof (no_finish_before_read w Hprev) as Hbefore.
  pose proof (tables_before_read w) as Htables1.
  destruct (run w) as [r w'] eqn:Hrun. simpl in *.
  assert (Hquiet : finishes_no_episode w w' -> False).
  { intros Hno. by apply (adds_not_in _ _ _ (EpisodeFinish result) Hno). }
  apply run_inv in Hrun as [(e & Hb & ->)|(w1 & Hb & Hr)];
    rewrite Hb in Hbefore, Htables1; simpl in Hbefore, Htables1;
    [by destruct Hquiet|].
  assert (Htables1' : same_tables (Simulator__init__ brain name u) w1)
    by (etransitivity; eassumption).
  apply read_response_inv in Hr.
  assert (Hread : forall ws' in_bytes,
    finishes_no_episode w (after_read w1 ws' in_bytes)).
  { intros ws' in_bytes. etransitivity; [exact Hbefore|]. by eapply adds_step. }
  assert (Hfound : forall ws' in_bytes m r0 w2,
    from_server_ParseFromString in_bytes = inr m ->
    _on_recv m (after_read w1 ws' (Some in_bytes)) = (r0, w2) ->
    (exists evs, events w' = events w2 ++ evs
                 /\ forallb (fun e => negb (is_episode_finish e)) evs = true) ->
    exists in_bytes from_server,
      ReadMessage (Some in_bytes) ∈ new_events w w'
      /\ from_server_ParseFromString in_bytes = inr from_server
      /\ message_type from_server = STOP).
  { intros ws' in_bytes m r0 w2 Hparse Hrecv (evs3 & Hev3 & Hall3).
    destruct (decide (message_type m = STOP)) as [Hstop|Hstop].
    - exists in_bytes, m. split; [|split; assumption].
      destruct Hbefore as (evs1 & Hev1 & _).
      destruct (on_recv_grows m (after_read w1 ws' (Some in_bytes))) as [evs2 Hev2].
      rewrite Hrecv in Hev2. simpl in Hev2.
      rewrite (new_events_app w w'
                 (evs1 ++ [ReadMessage (Some in_bytes)] ++ evs2 ++ evs3)).
      + rewrite !elem_of_app. right. left. apply list_elem_of_here.
      + rewrite Hev3, Hev2, Hev1, <- !app_assoc. reflexivity.
    - destruct Hquiet. etransitivity; [apply (Hread ws' (Some in_bytes))|].
      pose proof (no_finish_on_recv brain name u (after_read w1 ws' (Some in_bytes)) m
                    Htables1' Hstop) as Hk.
      rewrite Hrecv in Hk. simpl in Hk.
      etransitivity; [exact Hk|]. by eapply adds_step. }
  inversion Hr as [? Hws|? ws ws' Hws Hread'|? ws ws' in_bytes e Hws Hread' Hparse
                  |? ws ws' in_bytes m e w2 Hws Hread' Hparse Hrecv
                  |? ws ws' in_bytes m w2 Hws Hread' Hparse Hrecv Htype
                  |? ws ws' in_bytes m w2 Hws Hread' Hparse Hrecv Htype]; subst.
  - by destruct Hquiet.
  - destruct Hquiet. apply Hread.
  - destruct Hquiet. apply Hread.
  - eapply Hfound; [exact Hparse | exact Hrecv|]. exists []. by rewrite app_nil_r.
  - eapply Hfound; [exact Hparse | exact Hrecv|]. exists []. by rewrite app_nil_r.
  - eapply Hfound; [exact Hparse | exact Hrecv|]. by exists [Close].
Qed.

End Finishing.

(** ** A failing [simulate], seen from [run] *)

Section FailingCycle.
Context `{UserSimulator} `{Runtime}.
Import ServerToSimulator.

Definition simulate_raised_event (e : Event) : bool :=
  match e with
  | Simulate _ (inl _) => true
  | _ => false
  end.

Definition no_simulate_raises : relation World :=
  adds (fun e => negb (simulate_raised_event e)).

Lemma no_raise_connect : stable no_simulate_raises connect_if_needed.
Proof. unfold no_simulate_raises. unfold_methods. stable_with adds_leaf. Qed.

Lemma no_raise_on_send to_server : stable no_simulate_raises (_on_send to_server).
Proof.
  unfold no_simulate_raises.
  apply stable_send_dispatch; [exact _|..]; intros ?; unfold_methods;
    stable_with adds_leaf.
Qed.

Lemma no_raise_on_recv from_server : stable no_simulate_raises (_on_recv from_server).
Proof.
  unfold no_simulate_raises, _on_recv.
  apply stable_bind; [exact _ | apply stable_get_impl; exact _ | intros self].
  apply stable_bind; [exact _ | | intros _; apply adds_modify_impl].
  apply stable_recv_handler; [exact _|..]; try intros ?; unfold_methods;
    stable_with adds_leaf.
Qed.

Lemma no_raise_after_batch : stable no_simulate_raises (send_to_server ;; read_response).
Proof.
  unfold send_to_server, read_response, ws_close, with_ws.
  stable_with ltac:(first [ apply no_raise_on_send | apply no_raise_on_recv
                          | adds_leaf ]).
Qed.

Lemma advance_grows i step w :
  exists evs, events (_advance i step w).2 = events w ++ evs.
Proof.
  destruct (_advance i step w) as [r w'] eqn:Hadv.
  apply advance_inv in Hadv as (evs & _ & _ & Hev & _). by exists evs.
Qed.

(** A batch whose steps were all advanced saw no [simulate] raise; one
    that was cut short by a raising [simulate] raises its error. *)
Lemma advance_steps_simulate_raised steps : forall i w r w' action e,
  advance_steps i steps w = (r, w') ->
  Simulate action (inl e) ∈ new_events w w' ->
  r = inl (wrapped Py.SimulateError e).
Proof.
  induction steps as [|step steps IH]; intros i w r w' action e; simpl.
  - unfold ret. intros [= <- <-] Hin. unfold new_events in Hin.
    rewrite drop_all in Hin. by apply elem_of_nil in Hin.
  - intros Hrun Hin.
    destruct (advance_grows i step w) as [evs1 Hev1].
    apply bind_inv in Hrun as [(e0 & Hadv & ->)|([] & w1 & Hadv & Hrest)].
    + apply advance_inv in Hadv as (evs & stored & Hspec & Hev & _).
      rewrite (new_events_app _ _ _ Hev) in Hin.
      by destruct (advanced_simulate_raised _ _ _ _ _ _ _ _ Hspec Hin) as [-> _].
    + rewrite Hadv in Hev1. simpl in Hev1.
      assert (Hgrow : exists evs2, events w' = events w1 ++ evs2).
      { pose proof (adds_advance_steps (fun _ => true) ltac:(by intros ? ?)
                      steps (S i) w1) as (evs2 & Hev2 & _).
        rewrite Hrest in Hev2. by exists evs2. }
      destruct Hgrow as [evs2 Hev2].
      rewrite (new_events_app w w' (evs1 ++ evs2)) in Hin
        by (rewrite Hev2, Hev1, <- app_assoc; reflexivity).
      apply elem_of_app in Hin as [Hin|Hin].
      * apply advance_inv in Hadv as (evs & stored & Hspec & Hev & _).
        assert (evs = evs1) as -> by (rewrite Hev in Hev1; by apply app_inv_head in Hev1).
        by destruct (advanced_simulate_raised _ _ _ _ _ _ _ _ Hspec Hin) as [[=] _].
      * rewrite <- (new_events_app w1 w' evs2 Hev2) in Hin.
        eapply IH; eassumption.
Qed.

Lemma forallb_no_raise evs :
  (forall action e, Simulate action (inl e) ∉ evs) ->
  forallb (fun e => negb (simulate_raised_event e)) evs = true.
Proof.
  intros Hnone. apply forallb_forall. intros ev Hev%list_elem_of_In.
  destruct ev as [| |action [e|x]| | | |]; try reflexivity.
  by destruct (Hnone action e).
Qed.

(** Where a cycle that saw [simulate] raise has stopped: in the batch. *)
Lemma simulate_raised_in_cycle w action e :
  Simulate action (inl e) ∈ new_events w (run w).2 ->
  exists w1 w2,
    connect_if_needed w = (inr tt, w1)
    /\ advance_batch w1 = (inl (wrapped Py.SimulateError e), w2)
    /\ run w = (inl (wrapped Py.SimulateError e), w2).
Proof.
  intros Hin.
  destruct (run w) as [r w'] eqn:Hrun. simpl in *.
  pose proof Hrun as Hrun'. unfold run in Hrun.
  apply bind_inv in Hrun as [(e0 & Hc & ->)|([] & w1 & Hc & Hk)].
  { pose proof (no_raise_connect w) as Hconnect. rewrite Hc in Hconnect.
    by destruct (adds_not_in _ _ _ (Simulate action (inl e)) Hconnect eq_refl). }
  pose proof (no_raise_connect w) as (evs1 & Hev1 & Hall1). rewrite Hc in Hev1.
  simpl in Hev1.
  pose proof (adds_advance_batch (fun _ => true) ltac:(by intros ? ?) w1)
    as (evs2 & Hev2 & _).
  apply bind_inv in Hk as [(e0 & Ha & ->)|([] & w2 & Ha & Hrest)];
    rewrite Ha in Hev2; simpl in Hev2.
  - rewrite (new_events_app w w' (evs1 ++ evs2)) in Hin
      by (rewrite Hev2, Hev1, <- app_assoc; reflexivity).
    apply elem_of_app in Hin as [Hin|Hin].
    { apply list_elem_of_In in Hin. rewrite forallb_forall in Hall1.
      specialize (Hall1 _ Hin). discriminate. }
    rewrite <- (new_events_app w1 w' evs2 Hev2) in Hin.
    assert (Hpred : Simulator_WS._prev_message_type (impl w1) = PREDICTION).
    { destruct (decide (Simulator_WS._prev_message_type (impl w1) = PREDICTION))
        as [Hp|Hp]; [exact Hp|].
      rewrite (advance_batch_no_batch _ Hp) in Ha. discriminate. }
    pose proof Ha as Ha'.
    unfold advance_batch, bind, get_impl in Ha. simpl in Ha.
    rewrite decide_True in Ha by exact Hpred.
    pose proof (advance_steps_simulate_raised _ _ _ _ _ _ _ Ha Hin) as [= ->].
    by exists w1, w'.
  - exfalso.
    assert (Hadv : no_simulate_raises w1 w2).
    { exists evs2. split; [exact Hev2|]. apply forallb_no_raise.
      intros action' e' Hin'. rewrite <- (new_events_app w1 w2 evs2 Hev2) in Hin'.
      destruct (decide (Simulator_WS._prev_message_type (impl w1) = PREDICTION))
        as [Hp|Hp].
      - unfold advance_batch, bind, get_impl in Ha. simpl in Ha.
        rewrite decide_True in Ha by exact Hp.
        by pose proof (advance_steps_simulate_raised _ _ _ _ _ _ _ Ha Hin').
      - rewrite (advance_batch_no_batch _ Hp) in Ha. injection Ha as <-.
        unfold new_events in Hin'. rewrite drop_all in Hin'.
        by apply elem_of_nil in Hin'. }
    pose proof (no_raise_after_batch w2) as Hrest'.
    change ((send_to_server ;; read_response) w2 = (r, w')) in Hrest.
    rewrite Hrest in Hrest'. simpl in Hrest'.
    assert (Hall : no_simulate_raises w w').
    { etransitivity; [by exists evs1|]. etransitivity; [exact Hadv | exact Hrest']. }
    by destruct (adds_not_in _ _ _ (Simulate action (inl e)) Hall eq_refl).
Qed.

(** X15 (a raising [simulate] fails the cycle).  If the user's
    [simulate] raises [e] at any step of the batch, the cycle ends there:
    [run] raises [SimulateError(e)] (or [e] itself when [except Exception]
    does not catch it), nothing is written to the websocket or read from
    it, and the previous incoming type stays [PREDICTION]. *)
Theorem simulate_failure_fails_the_cycle w action e :
  Simulate action (inl e) ∈ new_events w (run w).2 ->
  (run w).1 = inl (wrapped Py.SimulateError e)
  /\ io_events (new_events w (run w).2) = []
  /\ Simulator_WS._prev_message_type (impl w) = PREDICTION
  /\ Simulator_WS._prev_message_type (impl (run w).2) = PREDICTION.
Proof.
  intros (w1 & w2 & Hc & Ha & Hrun)%simulate_raised_in_cycle.
  rewrite Hrun. simpl.
  pose proof (keeps_prev_connect w) as Hp1. rewrite Hc in Hp1.
  pose proof (keeps_prev_advance_batch w1) as Hp2. rewrite Ha in Hp2.
  unfold keeps in Hp1, Hp2. simpl in Hp1, Hp2.
  assert (Hpred : Simulator_WS._prev_message_type (impl w1) = PREDICTION).
  { destruct (decide (Simulator_WS._prev_message_type (impl w1) = PREDICTION))
      as [Hp|Hp]; [exact Hp|].
    rewrite (advance_batch_no_batch _ Hp) in Ha. discriminate. }
  split; [reflexivity|]. split; [|split; congruence].
  pose proof (adds_connect _ internal_quiet w) as Hq1. rewrite Hc in Hq1.
  pose proof (adds_advance_batch _ internal_quiet w1) as Hq2. rewrite Ha in Hq2.
  apply carries_new_events.
  apply (carries_trans [] [] _ _ _ (carries_nothing _ _ Hq1)
           (carries_nothing _ _ Hq2)).
Qed.

End FailingCycle.

(** * [simulator.py]: [Simulator.run] *)

(** [bonsai_ai/exceptions.py] is not among the sources at hand, so what
    it declares is taken as given: which exceptions are instances of each
    of the three classes that [Simulator.run] names, the
    [original_exception] of a client error, and the text of an exception
    as [log.error] prints it. *)
Record Exceptions := {
  is_BonsaiClientError : exn -> bool;
  original_exception : exn -> exn;
  is_BonsaiServerError : exn -> bool;
  is_SimStateError : exn -> bool;
  str : exn -> string
}.

Definition is_KeyboardInterrupt (e : exn) : bool :=
  match e with
  | Py.KeyboardInterrupt => true
  | _ => false
  end.

Section SimulatorRun.
Context `{UserSimulator} `{Runtime}.
Import ServerToSimulator.

(** [Simulator.run].  [run_sync] drives the engine's [run] to its end
    and hands back what it returned or raised; its timeout of 1000
    seconds is left out, the clock of the model moving only when it is
    read.  The [except] clauses are tried in the order of the source. *)
Definition Simulator_run (X : Exceptions) : M bool :=
  try_except run
    (fun e => is_KeyboardInterrupt e || is_BonsaiClientError X e
              || is_BonsaiServerError X e || is_SimStateError X e)
    (fun e =>
       if is_KeyboardInterrupt e then ret false
       else if is_BonsaiClientError X e then
         log "error" (str X e) ;; raise (original_exception X e)
       else if is_BonsaiServerError X e then
         log "error" (str X e) ;; ret false
       else
         log "error" (str X e) ;; raise e).

(** The world after [log.error(e)]. *)
Definition error_logged (X : Exceptions) (e : exn) (w : World) : World :=
  {| impl := impl w; clock_reads := clock_reads w;
     events := events w ++ [Log "error" (str X e)] |}.

(** X16 (the user's exception comes out of [Simulator.run]).  Let
    [SimulateError(e)] be a [BonsaiClientError] whose
    [original_exception] is [e].  If the user's [simulate] raises [e]
    during a cycle, [Simulator.run] logs the [SimulateError] and raises
    [e] itself, not the wrapper; and if [e] is a [KeyboardInterrupt],
    which [except Exception] lets through, [Simulator.run] raises nothing
    and returns [False]. *)
Theorem simulate_error_resurfaces (X : Exceptions) w action e :
  is_BonsaiClientError X (Py.SimulateError e) = true ->
  original_exception X (Py.SimulateError e) = e ->
  Simulate action (inl e) ∈ new_events w (run w).2 ->
  Simulator_run X w
  = if Py.is_Exception e
    then (inl e, error_logged X (Py.SimulateError e) (run w).2)
    else (inr false, (run w).2).
Proof.
  intros Hclient Horiginal Hin.
  destruct (simulate_raised_in_cycle _ _ _ Hin) as (w1 & w' & _ & _ & Hrun).
  unfold Simulator_run, try_except. rewrite Hrun. simpl.
  unfold wrapped. destruct (Py.is_Exception e) eqn:Hexc.
  - simpl. rewrite Hclient. simpl.
    unfold bind, log, emit, raise. simpl. by rewrite Horiginal.
  - destruct e; try discriminate. reflexivity.
Qed.

(** A cycle whose read finds the channel closed. *)
Lemma run_closed_on_read w w1 ws ws' :
  before_read w = (inr tt, w1) ->
  Simulator_WS._ws (impl w1) = Some ws ->
  read_message ws = (None, ws') ->
  run w = (inl (connection_closed ws'), after_read w1 ws' None).
Proof.
  intros Hbefore Hws Hread. rewrite run_split. unfold bind at 1. rewrite Hbefore.
  unfold read_response, with_ws.
  unfold bind at 1. unfold bind at 1, get_impl. simpl. rewrite Hws, Hread.
  unfold bind, modify_impl, lift, emit, raise, connection_closed, after_read. simpl.
  reflexivity.
Qed.

(** X17 (trouble with the server ends the loop).  Let the engine's
    [BonsaiServerError] be an instance of the class of that name and not
    a [BonsaiClientError].  When the websocket cannot be connected, and
    when the server has closed the channel by the time the cycle reads,
    [Simulator.run] raises nothing: it logs the error and returns
    [False], so that the loop [while sim.run()] ends. *)
Theorem server_trouble_ends_the_loop (X : Exceptions) w :
  (forall msg, is_BonsaiClientError X (Py.BonsaiServerError msg) = false) ->
  (forall msg, is_BonsaiServerError X (Py.BonsaiServerError msg) = true) ->
  (forall message,
     Simulator_WS._ws (impl w) = None ->
     websocket_connect (connect_request (impl w)) = inl message ->
     Simulator_run X w
     = (inr false,
        {| impl := impl w;
           clock_reads := clock_reads w;
           events :=
             events w
             ++ [Log "info" ("trying to connect: " ++ url (connect_request (impl w)));
                 Log "error"
                   (str X (Py.BonsaiServerError
                             (Py.format "Error while connecting to websocket: {}"
                                [Py.ArgStr (Some message)])))] |}))
  /\ (forall w1 ws ws',
        before_read w = (inr tt, w1) ->
        Simulator_WS._ws (impl w1) = Some ws ->
        read_message ws = (None, ws') ->
        Simulator_run X w
        = (inr false, error_logged X (connection_closed ws') (after_read w1 ws' None))).
Proof.
  intros Hclient Hserver. split.
  - intros message Hws Hconnect.
    unfold Simulator_run, try_except.
    rewrite (run_connect_failure w message Hws Hconnect).
    simpl. rewrite Hclient, Hserver. simpl.
    unfold bind, log, emit, ret. simpl. by rewrite <- app_assoc.
  - intros w1 ws ws' Hbefore Hws Hread.
    unfold Simulator_run, try_except.
    rewrite (run_closed_on_read _ _ _ _ Hbefore Hws Hread).
    assert (Hc : is_BonsaiClientError X (connection_closed ws') = false)
      by apply Hclient.
    assert (Hs : is_BonsaiServerError X (connection_closed ws') = true)
      by apply Hserver.
    simpl. rewrite Hc, Hs. simpl. reflexivity.
Qed.

End SimulatorRun.

(** * [config.py]: the default BRAIN of a project *)

Module Config.

Set Warnings "-register-all".

(** What [json.load] returns: [None], [bool], [int], [float], [str],
    [list], and [dict] with its members in the order of the document. *)
Inductive json :=
| JNull
| JBool (b : bool)
| JInt (z : Z)
| JFloat (f : float)
| JString (s : string)
| JArray (items : list json)
| JObject (members : list (string * json)).

(** The exceptions of [_parse_brains] that are not [IOError]. *)
Inductive error :=
| KeyError (key : string)
| TypeError
| ValueError.

(** A [dict] made of the members of a JSON object: a later member
    replaces an earlier one of the same name. *)
Fixpoint dict_get (members : list (string * json)) (key : string) : option json :=
  match members with
  | [] => None
  | (k, v) :: members' =>
      match dict_get members' key with
      | Some v' => Some v'
      | None => if String.eqb k key then Some v else None
      end
  end.

(** Its keys, each once, in the order of their first insertion. *)
Fixpoint dict_keys (members : list (string * json)) (seen : list string) : list string :=
  match members with
  | [] => []
  | (k, _) :: members' =>
      if existsb (String.eqb k) seen then dict_keys members' seen
      else k :: dict_keys members' (k :: seen)
  end.

(** [v[key]] with a [str] key: only a [dict] can be subscripted by a
    string, and a missing key raises [KeyError]. *)
Definition getitem (v : json) (key : string) : error + json :=
  match v with
  | JObject members =>
      match dict_get members key with
      | Some x => inr x
      | None => inl (KeyError key)
      end
  | _ => inl TypeError
  end.

(** [for x in v]: the items of a list, the keys of a dict, the
    characters of a string; nothing else can be iterated. *)
Definition iter (v : json) : error + list json :=
  match v with
  | JArray items => inr items
  | JObject members => inr (map JString (dict_keys members []))
  | JString s =>
      inr (map (fun c => JString (String c EmptyString)) (list_ascii_of_string s))
  | _ => inl TypeError
  end.

(** [v is True]: only the object [True] itself, which [json.load] makes
    of the literal [true] and of nothing else. *)
Definition is_True (v : json) : bool :=
  match v with
  | JBool true => true
  | _ => false
  end.

(** What [open(_DOT_BRAINS)] followed by [json.load] comes to: an
    [IOError], another exception ([json.load] raises [ValueError] on a
    document that is not JSON), or the document. *)
Inductive brains_file :=
| raises_IOError
| raises (e : error)
| loads (data : json).

(** The loop of [_parse_brains] over the entries; [brain] is
    [self.brain]. *)
Fixpoint first_default (entries : list json) (brain : option json)
  : (error + unit) * option json :=
  match entries with
  | [] => (inr tt, brain)
  | entry :: entries' =>
      match getitem entry "default" with
      | inl e => (inl e, brain)
      | inr default =>
          if is_True default then
            match getitem entry "name" with
            | inl e => (inl e, brain)
            | inr name => (inr tt, Some name)
            end
          else first_default entries' brain
      end
  end.

(** [Config._parse_brains], given what reading [./.brains] comes to. *)
Definition _parse_brains (file : brains_file) (brain : option json)
  : (error + unit) * option json :=
  match file with
  | raises_IOError => (inr tt, brain)
  | raises e => (inl e, brain)
  | loads data =>
      match getitem data "brains" with
      | inl e => (inl e, brain)
      | inr brains =>
          match iter brains with
          | inl e => (inl e, brain)
          | inr entries => first_default entries brain
          end
      end
  end.

(** An entry that the loop passes over: it has a [default] member, and
    that member is not [true]. *)
Definition not_default (entry : json) : Prop :=
  exists default, getitem entry "default" = inr default /\ is_True default = false.

Lemma first_default_skips skipped entries brain :
  Forall not_default skipped ->
  first_default (skipped ++ entries) brain = first_default entries brain.
Proof.
  induction 1 as [|entry skipped (d & Hd & Hfalse) _ IH]; simpl; [reflexivity|].
  by rewrite Hd, Hfalse.
Qed.

(** X18 (the first default BRAIN wins).  When [./.brains] holds an object
    whose [brains] member is a list, and the first entry of the list
    whose [default] is [true] comes after entries that all have a
    [default] that is not [true], [_parse_brains] returns with [self.brain]
    set to the [name] of that entry, whatever [self.brain] was and whatever
    follows in the list: later entries are not looked at, be they other
    defaults or not even objects.  When no entry of the list is a
    default, [_parse_brains] returns and [self.brain] is as it was. *)
Theorem first_default_brain_wins data skipped chosen later name brain :
  getitem data "brains" = inr (JArray (skipped ++ chosen :: later)) ->
  Forall not_default skipped ->
  getitem chosen "default" = inr (JBool true) ->
  getitem chosen "name" = inr name ->
  _parse_brains (loads data) brain = (inr tt, Some name)
  /\ forall data',
       getitem data' "brains" = inr (JArray skipped) ->
       _parse_brains (loads data') brain = (inr tt, brain).
Proof.
  intros Hbrains Hskipped Hdefault Hname. split.
  - unfold _parse_brains. rewrite Hbrains. simpl iter. cbv beta iota.
    rewrite (first_default_skips _ _ _ Hskipped). simpl.
    by rewrite Hdefault, Hname.
  - intros data' Hbrains'. unfold _parse_brains. rewrite Hbrains'. simpl iter.
    cbv beta iota. rewrite <- (app_nil_r skipped).
    by rewrite (first_default_skips _ _ _ Hskipped).
Qed.

(** X19 (what [_parse_brains] lets through).  Only [IOError] is caught:
    a missing or unreadable file leaves [self.brain] as it was and is no
    error.  Everything else propagates: what [json.load] raises; a
    document that is not an object ([TypeError]) or has no [brains]
    member ([KeyError]); a [brains] member that cannot be iterated; an
    entry, met before any default, that is not an object or has no
    [default] member; and a default entry without a [name].  A [default]
    member that is not the literal [true] (the number 1, the string
    [true]) does not make an entry the default.  Whenever
    [_parse_brains] raises, [self.brain] is as it was. *)
Theorem parse_brains_failures file brain :
  _parse_brains raises_IOError brain = (inr tt, brain)
  /\ (forall e, _parse_brains (raises e) brain = (inl e, brain))
  /\ (forall e, (_parse_brains file brain).1 = inl e ->
                (_parse_brains file brain).2 = brain)
  /\ (forall members,
        dict_get members "brains" = None ->
        _parse_brains (loads (JObject members)) brain = (inl (KeyError "brains"), brain))
  /\ (forall data, (forall members, data <> JObject members) ->
                   _parse_brains (loads data) brain = (inl TypeError, brain))
  /\ (forall data skipped entry later,
        getitem data "brains" = inr (JArray (skipped ++ entry :: later)) ->
        Forall not_default skipped ->
        (forall e, getitem entry "default" = inl e ->
                   _parse_brains (loads data) brain = (inl e, brain))
        /\ (forall e, getitem entry "default" = inr (JBool true) ->
                      getitem entry "name" = inl e ->
                      _parse_brains (loads data) brain = (inl e, brain)))
  /\ (forall members default,
        dict_get members "default" = Some default ->
        default <> JBool true ->
        not_default (JObject members)).
Proof.
  split; [reflexivity|]. split; [reflexivity|]. split; [|split; [|split; [|split]]].
  - intros e. destruct file as [| e0 | data]; simpl; [discriminate | reflexivity |].
    destruct (getitem data "brains") as [e1|brains]; [reflexivity|].
    destruct (iter brains) as [e1|entries]; [reflexivity|]. simpl.
    induction entries as [|entry entries IH]; simpl; [discriminate|].
    destruct (getitem entry "default") as [e1|default]; [reflexivity|].
    destruct (is_True default); [|exact IH].
    destruct (getitem entry "name"); [reflexivity | discriminate].
  - intros members Hnone. simpl. by rewrite Hnone.
  - intros data Hdata. destruct data; try reflexivity. by destruct (Hdata members).
  - intros data skipped entry later Hbrains Hskipped. split.
    + intros e He. unfold _parse_brains. rewrite Hbrains. simpl iter. cbv beta iota.
      rewrite (first_default_skips _ _ _ Hskipped). simpl. by rewrite He.
    + intros e Hd He. unfold _parse_brains. rewrite Hbrains. simpl iter.
      cbv beta iota. rewrite (first_default_skips _ _ _ Hskipped). simpl.
      by rewrite Hd, He.
  - intros members default Hget Hne. exists default. split.
    + simpl. by rewrite Hget.
    + destruct default as [| [|] | | | | |]; try reflexivity. contradiction.
Qed.

End Config.

(** * The further theorems at work on concrete sessions *)

(** A server that cannot be reached, and a simulation that crashes. *)
Module Trouble.
Import Demo ServerToSimulator.

(** No connection is ever made. *)
Module Offline.
#[export] Instance sim : UserSimulator := user false.
#[export] Instance net : Runtime := {|
  WebSocket := socket;
  websocket_connect := fun _ => inl "ConnectionRefusedError(111, 'Connection refused')";
  write_message := fun _ ws => (inl Py.WebSocketClosedError, ws);
  read_message := fun ws => (None, ws);
  close := fun ws => ws;
  close_code := fun _ => None;
  close_reason := fun _ => None;
  time_time := seconds
|}.

Definition w0 : World := Simulator__init__ (brain false) "sim" 0%Z.
End Offline.

(** A prediction session whose user's [simulate] raises: handshake, then
    one prediction. *)
Module Crashing.
Definition frames : list bytes :=
  [[tag ACKNOWLEDGE_REGISTER]; [tag PREDICTION; Byte.x01]].

#[export] Instance sim : UserSimulator := {|
  user_state := Z;
  episode_start := fun _ _ => (inr {["x" := 0%Z]}, 0%Z);
  simulate := fun _ pos => (inl (Py.UserException "crash"), pos);
  episode_finish := fun pos => (inr tt, pos)
|}.
#[export] Instance net : Runtime := runtime frames.

Definition w0 : World := Simulator__init__ (brain true) "sim" 0%Z.
Definition w1 : World := (run w0).2.
Definition w2 : World := (run w1).2.
End Crashing.

(** A training session stopped right after the handshake. *)
Module Stopped.
Definition frames : list bytes := [[tag ACKNOWLEDGE_REGISTER]; [tag STOP]].

#[export] Instance sim : UserSimulator := user false.
#[export] Instance net : Runtime := runtime frames.

Definition w0 : World := Simulator__init__ (brain false) "sim" 0%Z.
Definition w1 : World := (run w0).2.
End Stopped.

(** The classes of [exceptions.py] as the engine uses them: the two
    wrappers are client errors that keep what they wrap. *)
Definition hierarchy : Exceptions := {|
  is_BonsaiClientError := fun e =>
    match e with
    | Py.SimulateError _ | Py.EpisodeStartError _ => true
    | _ => false
    end;
  original_exception := fun e =>
    match e with
    | Py.SimulateError original | Py.EpisodeStartError original => original
    | _ => e
    end;
  is_BonsaiServerError := fun e =>
    match e with
    | Py.BonsaiServerError _ => true
    | _ => false
    end;
  is_SimStateError := fun e =>
    match e with
    | Py.SimStateError => true
    | _ => false
    end;
  str := fun e =>
    match e with
    | Py.BonsaiServerError msg => Py.template msg
    | Py.UserException name => name
    | Py.SimulateError (Py.UserException name) => name
    | _ => "error"
    end
|}.

End Trouble.

Section TrainingSessionAgain.
Import Demo Scenario.Training ServerToSimulator.

(** After the batch has been answered and [STOP] read, nothing is
    pending. *)
Lemma no_batch_after_stop :
  reachable (brain false) "sim" 0%Z w5
  /\ Simulator_WS._prev_message_type (impl w5) <> PREDICTION
  /\ Simulator_WS._sim_steps (impl w5) = [].
Proof.
  assert (Hprev : Simulator_WS._prev_message_type (impl w5) = STOP)
    by (vm_compute; reflexivity).
  assert (Hne : Simulator_WS._prev_message_type (impl w5) <> PREDICTION)
    by (rewrite Hprev; discriminate).
  split; [exact training_w5|]. split; [exact Hne|].
  exact (no_batch_outside_prediction (brain false) "sim" 0%Z w5 training_w5 Hne).
Defined.

(** The handshake of the training session: the [READY] that follows
    carries the id 7 of the acknowledgement. *)
Lemma handshake_of_training_session :
  reachable (brain false) "sim" 0%Z w0
  /\ message_type (frame_message (tag ACKNOWLEDGE_REGISTER) []) = ACKNOWLEDGE_REGISTER
  /\ exists w',
       _on_recv (frame_message (tag ACKNOWLEDGE_REGISTER) []) w0 = (inr tt, w')
       /\ Simulator_WS._sim_id (impl w') = 7%Z
       /\ (_on_send SimulatorToServer.new w').1
          = inr {| SimulatorToServer.message_type := SimulatorToServer.READY;
                   SimulatorToServer.sim_id := 7;
                   SimulatorToServer.register_data :=
                     SimulatorToServer.register_data SimulatorToServer.new;
                   SimulatorToServer.state_data := [] |}.
Proof.
  split; [exact (reachable_init _ _ _)|]. split; [reflexivity|].
  destruct (registration_acknowledged (brain false) "sim" _ w0
              (frame_message (tag ACKNOWLEDGE_REGISTER) [])
              (reachable_init _ _ _) eq_refl)
    as (w' & Hrecv & _ & _ & _ & Hid & _ & _ & _ & _ & _ & _ & Hready).
  exists w'. split; [exact Hrecv|]. split; [exact Hid|].
  exact (Hready eq_refl SimulatorToServer.new).
Defined.

(** The first step of the batch of two: not terminal, so the iteration
    is counted and the reward added. *)
Lemma first_step_of_the_batch_is_counted :
  (_advance 0 (SimStep.new [Byte.x01]) w4).1 = inr tt
  /\ exists state reward terminal,
       Simulate (decode [Byte.x01] (Simulator_WS._prediction_schema (impl w4)))
         (inr (state, reward, terminal))
         ∈ new_events w4 (_advance 0 (SimStep.new [Byte.x01]) w4).2
       /\ if terminal
          then iteration_count (_advance 0 (SimStep.new [Byte.x01]) w4).2 = 0%Z
               /\ episode_reward (_advance 0 (SimStep.new [Byte.x01]) w4).2 = Py.Int 0
               /\ episode_count (_advance 0 (SimStep.new [Byte.x01]) w4).2
                  = (episode_count w4 + 1)%Z
          else iteration_count (_advance 0 (SimStep.new [Byte.x01]) w4).2
               = (iteration_count w4 + 1)%Z
               /\ Py.add (episode_reward w4) reward
                  = inr (episode_reward (_advance 0 (SimStep.new [Byte.x01]) w4).2)
               /\ episode_count (_advance 0 (SimStep.new [Byte.x01]) w4).2
                  = episode_count w4.
Proof.
  assert (Hrun : (_advance 0 (SimStep.new [Byte.x01]) w4).1 = inr tt)
    by (vm_compute; reflexivity).
  split; [exact Hrun|].
  exact (advance_keeps_episode_statistics 0 (SimStep.new [Byte.x01]) w4
           (_advance 0 (SimStep.new [Byte.x01]) w4).2 (pair_of_fst _ _ Hrun)).
Defined.

(** The cycle after the handshake, in training mode, starts no episode. *)
Lemma no_episode_started_after_handshake :
  reachable (brain false) "sim" 0%Z w1
  /\ Brain.config_predict (brain false) = false
  /\ Simulator_WS._prev_message_type (impl w1) <> START
  /\ Simulator_WS._prev_message_type (impl w1) <> PREDICTION
  /\ forall config result, EpisodeStart config result ∉ new_events w1 (run w1).2.
Proof.
  assert (Hprev : Simulator_WS._prev_message_type (impl w1) = ACKNOWLEDGE_REGISTER)
    by (vm_compute; reflexivity).
  assert (Hstart : Simulator_WS._prev_message_type (impl w1) <> START)
    by (rewrite Hprev; discriminate).
  assert (Hpred : Simulator_WS._prev_message_type (impl w1) <> PREDICTION)
    by (rewrite Hprev; discriminate).
  split; [exact training_w1|]. split; [reflexivity|].
  split; [exact Hstart|]. split; [exact Hpred|].
  exact (training_starts_episodes_on_start_only (brain false) "sim" 0%Z w1
           training_w1 eq_refl Hstart Hpred).
Defined.

End TrainingSessionAgain.

Section HungUpSessionAgain.
Import Demo Scenario.HungUp ServerToSimulator.

(** The world the server hung up in, and the registration the next
    cycle builds again. *)
Definition hung_up : World := (run w0).2.

Definition registration_again : (exn + SimulatorToServer.t) * World :=
  (connect_if_needed ;; advance_batch ;; _on_send SimulatorToServer.new) hung_up.

(** The cycle after the server hung up: the write fails on the closed
    socket, and the error names the close code and reason. *)
Lemma write_after_hang_up :
  registration_again.1
  = inr {| SimulatorToServer.message_type := SimulatorToServer.REGISTER;
           SimulatorToServer.sim_id := 0;
           SimulatorToServer.register_data :=
             {| SimulatorToServer.simulator_name := "sim" |};
           SimulatorToServer.state_data := [] |}
  /\ Simulator_WS._ws (impl registration_again.2)
     = Some {| inbox := []; writable := false |}
  /\ run hung_up
     = (inl (Py.BonsaiServerError
               (Py.format "Websocket connection closed. Code: {}, Reason: {}"
                  [Py.ArgInt (Some 1000%Z); Py.ArgStr (Some "bye")])),
        {| impl := Simulator_WS.set_ws (Some {| inbox := []; writable := false |})
                     (impl registration_again.2);
           clock_reads := clock_reads registration_again.2;
           events := events registration_again.2 ++ [WriteMessage [Byte.x01]] |})
  /\ Simulator_WS._prev_message_type (impl registration_again.2)
     = Simulator_WS._prev_message_type (impl hung_up).
Proof.
  assert (Hbuild :
    registration_again.1
    = inr {| SimulatorToServer.message_type := SimulatorToServer.REGISTER;
             SimulatorToServer.sim_id := 0;
             SimulatorToServer.register_data :=
               {| SimulatorToServer.simulator_name := "sim" |};
             SimulatorToServer.state_data := [] |}) by (vm_compute; reflexivity).
  assert (Hws : Simulator_WS._ws (impl registration_again.2)
                = Some {| inbox := []; writable := false |})
    by (vm_compute; reflexivity).
  split; [exact Hbuild|]. split; [exact Hws|].
  exact (write_failure_raises hung_up _ registration_again.2
           {| inbox := []; writable := false |} Py.WebSocketClosedError
           {| inbox := []; writable := false |}
           (pair_of_fst _ _ Hbuild) Hws eq_refl).
Defined.

End HungUpSessionAgain.

Section StoppedSession.
Import Demo Trouble.Stopped ServerToSimulator.

(** The cycle that reads [STOP] after the handshake finishes the
    episode, and the frame it read is that [STOP]. *)
Lemma stop_after_handshake :
  reachable (brain false) "sim" 0%Z w1
  /\ Simulator_WS._prev_message_type (impl w1) <> PREDICTION
  /\ EpisodeFinish (inr tt) ∈ new_events w1 (run w1).2
  /\ exists in_bytes from_server,
       ReadMessage (Some in_bytes) ∈ new_events w1 (run w1).2
       /\ from_server_ParseFromString in_bytes = inr from_server
       /\ message_type from_server = STOP.
Proof.
  assert (Hreach : reachable (brain false) "sim" 0%Z w1)
    by apply reachable_run, reachable_init.
  assert (Hprev : Simulator_WS._prev_message_type (impl w1) = ACKNOWLEDGE_REGISTER)
    by (vm_compute; reflexivity).
  assert (Hne : Simulator_WS._prev_message_type (impl w1) <> PREDICTION)
    by (rewrite Hprev; discriminate).
  assert (Hin : EpisodeFinish (inr tt) ∈ new_events w1 (run w1).2).
  { assert (Hlast : last (new_events w1 (run w1).2) = Some (EpisodeFinish (inr tt)))
      by (vm_compute; reflexivity).
    apply list_elem_of_lookup. eexists. rewrite <- last_lookup. exact Hlast. }
  split; [exact Hreach|]. split; [exact Hne|]. split; [exact Hin|].
  exact (episode_finish_follows_stop (brain false) "sim" 0%Z w1 (inr tt)
           Hreach Hne Hin).
Defined.

End StoppedSession.

Section OfflineSession.
Import Demo Trouble Trouble.Offline ServerToSimulator.

(** Seen from [Simulator.run], the refused connection ends the loop. *)
Lemma refused_connection_ends_the_loop :
  (forall msg, is_BonsaiClientError hierarchy (Py.BonsaiServerError msg) = false)
  /\ (forall msg, is_BonsaiServerError hierarchy (Py.BonsaiServerError msg) = true)
  /\ Simulator_WS._ws (impl w0) = None
  /\ websocket_connect (connect_request (impl w0))
     = inl "ConnectionRefusedError(111, 'Connection refused')"
  /\ Simulator_run hierarchy w0
     = (inr false,
        {| impl := impl w0;
           clock_reads := clock_reads w0;
           events :=
             events w0
             ++ [Log "info" ("trying to connect: " ++ url (connect_request (impl w0)));
                 Log "error"
                   (str hierarchy
                      (Py.BonsaiServerError
                         (Py.format "Error while connecting to websocket: {}"
                            [Py.ArgStr
                               (Some "ConnectionRefusedError(111, 'Connection refused')")])))]
        |}).
Proof.
  split; [reflexivity|]. split; [reflexivity|].
  split; [reflexivity|]. split; [reflexivity|].
  exact (proj1 (server_trouble_ends_the_loop hierarchy w0
                  (fun _ => eq_refl) (fun _ => eq_refl))
           "ConnectionRefusedError(111, 'Connection refused')" eq_refl eq_refl).
Defined.

(** The server cannot be reached: the first cycle raises, and the
    engine is as [__init__] made it. *)
Lemma connection_refused :
  Simulator_WS._ws (impl w0) = None
  /\ websocket_connect (connect_request (impl w0))
     = inl "ConnectionRefusedError(111, 'Connection refused')"
  /\ run w0
     = (inl (Py.BonsaiServerError
               (Py.format "Error while connecting to websocket: {}"
                  [Py.ArgStr (Some "ConnectionRefusedError(111, 'Connection refused')")])),
        {| impl := impl w0;
           clock_reads := clock_reads w0;
           events := events w0
                     ++ [Log "info"
                           ("trying to connect: " ++ url (connect_request (impl w0)))]
        |}).
Proof.
  split; [reflexivity|]. split; [reflexivity|].
  exact (proj1 (connect_failure_raises w0 eq_refl)
           "ConnectionRefusedError(111, 'Connection refused')" eq_refl).
Defined.

End OfflineSession.

Section CrashingSession.
Import Demo Trouble Trouble.Crashing ServerToSimulator.

Lemma crash_in_cycle :
  Simulate {["x" := 1%Z]} (inl (Py.UserException "crash")) ∈ new_events w2 (run w2).2.
Proof.
  assert (Hlast : last (new_events w2 (run w2).2)
                  = Some (Simulate {["x" := 1%Z]} (inl (Py.UserException "crash"))))
    by (vm_compute; reflexivity).
  apply list_elem_of_lookup. eexists. rewrite <- last_lookup. exact Hlast.
Defined.

(** The crash fails the whole cycle: nothing is sent for the batch. *)
Lemma crash_fails_the_cycle :
  Simulate {["x" := 1%Z]} (inl (Py.UserException "crash")) ∈ new_events w2 (run w2).2
  /\ (run w2).1 = inl (wrapped Py.SimulateError (Py.UserException "crash"))
  /\ io_events (new_events w2 (run w2).2) = []
  /\ Simulator_WS._prev_message_type (impl w2) = PREDICTION
  /\ Simulator_WS._prev_message_type (impl (run w2).2) = PREDICTION.
Proof.
  split; [exact crash_in_cycle|].
  exact (simulate_failure_fails_the_cycle w2 {["x" := 1%Z]} (Py.UserException "crash")
           crash_in_cycle).
Defined.

(** And [Simulator.run] raises the crash itself. *)
Lemma crash_comes_out_of_simulator_run :
  is_BonsaiClientError hierarchy (Py.SimulateError (Py.UserException "crash")) = true
  /\ original_exception hierarchy (Py.SimulateError (Py.UserException "crash"))
     = Py.UserException "crash"
  /\ Simulate {["x" := 1%Z]} (inl (Py.UserException "crash")) ∈ new_events w2 (run w2).2
  /\ Simulator_run hierarchy w2
     = if Py.is_Exception (Py.UserException "crash")
       then (inl (Py.UserException "crash"),
             error_logged hierarchy (Py.SimulateError (Py.UserException "crash"))
               (run w2).2)
       else (inr false, (run w2).2).
Proof.
  split; [reflexivity|]. split; [reflexivity|]. split; [exact crash_in_cycle|].
  exact (simulate_error_resurfaces hierarchy w2 {["x" := 1%Z]}
           (Py.UserException "crash") eq_refl eq_refl crash_in_cycle).
Defined.

(** The user's [simulate] raises [crash] on the one step of the batch. *)
Lemma crash_in_simulate :
  Simulate {["x" := 1%Z]} (inl (Py.UserException "crash"))
    ∈ new_events w2 (_advance 0 (SimStep.new [Byte.x01]) w2).2
  /\ (_advance 0 (SimStep.new [Byte.x01]) w2).1
     = inl (wrapped Py.SimulateError (Py.UserException "crash"))
  /\ Simulator_WS._sim_steps (impl (_advance 0 (SimStep.new [Byte.x01]) w2).2)
     = Simulator_WS._sim_steps (impl w2).
Proof.
  assert (Hin : Simulate {["x" := 1%Z]} (inl (Py.UserException "crash"))
                  ∈ new_events w2 (_advance 0 (SimStep.new [Byte.x01]) w2).2).
  { assert (Hlast : last (new_events w2 (_advance 0 (SimStep.new [Byte.x01]) w2).2)
                    = Some (Simulate {["x" := 1%Z]} (inl (Py.UserException "crash"))))
      by (vm_compute; reflexivity).
    apply list_elem_of_lookup. eexists. rewrite <- last_lookup. exact Hlast. }
  split; [exact Hin|].
  destruct (simulate_failure_ends_the_step 0 (SimStep.new [Byte.x01]) w2 _ _ _ _
              (surjective_pairing _) Hin) as (Hr & _ & Hsteps & _).
  split; [exact Hr | exact Hsteps].
Defined.

End CrashingSession.

Section BrainsFile.
Import Config.

(** A [.brains] file with two defaults and a stray entry. *)
Definition brains_document : json :=
  JObject [("brains",
            JArray [JObject [("default", JBool false); ("name", JString "a")];
                    JObject [("default", JBool true); ("name", JString "test")];
                    JString "stray";
                    JObject [("default", JBool true); ("name", JString "late")]])].

(** The first default is taken, and what follows it is never looked at. *)
Lemma second_entry_is_the_default :
  getitem brains_document "brains"
  = inr (JArray ([JObject [("default", JBool false); ("name", JString "a")]]
                 ++ JObject [("default", JBool true); ("name", JString "test")]
                    :: [JString "stray";
                        JObject [("default", JBool true); ("name", JString "late")]]))
  /\ Forall not_default [JObject [("default", JBool false); ("name", JString "a")]]
  /\ _parse_brains (loads brains_document) (Some (JString "from the environment"))
     = (inr tt, Some (JString "test")).
Proof.
  assert (Hskipped :
    Forall not_default [JObject [("default", JBool false); ("name", JString "a")]]).
  { constructor; [|constructor]. exists (JBool false). split; reflexivity. }
  split; [reflexivity|]. split; [exact Hskipped|].
  exact (proj1 (first_default_brain_wins brains_document
                  [JObject [("default", JBool false); ("name", JString "a")]]
                  (JObject [("default", JBool true); ("name", JString "test")])
                  [JString "stray";
                   JObject [("default", JBool true); ("name", JString "late")]]
                  (JString "test") (Some (JString "from the environment"))
                  eq_refl Hskipped eq_refl eq_refl)).
Defined.

End BrainsFile.
